(** * TheOneSuspender: background coordinator

    A shallow embedding of the state store ([state.js]) and of the message
    router, event dispatcher and batched reloader ([background/listeners.js]),
    with the properties of the coordinator proved over it.

    Conventions of the embedding.
    - JavaScript values that cross the message channel are [jsval]s; numbers
      are the integers the host hands out (tab ids, window ids, counts).
    - A function of the extension is a computation in the monad [M]: it
      threads the [World] (module variables of [state.js], the durable
      [chrome.storage.local] area, pending timers and the virtual clock, the
      trace of host and collaborator calls, the log) and completes normally
      or by throwing an [Error] whose message is kept.
    - The browser and the collaborators that are not part of this subsystem
      are a [Host]: an oracle that tells, from the calls issued so far,
      whether the next call fails and what it returns.
    - An [async] function runs to completion: an [await] on a host call
      resolves at once, an [await] on a timer advances the virtual clock and
      runs the timer callbacks that fall due meanwhile. *)

From Stdlib Require Import ZArith Lia.
From stdpp Require Import gmap strings list fin_maps.

Local Open Scope string_scope.
Local Open Scope list_scope.
Local Open Scope Z_scope.

Set Warnings "-clear-no-such-hyp".

(** ** JavaScript values *)

Set Warnings "-register-all".

Inductive jsval : Type :=
| JUndefined
| JNull
| JBool (b : bool)
| JNum (n : Z)
| JStr (s : string)
| JArr (items : list jsval)
| JObj (fields : list (string * jsval)).

(** [!!v] *)
Definition truthy (v : jsval) : bool :=
  match v with
  | JUndefined | JNull => false
  | JBool b => b
  | JNum n => negb (n =? 0)
  | JStr s => negb (String.eqb s "")
  | JArr _ | JObj _ => true
  end.

(** [typeof v === 'number'] *)
Definition is_number (v : jsval) : bool :=
  match v with JNum _ => true | _ => false end.

(** [typeof v === 'object'] (which [null] and arrays satisfy too) *)
Definition is_object (v : jsval) : bool :=
  match v with JNull | JArr _ | JObj _ => true | _ => false end.

(** [Array.isArray(v)] *)
Definition is_array (v : jsval) : bool :=
  match v with JArr _ => true | _ => false end.

(** [v === s] for a string [s] *)
Definition is_str (v : jsval) (s : string) : bool :=
  match v with JStr s' => String.eqb s' s | _ => false end.

(** [v === n] for a number [n] *)
Definition is_num (v : jsval) (n : Z) : bool :=
  match v with JNum n' => n' =? n | _ => false end.

(** [a === b] on primitive values (two objects are never the same here) *)
Definition strict_eq_prim (a b : jsval) : bool :=
  match a, b with
  | JUndefined, JUndefined | JNull, JNull => true
  | JBool x, JBool y => Bool.eqb x y
  | JNum x, JNum y => x =? y
  | JStr x, JStr y => String.eqb x y
  | _, _ => false
  end.

Fixpoint assoc (k : string) (fs : list (string * jsval)) : jsval :=
  match fs with
  | [] => JUndefined
  | (k', v) :: fs' => if String.eqb k' k then v else assoc k fs'
  end.

(** [o.k] on a value that is not [null] or [undefined] *)
Definition field (o : jsval) (k : string) : jsval :=
  match o with
  | JObj fs => assoc k fs
  | _ => JUndefined
  end.

(** [s.startsWith(p)] *)
Definition startsWith (s p : string) : bool := String.prefix p s.

(** [a || b] *)
Definition js_or (a b : jsval) : jsval := if truthy a then a else b.

Definition has_key (k : string) (fs : list (string * jsval)) : bool :=
  existsb (λ kv, String.eqb kv.1 k) fs.

(** [{ ...a, ...b }] *)
Definition js_spread (a b : jsval) : jsval :=
  match a, b with
  | JObj fa, JObj fb =>
      JObj (fb ++ List.filter (λ kv, negb (has_key kv.1 fb)) fa)
  | JObj fa, _ => JObj fa
  | _, JObj fb => JObj fb
  | _, _ => JObj []
  end.

(** [s.includes(p)] *)
Definition includes (s p : string) : bool :=
  match String.index 0 p s with Some _ => true | None => false end.

(** [l.slice(start, end)] *)
Definition js_slice {A} (l : list A) (start end_ : Z) : list A :=
  let len := Z.of_nat (length l) in
  let k := if start <? 0 then Z.max (len + start) 0 else Z.min start len in
  let final := if end_ <? 0 then Z.max (len + end_) 0 else Z.min end_ len in
  take (Z.to_nat (final - k)) (drop (Z.to_nat k) l).

(** ** Host objects *)

(** A [chrome.tabs.Tab]; [id] and [url] are optional in the host API. *)
Record Tab := {
  tab_id : jsval;
  tab_windowId : jsval;
  tab_url : option string;
  tab_title : jsval
}.

(** A [chrome.windows.Window]. *)
Record Window := {
  win_id : Z;
  win_focused : bool
}.

(** [MessageSender] *)
Record Sender := {
  sender_id : option string;
  sender_url : option string;
  sender_tab : option Tab
}.

(** [chrome.windows.WINDOW_ID_NONE] *)
Definition WINDOW_ID_NONE : Z := -1.

(** The strings of [common/constants.js] and [common/prefs.js], which are
    not among the sources: storage keys, message kinds, alarm names, and the
    default preferences. They are a parameter of the development. *)
Class Constants := {
  STORAGE_KEYS_BULK_RUNNING : string;
  STORAGE_KEYS_FAVICON_REFRESH_RUNNING : string;
  MSG_SAVE_SETTINGS : string;
  MSG_SAVE_WHITELIST : string;
  MSG_PREFS_CHANGED : string;
  MSG_SUSPEND_TAB : string;
  MSG_UNSUSPEND_TAB : string;
  MSG_SUSPEND_ALL_TABS_IN_WINDOW : string;
  MSG_UNSUSPEND_ALL_TABS_IN_WINDOW : string;
  MSG_SUSPEND_ALL_TABS_ALL_SPECS : string;
  MSG_UNSUSPEND_ALL_TABS_ALL_SPECS : string;
  MSG_SUSPEND_SELECTED_TABS : string;
  MSG_UNSUSPEND_SELECTED_TABS : string;
  MSG_CLEAR_FAVICON_CACHE : string;
  MSG_REFRESH_ALL_SUSPENDED_FAVICONS : string;
  MSG_GET_EXTENSION_STATS : string;
  MSG_GET_SKIPPED_TABS : string;
  MSG_RESET_BULK_OP_RUNNING : string;
  MSG_FAVICON_REFRESH_PROGRESS : string;
  MSG_FAVICON_REFRESH_DONE : string;
  SUSPENDED_PAGE_PATH : string;
  TS_SESSION_FREQUENT_SAVE : string;
  PREFS_KEY : string;
  defaultPrefs : jsval
}.

(** ** Calls that leave the subsystem *)

Inductive Call : Type :=
(* chrome.* *)
| storage_local_get (key : string)
| storage_local_set (key : string) (v : jsval)
| runtime_sendMessage (msg : jsval)
| tabs_query (q : jsval)
| tabs_get (id : jsval)
| tabs_reload (id : jsval)
| tabs_sendMessage (id : jsval) (msg : jsval)
| windows_get (w : Z)
| windows_getAll
| windows_getCurrent
| alarms_clear (name : string)
| alarms_create (name : string) (periodInMinutes : jsval)
| alarms_getAll
(* Preferences *)
| Preferences_savePrefs (settings : jsval)
| Preferences_saveWhitelist (l : jsval)
(* Scheduling *)
| Scheduling_scheduleTab (id : jsval)
| Scheduling_unscheduleTab (id : jsval)
| Scheduling_scheduleAllTabs
| Scheduling_debouncedScheduleAllTabsAlarmBacked
| Scheduling_getSchedulingSnapshot
| Scheduling_removeTabSuspendTime (id : Z)
(* Suspension *)
| Suspension_suspendTab (id : jsval) (isManual : bool)
| Suspension_unsuspendTab (id : jsval) (shouldFocus : jsval)
| Suspension_suspendAllTabsInWindow (w : jsval) (isManual : bool)
| Suspension_unsuspendAllTabsInWindow (w : jsval)
| Suspension_suspendAllTabsAllSpecs (isManual : bool)
| Suspension_unsuspendAllTabsAllSpecs
| Suspension_shouldSkipTabForScheduling (t : Tab) (strict : bool)
(* the reply channel of a message *)
| sendResponse (r : jsval).

(** [Preferences.prefs], as far as the listeners read it. *)
Record Prefs := {
  suspendAfter : jsval;
  unsavedFormHandling : jsval;
  neverSuspendLastWindow : bool
}.

(** [Scheduling.getSchedulingSnapshot()] *)
Record Snapshot := {
  snap_size : jsval;
  snap_entries : list jsval   (* the [tabId] of each entry *)
}.

(** The browser and the collaborators. Every oracle sees the calls issued
    so far. [fails] tells whether the call rejects (or throws), and with
    which message. *)
Record Host := {
  runtime_id : string;
  fails : list Call → Call → option string;
  value : list Call → Call → jsval;
  tabs_of : list Call → Call → list Tab;
  tab_of : list Call → Call → option Tab;
  windows_of : list Call → list Window;
  window_of : list Call → Call → option Window;
  prefs_of : list Call → Prefs;
  snapshot_of : list Call → Snapshot
}.

(** ** The world *)

Inductive LogEntry : Type :=
| Log (msg : string)
| DetailedLog (msg : string)
| LogWarning (msg : string)
| LogError (msg : string)
(* the two lines of the batched reloader, with the numbers they print *)
| LogRefreshProgress (done total processed errors : Z)
| LogRefreshCompleted (processed errors duration : Z).

(** A pending [setTimeout]. The only callback that [state.js] leaves pending
    is the bulk-operation watchdog, so a timer is its handle and the time it
    is due. Handles are positive integers. *)
Record Timer := {
  timer_id : positive;
  timer_due : Z
}.

Record World := {
  (* module variables of state.js *)
  lastFocusedWindowId : Z;
  activeTabsByWindow : gmap Z jsval;
  bulkOpTimeoutId : option positive;
  (* chrome.storage.local *)
  storage_local : gmap string jsval;
  (* timers and the virtual clock, in milliseconds *)
  timers : list Timer;
  next_timer_id : positive;
  now : Z;
  (* observations *)
  trace : list Call;
  log : list LogEntry
}.

Definition set_lastFocusedWindowId (x : Z) (w : World) : World :=
  {| lastFocusedWindowId := x; activeTabsByWindow := activeTabsByWindow w;
     bulkOpTimeoutId := bulkOpTimeoutId w; storage_local := storage_local w;
     timers := timers w; next_timer_id := next_timer_id w; now := now w;
     trace := trace w; log := log w |}.

Definition set_activeTabsByWindow (x : gmap Z jsval) (w : World) : World :=
  {| lastFocusedWindowId := lastFocusedWindowId w; activeTabsByWindow := x;
     bulkOpTimeoutId := bulkOpTimeoutId w; storage_local := storage_local w;
     timers := timers w; next_timer_id := next_timer_id w; now := now w;
     trace := trace w; log := log w |}.

Definition set_bulkOpTimeoutId (x : option positive) (w : World) : World :=
  {| lastFocusedWindowId := lastFocusedWindowId w;
     activeTabsByWindow := activeTabsByWindow w;
     bulkOpTimeoutId := x; storage_local := storage_local w;
     timers := timers w; next_timer_id := next_timer_id w; now := now w;
     trace := trace w; log := log w |}.

Definition set_storage_local (x : gmap string jsval) (w : World) : World :=
  {| lastFocusedWindowId := lastFocusedWindowId w;
     activeTabsByWindow := activeTabsByWindow w;
     bulkOpTimeoutId := bulkOpTimeoutId w; storage_local := x;
     timers := timers w; next_timer_id := next_timer_id w; now := now w;
     trace := trace w; log := log w |}.

Definition set_timers (x : list Timer) (w : World) : World :=
  {| lastFocusedWindowId := lastFocusedWindowId w;
     activeTabsByWindow := activeTabsByWindow w;
     bulkOpTimeoutId := bulkOpTimeoutId w; storage_local := storage_local w;
     timers := x; next_timer_id := next_timer_id w; now := now w;
     trace := trace w; log := log w |}.

Definition set_next_timer_id (x : positive) (w : World) : World :=
  {| lastFocusedWindowId := lastFocusedWindowId w;
     activeTabsByWindow := activeTabsByWindow w;
     bulkOpTimeoutId := bulkOpTimeoutId w; storage_local := storage_local w;
     timers := timers w; next_timer_id := x; now := now w;
     trace := trace w; log := log w |}.

Definition set_now (x : Z) (w : World) : World :=
  {| lastFocusedWindowId := lastFocusedWindowId w;
     activeTabsByWindow := activeTabsByWindow w;
     bulkOpTimeoutId := bulkOpTimeoutId w; storage_local := storage_local w;
     timers := timers w; next_timer_id := next_timer_id w; now := x;
     trace := trace w; log := log w |}.

Definition set_trace (x : list Call) (w : World) : World :=
  {| lastFocusedWindowId := lastFocusedWindowId w;
     activeTabsByWindow := activeTabsByWindow w;
     bulkOpTimeoutId := bulkOpTimeoutId w; storage_local := storage_local w;
     timers := timers w; next_timer_id := next_timer_id w; now := now w;
     trace := x; log := log w |}.

Definition set_log (x : list LogEntry) (w : World) : World :=
  {| lastFocusedWindowId := lastFocusedWindowId w;
     activeTabsByWindow := activeTabsByWindow w;
     bulkOpTimeoutId := bulkOpTimeoutId w; storage_local := storage_local w;
     timers := timers w; next_timer_id := next_timer_id w; now := now w;
     trace := trace w; log := x |}.

(** The world of a service worker that has just started: the module
    variables at their initialisers, nothing pending. The durable storage
    [st] and the clock are what the worker finds. *)
Definition fresh_world (st : gmap string jsval) (t : Z) : World :=
  {| lastFocusedWindowId := WINDOW_ID_NONE; activeTabsByWindow := ∅;
     bulkOpTimeoutId := None; storage_local := st;
     timers := []; next_timer_id := 1%positive; now := t;
     trace := []; log := [] |}.

(** ** Computations *)

(** How a computation ends: with a value, with a thrown [Error] (its
    message), or not at all. *)
Inductive Completion (A : Type) : Type :=
| Normal (a : A)
| Throw (message : string)
| Diverge.
Arguments Normal {A} a.
Arguments Throw {A} message.
Arguments Diverge {A}.

Definition M (A : Type) : Type := World → Completion A * World.

#[global] Instance M_ret : MRet M := λ A a w, (Normal a, w).

#[global] Instance M_bind : MBind M := λ A B f m w,
  match m w with
  | (Normal a, w') => f a w'
  | (Throw e, w') => (Throw e, w')
  | (Diverge, w') => (Diverge, w')
  end.

Definition throw {A} (e : string) : M A := λ w, (Throw e, w).

Definition diverge {A} : M A := λ w, (Diverge, w).

Definition get_world : M World := λ w, (Normal w, w).

Definition modify (f : World → World) : M unit := λ w, (Normal tt, f w).

(** [try { body } catch (e) { handler }] *)
Definition try_catch {A} (body : M A) (handler : string → M A) : M A := λ w,
  match body w with
  | (Throw e, w') => handler e w'
  | r => r
  end.

(** [try { body } finally { fin }] *)
Definition try_finally {A} (body : M A) (fin : M unit) : M A := λ w,
  match body w with
  | (Diverge, w') => (Diverge, w')
  | (r, w') =>
      match fin w' with
      | (Normal _, w'') => (r, w'')
      | (Throw e, w'') => (Throw e, w'')
      | (Diverge, w'') => (Diverge, w'')
      end
  end.

(** The outcome of a promise that settles. *)
Definition settle {A} (m : M A) : M (Completion A) := λ w,
  match m w with
  | (Diverge, w') => (Diverge, w')
  | (r, w') => (Normal r, w')
  end.

(** [if (c) { body }] *)
Definition when (c : bool) (body : M unit) : M unit :=
  if c then body else mret tt.

(** [for (const x of l) { body(x) }] *)
Fixpoint for_each {A} (l : list A) (body : A → M unit) : M unit :=
  match l with
  | [] => mret tt
  | x :: l' => _ ← body x; for_each l' body
  end.

(** [Logger.log], [Logger.detailedLog], [Logger.logWarning] and
    [Logger.logError] of [common/logger.js], which is not among the
    sources: a line is appended to the log, nothing is thrown. The text of a
    line is kept without the values interpolated into it. *)
Definition logger (e : LogEntry) : M unit :=
  modify (λ w, set_log (log w ++ [e]) w).

(** ** The host interface and [state.js] *)

Section Coordinator.
Context {K : Constants} (h : Host).

(** A call that is awaited (or made synchronously): it is recorded, and it
    throws when the host says so. The result is the trace before the call,
    which is what the oracles of [h] answer from. *)
Definition issue (c : Call) : M (list Call) := λ w,
  let w' := set_trace (trace w ++ [c]) w in
  match fails h (trace w) c with
  | Some e => (Throw e, w')
  | None => (Normal (trace w), w')
  end.

Definition call (c : Call) : M unit := _ ← issue c; mret tt.
Definition call_value (c : Call) : M jsval := tr ← issue c; mret (value h tr c).
Definition call_tabs (c : Call) : M (list Tab) := tr ← issue c; mret (tabs_of h tr c).
Definition call_tab (c : Call) : M (option Tab) := tr ← issue c; mret (tab_of h tr c).
Definition call_windows : M (list Window) := tr ← issue windows_getAll; mret (windows_of h tr).
Definition call_window (c : Call) : M (option Window) := tr ← issue c; mret (window_of h tr c).
Definition call_snapshot : M Snapshot :=
  tr ← issue Scheduling_getSchedulingSnapshot; mret (snapshot_of h tr).

(** A call whose promise is dropped: it is recorded, a rejection goes
    nowhere. The reply function of a message is used this way too. *)
Definition post (c : Call) : M unit := modify (λ w, set_trace (trace w ++ [c]) w).

(** [Preferences.prefs] *)
Definition read_prefs : M Prefs := λ w, (Normal (prefs_of h (trace w)), w).

(** [chrome.runtime.getURL(path)] *)
Definition getURL (path : string) : string :=
  ("chrome-extension://" ++ runtime_id h ++ "/" ++ path)%string.

(** [await chrome.storage.local.get(key)] followed by [obj[key]] *)
Definition storage_get (key : string) : M jsval :=
  _ ← call (storage_local_get key);
  w ← get_world;
  mret (default JUndefined (storage_local w !! key)).

(** [await chrome.storage.local.set({ [key]: v })] *)
Definition storage_set (key : string) (v : jsval) : M unit :=
  _ ← call (storage_local_set key v);
  modify (λ w, set_storage_local (<[key := v]> (storage_local w)) w).

(** *** Timers *)

Definition BULK_OP_TIMEOUT_MS : Z := 10 * 60 * 1000.

Definition setTimeout (ms : Z) : M positive := λ w,
  let id := next_timer_id w in
  let t := {| timer_id := id; timer_due := now w + Z.max 0 ms |} in
  (Normal id, set_next_timer_id (Pos.succ id) (set_timers (timers w ++ [t]) w)).

Definition clearTimeout (id : positive) : M unit :=
  modify (λ w, set_timers (filter (λ t, timer_id t ≠ id) (timers w)) w).

(** The callback that [setBulkOpRunning] hands to [setTimeout]. *)
Definition bulkOpTimeout : M unit :=
  _ ← logger (Log "Bulk operation timeout reached (10 minutes), automatically resetting BulkOpRunning to false");
  try_catch
    (_ ← storage_set STORAGE_KEYS_BULK_RUNNING (JBool false);
     _ ← modify (set_bulkOpTimeoutId None);
     try_catch
       (call (runtime_sendMessage
                (JObj [("type", JStr "MSG_resetBulkOpRunning");
                       ("reason", JStr "timeout")])))
       (λ _, logger (DetailedLog "Could not send bulk op timeout message (no listeners)")))
    (λ _, logger (LogError "Failed to reset BulkOpRunning on timeout")).

(** Timers that are due leave the table and their callbacks run, oldest
    first. *)
Definition run_due_timers : M unit := λ w,
  let due := filter (λ t, timer_due t ≤ now w) (timers w) in
  let pending := filter (λ t, ¬ timer_due t ≤ now w) (timers w) in
  for_each due (λ _, bulkOpTimeout) (set_timers pending w).

(** [ms] milliseconds pass. *)
Definition elapse (ms : Z) : M unit :=
  _ ← modify (λ w, set_now (now w + Z.max 0 ms) w);
  run_due_timers.

(** [await new Promise(r => setTimeout(r, ms))] *)
Definition sleep (ms : Z) : M unit := elapse ms.

(** *** Network status *)

(** [isOfflineMode] is a module variable that only [isOffline] and
    [updateOfflineStatus] use: it is passed in and handed back.
    [navigator.onLine] belongs to the browser; a function that reads it is
    given what its successive reads answer. *)
Definition isOffline (isOfflineMode : jsval) : jsval := isOfflineMode.

(** [updateOfflineStatus(status)]. The parameter defaults to [null], so an
    argument that is left out or [undefined] is [JNull]. [onLine1] and
    [onLine2] are the answers of the two reads of [navigator.onLine] that
    the call makes when [status] is [null]. The value returned is the new
    [isOfflineMode]. *)
Definition updateOfflineStatus (onLine1 onLine2 : bool) (status : jsval) : M jsval :=
  let status := match status with JUndefined => JNull | _ => status end in
  match status with
  | JNull =>
      let wasOffline := negb onLine1 in
      let isOfflineMode := negb onLine2 in
      _ ← when (negb (Bool.eqb wasOffline isOfflineMode))
            (logger (Log "Network status changed"));
      mret (JBool isOfflineMode)
  | _ => mret status
  end.

(** *** Window focus state *)

Definition getLastFocusedWindow (w : World) : Z := lastFocusedWindowId w.

Definition updateLastFocusedWindow (windowId : Z) (w : World) : World :=
  if decide (windowId ≠ WINDOW_ID_NONE) then set_lastFocusedWindowId windowId w
  else w.

Definition setActiveTabForWindow (windowId : Z) (tabId : jsval) (w : World) : World :=
  set_activeTabsByWindow (<[windowId := tabId]> (activeTabsByWindow w)) w.

(** [Map.prototype.get]: [undefined] for a key that is not there. *)
Definition getActiveTabForWindow (windowId : Z) (w : World) : jsval :=
  default JUndefined (activeTabsByWindow w !! windowId).

Definition removeWindowTracking (windowId : Z) (w : World) : World :=
  let hadEntry := bool_decide (is_Some (activeTabsByWindow w !! windowId)) in
  let w1 := set_activeTabsByWindow (delete windowId (activeTabsByWindow w)) w in
  let w2 :=
    if hadEntry
    then set_log (log w1 ++ [DetailedLog "Removed window from activeTabsByWindow tracking"]) w1
    else w1 in
  if decide (lastFocusedWindowId w2 = windowId)
  then set_log (log w2 ++ [DetailedLog "Reset lastFocusedWindowId because window was removed"])
         (set_lastFocusedWindowId WINDOW_ID_NONE w2)
  else w2.

(** The loop of [cleanupStateReferences] over the keys of the map; the
    state is the map and [removedEntries]. *)
Fixpoint cleanup_keys (windowIds : gset Z) (keys : list Z)
    (acc : gmap Z jsval * nat) : gmap Z jsval * nat :=
  match keys with
  | [] => acc
  | windowId :: keys' =>
      cleanup_keys windowIds keys'
        (if decide (windowId ∉ windowIds)
         then (delete windowId acc.1, S acc.2)
         else acc)
  end.

Definition cleanupStateReferences : M unit :=
  try_catch
    (windows ← call_windows;
     let windowIds : gset Z := list_to_set (win_id <$> windows) in
     w ← get_world;
     let keys := (map_to_list (activeTabsByWindow w)).*1 in
     let '(tracked, removed) := cleanup_keys windowIds keys (activeTabsByWindow w, 0%nat) in
     _ ← modify (set_activeTabsByWindow tracked);
     _ ← for_each (filter (λ k, k ∉ windowIds) keys) (λ _,
           logger (DetailedLog "Removed stale window from activeTabsByWindow during cleanup"));
     w ← get_world;
     removedEntries ←
       (if decide (lastFocusedWindowId w ≠ WINDOW_ID_NONE ∧ lastFocusedWindowId w ∉ windowIds)
        then
          _ ← modify (set_lastFocusedWindowId WINDOW_ID_NONE);
          _ ← logger (Log "Reset stale lastFocusedWindowId during cleanup");
          mret (S removed)
        else mret removed);
     when (bool_decide (0 < removedEntries)%nat)
       (logger (Log "State cleanup removed stale entries")))
    (λ _, logger (LogError "Error during state cleanup:")).

(** *** Persisted runtime flags *)

Definition getBulkOpRunning : M bool :=
  try_catch
    (v ← storage_get STORAGE_KEYS_BULK_RUNNING; mret (truthy v))
    (λ _, _ ← logger (LogError "getBulkOpRunning failed"); mret false).

(** A handle is never 0, so [if (bulkOpTimeoutId)] tests for a handle. *)
Definition setBulkOpRunning (value : jsval) : M unit :=
  try_catch
    (w ← get_world;
     _ ← match bulkOpTimeoutId w with
         | Some id => _ ← clearTimeout id; modify (set_bulkOpTimeoutId None)
         | None => mret tt
         end;
     _ ← storage_set STORAGE_KEYS_BULK_RUNNING (JBool (truthy value));
     when (truthy value)
       (id ← setTimeout BULK_OP_TIMEOUT_MS;
        _ ← modify (set_bulkOpTimeoutId (Some id));
        logger (Log "Bulk operation started with 10-minute timeout")))
    (λ _, logger (LogError "setBulkOpRunning failed")).

Definition getFaviconRefreshRunning : M bool :=
  try_catch
    (v ← storage_get STORAGE_KEYS_FAVICON_REFRESH_RUNNING; mret (truthy v))
    (λ _, _ ← logger (LogError "getFaviconRefreshRunning failed"); mret false).

Definition setFaviconRefreshRunning (value : jsval) : M unit :=
  try_catch
    (storage_set STORAGE_KEYS_FAVICON_REFRESH_RUNNING (JBool (truthy value)))
    (λ _, logger (LogError "setFaviconRefreshRunning failed")).

(** ** [background/listeners.js] *)

Definition broadcastFaviconRefreshProgress (isRunning : bool) : M unit :=
  post (runtime_sendMessage
          (JObj [("type", JStr (if isRunning then MSG_FAVICON_REFRESH_PROGRESS
                                else MSG_FAVICON_REFRESH_DONE))])).

Definition validateMessageSender (sender : Sender) (requiresExtensionOrigin : bool) : bool :=
  if requiresExtensionOrigin then
    bool_decide (sender_id sender = Some (runtime_id h)) &&
    match sender_url sender with
    | Some url => negb (String.eqb url "") && startsWith url (getURL "")
    | None => false
    end
  else
    match sender_tab sender with
    | Some tab => is_number (tab_id tab)
    | None => false
    end.

Definition notifyAllTabsPrefsChanged : M unit :=
  try_catch
    (tabs ← call_tabs (tabs_query (JObj [("url", JArr [JStr "http://*/*"; JStr "https://*/*"])]));
     _ ← for_each tabs (λ tab,
           when (truthy (tab_id tab) &&
                 match tab_url tab with
                 | Some url => negb (String.eqb url "") &&
                               negb (startsWith url "chrome://") &&
                               negb (startsWith url "about:")
                 | None => false
                 end)
             (post (tabs_sendMessage (tab_id tab) (JObj [("type", JStr MSG_PREFS_CHANGED)]))));
     logger (DetailedLog "Sent prefsChanged to all relevant tabs."))
    (λ _, logger (LogError "Error in notifyAllTabsPrefsChanged")).

(** *** The batched reloader *)

(** [tab => tab.id && typeof tab.id === 'number'] *)
Definition validTab (tab : Tab) : bool :=
  truthy (tab_id tab) && is_number (tab_id tab).

(** One member of a batch: the body of the [async (tab, index) => ...]
    callback. The members of a batch start together at [batchStart]; member
    [index] wakes [perTabDelayMs * index / len] after that (the whole
    milliseconds of the quotient, which is what [setTimeout] waits). The
    state is [(processed, errors)]. *)
Definition reload_member (batchStart len perTabDelayMs : Z)
    (tab : Tab) (index : Z) (counts : Z * Z) : M (Z * Z) :=
  try_catch
    (_ ← when (bool_decide (0 < index) && bool_decide (0 < perTabDelayMs))
           (w ← get_world;
            sleep (batchStart + perTabDelayMs * index / len - now w));
     _ ← call (tabs_reload (tab_id tab));
     mret (counts.1 + 1, counts.2))
    (λ _,
     _ ← logger (LogError "Favicon refresh failed for tab");
     mret (counts.1, counts.2 + 1)).

(** [batch.map(...)] and [await Promise.allSettled(batchPromises)] *)
Fixpoint reload_batch (batchStart len perTabDelayMs : Z)
    (batch : list Tab) (index : Z) (counts : Z * Z) : M (Z * Z) :=
  match batch with
  | [] => mret counts
  | tab :: batch' =>
      counts' ← reload_member batchStart len perTabDelayMs tab index counts;
      reload_batch batchStart len perTabDelayMs batch' (index + 1) counts'
  end.

(** The [for (let i = 0; i < validTabs.length; i += batchSize)] loop. It
    diverges when its fuel runs out. *)
Fixpoint reload_loop (fuel : nat) (validTabs : list Tab)
    (batchSize perTabDelayMs batchDelayMs : Z) (i : Z) (counts : Z * Z)
    : M (Z * Z) :=
  match fuel with
  | O => diverge
  | S fuel' =>
      if bool_decide (i < Z.of_nat (length validTabs)) then
        let batch := js_slice validTabs i (i + batchSize) in
        w ← get_world;
        counts' ← reload_batch (now w) (Z.of_nat (length batch)) perTabDelayMs batch 0 counts;
        _ ← when (bool_decide (i + batchSize < Z.of_nat (length validTabs)) &&
                  bool_decide (0 < batchDelayMs))
              (sleep batchDelayMs);
        _ ← logger (LogRefreshProgress (i + Z.of_nat (length batch))
                      (Z.of_nat (length validTabs)) counts'.1 counts'.2);
        reload_loop fuel' validTabs batchSize perTabDelayMs batchDelayMs (i + batchSize) counts'
      else mret counts
  end.

(** The fuel is one more than the number of valid tabs: a loop that ends at
    all ends within that many rounds ([reload_loop_fuel], [reload_loop_stuck]). *)
Definition reloadSuspendedTabsBatched (tabs : list Tab)
    (batchSize perTabDelayMs batchDelayMs : Z) : M Z :=
  w ← get_world;
  let startTime := now w in
  let validTabs := List.filter validTab tabs in
  _ ← logger (Log "Favicon refresh: Processing valid tabs out of total tabs");
  counts ← reload_loop (S (length validTabs)) validTabs
             batchSize perTabDelayMs batchDelayMs 0 (0, 0);
  w ← get_world;
  let duration := now w - startTime in
  _ ← logger (LogRefreshCompleted counts.1 counts.2 duration);
  mret counts.1.

(** *** The message router *)

(** [asyncFunction().then(sendResponse).catch(...)]; the reply function
    does not throw. *)
Definition handleAsyncMessage (asyncFunction : M jsval) : M unit :=
  outcome ← settle asyncFunction;
  match outcome with
  | Normal result => post (sendResponse result)
  | Throw message =>
      _ ← logger (LogError message);
      post (sendResponse
              (JObj [("error", JStr (if String.eqb message "" then "Unknown error"
                                     else message))]))
  | Diverge => diverge
  end.

Definition rescheduleSessionAutoSave : M unit :=
  try_catch
    (_ ← call_value (alarms_clear TS_SESSION_FREQUENT_SAVE);
     _ ← logger (Log "Session auto-save alarm cleared");
     stored ← storage_get PREFS_KEY;
     let currentPrefs := js_spread defaultPrefs (js_or stored (JObj [])) in
     let saveFrequency := js_or (field currentPrefs "sessionAutoSaveFrequency") (JNum 5) in
     _ ← call (alarms_create TS_SESSION_FREQUENT_SAVE saveFrequency);
     _ ← logger (Log "Session auto-save rescheduled");
     _ ← call_value alarms_getAll;
     logger (Log "All session-related alarms"))
    (λ _, logger (LogError "Error rescheduling session auto-save alarm")).

Definition error_response (message : string) : jsval :=
  JObj [("error", JStr message)].

Definition success_response : jsval := JObj [("success", JBool true)].

(** The refusal that opens every guarded [case]. *)
Definition permission_denied : M bool :=
  _ ← post (sendResponse (error_response "Permission denied"));
  _ ← logger (LogError "Unauthorized attempt to call");
  mret false.

(** [request.windowId], else the sender's window, else the current one. *)
Definition resolve_windowId (request : jsval) (sender : Sender) : M jsval :=
  if truthy (field request "windowId") then mret (field request "windowId")
  else
    match sender_tab sender with
    | Some tab =>
        if truthy (tab_windowId tab) then mret (tab_windowId tab)
        else
          currentWindow ← call_window windows_getCurrent;
          match currentWindow with
          | Some win => mret (JNum (win_id win))
          | None => throw "Cannot read properties of undefined (reading 'id')"
          end
    | None =>
        currentWindow ← call_window windows_getCurrent;
        match currentWindow with
        | Some win => mret (JNum (win_id win))
        | None => throw "Cannot read properties of undefined (reading 'id')"
        end
    end.

(** The loop of the two selected-tabs handlers; the state is
    [(success, skipped, errors)]. *)
Fixpoint selected_loop (op : jsval → Call) (ids : list jsval)
    (counts : Z * Z * Z) : M (Z * Z * Z) :=
  match ids with
  | [] => mret counts
  | id :: ids' =>
      let '(success, skipped, errors) := counts in
      counts' ←
        try_catch
          (ok ← call_value (op id);
           mret (if truthy ok then (success + 1, skipped, errors)
                 else (success, skipped + 1, errors)))
          (λ _,
           _ ← logger (LogError "Selected failed for id");
           mret (success, skipped, errors + 1));
      selected_loop op ids' counts'
  end.

Definition selected_handler (op : jsval → Call) (tabIds : list jsval) : M jsval :=
  let ids := List.filter is_number tabIds in
  '(success, skipped, errors) ← selected_loop op ids (0, 0, 0);
  mret (JObj [("success", JBool true);
              ("counts", JObj [("success", JNum success); ("skipped", JNum skipped);
                               ("errors", JNum errors);
                               ("total", JNum (Z.of_nat (length ids)))])]).

(** [t.url && t.url.startsWith(suspendedPrefix)] *)
Definition is_suspended_page (tab : Tab) : bool :=
  match tab_url tab with
  | Some url => negb (String.eqb url "") && startsWith url (getURL SUSPENDED_PAGE_PATH)
  | None => false
  end.

(** [scheduledInfo.entries.some(e => e.tabId === tab.id)] *)
Definition is_scheduled (scheduledInfo : Snapshot) (tab : Tab) : bool :=
  existsb (λ tabId, strict_eq_prim tabId (tab_id tab)) (snap_entries scheduledInfo).

Fixpoint stats_loop (scheduledInfo : Snapshot) (tabs : list Tab) (skippedCount : Z) : M Z :=
  match tabs with
  | [] => mret skippedCount
  | tab :: tabs' =>
      if is_suspended_page tab then stats_loop scheduledInfo tabs' skippedCount
      else if is_scheduled scheduledInfo tab then stats_loop scheduledInfo tabs' skippedCount
      else
        skipReason ← call_value (Suspension_shouldSkipTabForScheduling tab true);
        stats_loop scheduledInfo tabs'
          (if truthy skipReason then skippedCount + 1 else skippedCount)
  end.

Fixpoint skipped_loop (scheduledInfo : Snapshot) (tabs : list Tab)
    (skippedTabs : list jsval) : M (list jsval) :=
  match tabs with
  | [] => mret skippedTabs
  | tab :: tabs' =>
      if negb (truthy (tab_id tab)) then skipped_loop scheduledInfo tabs' skippedTabs
      else if is_suspended_page tab then skipped_loop scheduledInfo tabs' skippedTabs
      else if is_scheduled scheduledInfo tab then skipped_loop scheduledInfo tabs' skippedTabs
      else
        skipReason ← call_value (Suspension_shouldSkipTabForScheduling tab true);
        skipped_loop scheduledInfo tabs'
          (if truthy skipReason
           then skippedTabs ++
                [JObj [("tabId", tab_id tab); ("title", tab_title tab);
                       ("url", from_option JStr JUndefined (tab_url tab));
                       ("reason", skipReason)]]
           else skippedTabs)
  end.

(** The handler of [MSG_REFRESH_ALL_SUSPENDED_FAVICONS]. *)
Definition refreshAllSuspendedFavicons : M jsval :=
  running ← getFaviconRefreshRunning;
  if running : bool then
    mret (JObj [("success", JBool false); ("error", JStr "Favicon refresh already running")])
  else
    _ ← setFaviconRefreshRunning (JBool true);
    try_finally
      (_ ← broadcastFaviconRefreshProgress true;
       let suspendedPrefix := getURL SUSPENDED_PAGE_PATH in
       tabs ← call_tabs (tabs_query (JObj [("url", JStr (suspendedPrefix ++ "*")%string)]));
       count ← reloadSuspendedTabsBatched tabs 3 1000 1200;
       mret (JObj [("success", JBool true); ("count", JNum count);
                   ("total", JNum (Z.of_nat (length tabs)))]))
      (_ ← setFaviconRefreshRunning (JBool false);
       broadcastFaviconRefreshProgress false).

(** The [default:] branch of the [switch]: the admin messages of the Tools
    page, then the unknown kinds. *)
Definition handleMessage_default (request : jsval) : M bool :=
  let type := field request "type" in
  if is_str type MSG_CLEAR_FAVICON_CACHE then
    _ ← handleAsyncMessage
          (try_catch
             (_ ← storage_set "TS_favicon_cache_v1" (JObj []);
              mret success_response)
             (λ message, mret (error_response message)));
    mret true
  else if is_str type MSG_REFRESH_ALL_SUSPENDED_FAVICONS then
    _ ← handleAsyncMessage refreshAllSuspendedFavicons;
    mret true
  else if is_str type MSG_GET_EXTENSION_STATS then
    _ ← handleAsyncMessage
          (allTabs ← call_tabs (tabs_query (JObj []));
           let total := Z.of_nat (length allTabs) in
           let suspended := Z.of_nat (length (List.filter is_suspended_page allTabs)) in
           scheduledInfo ← call_snapshot;
           let scheduled := js_or (snap_size scheduledInfo) (JNum 0) in
           skipped ← stats_loop scheduledInfo allTabs 0;
           mret (JObj [("success", JBool true); ("total", JNum total);
                       ("suspended", JNum suspended); ("scheduled", scheduled);
                       ("skipped", JNum skipped)]));
    mret true
  else if is_str type MSG_GET_SKIPPED_TABS then
    _ ← handleAsyncMessage
          (tabs ← call_tabs (tabs_query (JObj []));
           scheduledInfo ← call_snapshot;
           skippedTabs ← skipped_loop scheduledInfo tabs [];
           mret (JObj [("success", JBool true); ("skippedTabs", JArr skippedTabs)]));
    mret true
  else if is_str type MSG_RESET_BULK_OP_RUNNING then
    _ ← handleAsyncMessage
          (_ ← logger (Log "Manual reset of BulkOpRunning requested");
           _ ← setBulkOpRunning (JBool false);
           mret success_response);
    mret true
  else
    _ ← logger (Log "Unknown message type received");
    _ ← post (sendResponse (error_response "Unknown message type"));
    mret false.

Definition handleMessage (request : jsval) (sender : Sender) : M bool :=
  if negb (truthy request) || negb (truthy (field request "type")) then
    _ ← logger (LogError "handleMessage: Invalid request object");
    _ ← post (sendResponse (error_response "Invalid request"));
    mret false
  else
  let type := field request "type" in
  if is_str type "IS_BULK_OP_RUNNING" then
    _ ← handleAsyncMessage
          (running ← getBulkOpRunning;
           mret (JObj [("running", JBool running)]));
    mret true
  else
  _ ← logger (DetailedLog "Received message");
  if is_str type MSG_SAVE_SETTINGS then
    if negb (validateMessageSender sender true) then permission_denied
    else
      _ ← handleAsyncMessage
            (let settings := field request "settings" in
             if negb (truthy settings) || negb (is_object settings) then
               mret (error_response "Invalid settings: Expected an object")
             else
               let newSettings := js_spread defaultPrefs settings in
               prefs ← read_prefs;
               let oldSuspendAfter := suspendAfter prefs in
               let oldUnsavedFormHandling := unsavedFormHandling prefs in
               _ ← call (Preferences_savePrefs newSettings);
               _ ← logger (Log "Settings saved successfully via saveSettings message");
               prefs ← read_prefs;
               _ ← when (negb (strict_eq_prim (suspendAfter prefs) oldSuspendAfter) ||
                         negb (strict_eq_prim (unsavedFormHandling prefs) oldUnsavedFormHandling))
                     (_ ← logger (DetailedLog "Relevant settings changed, rescheduling all tabs.");
                      call Scheduling_debouncedScheduleAllTabsAlarmBacked);
               prefs ← read_prefs;
               _ ← when (negb (strict_eq_prim (unsavedFormHandling prefs) oldUnsavedFormHandling))
                     notifyAllTabsPrefsChanged;
               mret success_response);
      mret true
  else if is_str type MSG_SAVE_WHITELIST then
    if negb (validateMessageSender sender true) then permission_denied
    else
      _ ← handleAsyncMessage
            (let newWhitelist := field request "newWhitelist" in
             if negb (truthy newWhitelist) || negb (is_array newWhitelist) then
               mret (error_response "Invalid whitelist: Expected an array")
             else
               _ ← call (Preferences_saveWhitelist newWhitelist);
               _ ← logger (Log "Whitelist saved successfully via saveWhitelist message");
               _ ← call Scheduling_debouncedScheduleAllTabsAlarmBacked;
               mret success_response);
      mret true
  else if is_str type MSG_PREFS_CHANGED then
    if negb (validateMessageSender sender true) then permission_denied
    else
      _ ← handleAsyncMessage
            (_ ← call Scheduling_scheduleAllTabs;
             _ ← rescheduleSessionAutoSave;
             mret success_response);
      mret true
  else if is_str type MSG_SUSPEND_TAB then
    let isExtensionPage := validateMessageSender sender true in
    let senderTabId := from_option tab_id JUndefined (sender_tab sender) in
    let isContentScript := truthy senderTabId in
    if negb isExtensionPage && negb isContentScript then permission_denied
    else
      let receivedTabId := field request "tabId" in
      let tabIdToUse := js_or receivedTabId senderTabId in
      let isManual := truthy (field request "isManual") in
      if truthy tabIdToUse then
        _ ← handleAsyncMessage
              (result ← call_value (Suspension_suspendTab tabIdToUse isManual);
               mret (JObj [("success", result)]));
        mret true
      else
        _ ← logger (LogError "Missing tabId for suspension. request.tabId and sender.tab.id were both missing.");
        _ ← post (sendResponse (error_response
                    "Missing tabId for suspension: request.tabId and sender.tab.id were both unavailable."));
        mret false
  else if is_str type MSG_UNSUSPEND_TAB then
    if negb (validateMessageSender sender true) then permission_denied
    else if truthy (field request "tabId") then
      _ ← handleAsyncMessage
            (result ← call_value (Suspension_unsuspendTab (field request "tabId")
                                    (JBool (truthy (field request "shouldFocus"))));
             mret (JObj [("success", result)]));
      mret true
    else
      _ ← post (sendResponse (error_response "Missing tabId"));
      mret false
  else if is_str type MSG_SUSPEND_ALL_TABS_IN_WINDOW then
    if negb (validateMessageSender sender true) then permission_denied
    else
      _ ← handleAsyncMessage
            (windowId ← resolve_windowId request sender;
             _ ← call (Suspension_suspendAllTabsInWindow windowId true);
             mret success_response);
      mret true
  else if is_str type MSG_UNSUSPEND_ALL_TABS_IN_WINDOW then
    if negb (validateMessageSender sender true) then permission_denied
    else
      _ ← handleAsyncMessage
            (windowId ← resolve_windowId request sender;
             _ ← call (Suspension_unsuspendAllTabsInWindow windowId);
             mret success_response);
      mret true
  else if is_str type MSG_SUSPEND_ALL_TABS_ALL_SPECS then
    if negb (validateMessageSender sender true) then permission_denied
    else
      _ ← handleAsyncMessage
            (_ ← call (Suspension_suspendAllTabsAllSpecs true);
             mret success_response);
      mret true
  else if is_str type MSG_UNSUSPEND_ALL_TABS_ALL_SPECS then
    if negb (validateMessageSender sender true) then permission_denied
    else
      _ ← handleAsyncMessage
            (_ ← call Suspension_unsuspendAllTabsAllSpecs;
             mret success_response);
      mret true
  else if is_str type MSG_SUSPEND_SELECTED_TABS then
    if negb (validateMessageSender sender true) then permission_denied
    else
      match field request "tabIds" with
      | JArr (id :: tabIds) =>
          _ ← handleAsyncMessage
                (selected_handler (λ id, Suspension_suspendTab id true) (id :: tabIds));
          mret true
      | _ =>
          _ ← post (sendResponse (error_response "No tabIds provided"));
          mret false
      end
  else if is_str type MSG_UNSUSPEND_SELECTED_TABS then
    if negb (validateMessageSender sender true) then permission_denied
    else
      match field request "tabIds" with
      | JArr (id :: tabIds) =>
          _ ← handleAsyncMessage
                (selected_handler (λ id, Suspension_unsuspendTab id JUndefined) (id :: tabIds));
          mret true
      | _ =>
          _ ← post (sendResponse (error_response "No tabIds provided"));
          mret false
      end
  else handleMessage_default request.

(** *** The event dispatcher *)

(** Modelled from the spec: [Logger.withErrorHandling] is defined in
    [common/logger.js], which is not among the sources. Following the
    words "dispatcher failures are caught per-event so one failing event
    cannot disable future event processing", it runs the asynchronous
    function it is given and logs a failure instead of passing it on. *)
Definition withErrorHandling (asyncFunction : M unit) : M unit :=
  try_catch asyncFunction (λ message, logger (LogError message)).

(** [removeInfo] of [chrome.tabs.onRemoved] *)
Record RemoveInfo := {
  windowId : Z;
  isWindowClosing : bool
}.

Definition handleTabRemoved (tabId : Z) (removeInfo : RemoveInfo) : M unit :=
  _ ← logger (DetailedLog "Tab removed");
  _ ← call (Scheduling_removeTabSuspendTime tabId);
  withErrorHandling
    (try_catch
       (let windowId := windowId removeInfo in
        when (negb (isWindowClosing removeInfo))
          (w ← get_world;
           let activeTabInWindow := getActiveTabForWindow windowId w in
           when (is_num activeTabInWindow tabId)
             (try_catch
                (activeTabs ← call_tabs (tabs_query (JObj [("active", JBool true);
                                                            ("windowId", JNum windowId)]));
                 match activeTabs with
                 | tab :: _ =>
                     _ ← modify (setActiveTabForWindow windowId (tab_id tab));
                     logger (DetailedLog "Updated active tab for window")
                 | [] =>
                     logger (DetailedLog "Removed active tab tracking for window (no active tabs found)")
                 end)
                (λ _, logger (DetailedLog "Could not query for new active tab in window")))))
       (λ _, logger (LogError "Error in handleTabRemoved"))).

(** [activeInfo] of [chrome.tabs.onActivated] *)
Record ActiveInfo := {
  activated_tabId : Z;
  activated_windowId : Z
}.

Definition handleTabActivated (activeInfo : ActiveInfo) : M unit :=
  let tabId := activated_tabId activeInfo in
  let windowId := activated_windowId activeInfo in
  _ ← logger (Log "Tab activated in window");
  withErrorHandling
    (try_catch
       (w ← get_world;
        let previousActiveTabId := getActiveTabForWindow windowId w in
        _ ← modify (setActiveTabForWindow windowId (JNum tabId));
        (* [None]: the function returned early *)
        focus ←
          try_catch
            (window ← call_window (windows_get windowId);
             match window with
             | None =>
                 _ ← logger (LogWarning "Window not found during tab activation.");
                 mret None
             | Some window => mret (Some (win_focused window))
             end)
            (λ _,
             _ ← logger (Log "Error checking window focus state");
             w ← get_world;
             mret (Some (bool_decide (windowId = getLastFocusedWindow w))));
        match focus with
        | None => mret tt
        | Some isFocusedWindow =>
            prefs ← read_prefs;
            w ← get_world;
            _ ← when (isFocusedWindow ||
                      (neverSuspendLastWindow prefs &&
                       bool_decide (windowId = getLastFocusedWindow w)))
                  (_ ← call (Scheduling_unscheduleTab (JNum tabId));
                   when isFocusedWindow (modify (updateLastFocusedWindow windowId)));
            when (truthy previousActiveTabId &&
                  negb (strict_eq_prim previousActiveTabId (JNum tabId)))
              (try_catch
                 (previousTab ← call_tab (tabs_get previousActiveTabId);
                  match previousTab with
                  | None =>
                      logger (LogWarning "Previous active tab not found during tab activation.")
                  | Some previousTab =>
                      match tab_url previousTab with
                      | None => throw "Cannot read properties of undefined (reading 'startsWith')"
                      | Some url =>
                          when (negb (startsWith url (getURL "suspended.html")))
                            (_ ← call (Scheduling_scheduleTab previousActiveTabId);
                             logger (DetailedLog "Rescheduled previous active tab"))
                      end
                  end)
                 (λ message,
                  when (negb (includes message "No tab with id"))
                    (logger (LogError "Error rescheduling previous tab"))))
        end)
       (λ _, logger (LogError "Error processing tab activation"))).

Definition handleWindowRemoval (windowId : Z) : M unit :=
  _ ← logger (DetailedLog "Window removed");
  withErrorHandling
    (try_catch
       (_ ← modify (removeWindowTracking windowId);
        w ← get_world;
        when (bool_decide (getLastFocusedWindow w = windowId))
          (windows ← call_windows;
           match windows with
           | [] =>
               _ ← modify (updateLastFocusedWindow WINDOW_ID_NONE);
               logger (LogWarning "No windows found after window removal. Set last focused window to NONE.")
           | _ =>
               match List.filter win_focused windows with
               | win :: _ => modify (updateLastFocusedWindow (win_id win))
               | [] =>
                   match List.find (λ win, negb (win_id win =? windowId)) windows with
                   | Some nextWindow => modify (updateLastFocusedWindow (win_id nextWindow))
                   | None => modify (updateLastFocusedWindow WINDOW_ID_NONE)
                   end
               end
           end))
       (λ _, logger (LogError "Error in handleWindowRemoval"))).

(** [Scheduling.scheduleTab] returns a promise (the handlers above await
    it); the next two handlers drop it. *)
Definition handleTabCreated (tab : option Tab) : M unit :=
  match tab with
  | None => mret tt
  | Some tab =>
      if negb (truthy (tab_id tab)) then mret tt
      else
        _ ← logger (DetailedLog "Tab created");
        post (Scheduling_scheduleTab (tab_id tab))
  end.

(** [changeInfo] of [chrome.tabs.onUpdated] is an object. *)
Definition handleTabUpdated (tabId : jsval) (changeInfo : jsval) (tab : option Tab) : M unit :=
  match tab with
  | None => mret tt
  | Some tab =>
      if negb (truthy tabId) then mret tt
      else
        _ ← logger (DetailedLog "Tab updated");
        let criticalChanges :=
          negb (strict_eq_prim (field changeInfo "url") JUndefined) ||
          negb (strict_eq_prim (field changeInfo "audible") JUndefined) ||
          negb (strict_eq_prim (field changeInfo "pinned") JUndefined) in
        let isInitialComplete := is_str (field changeInfo "status") "complete" in
        when (criticalChanges || isInitialComplete)
          (post (Scheduling_scheduleTab tabId))
  end.

(** The body of the loop of [handleWindowFocusChanged] over the windows:
    the active tab of every window but the focused one is scheduled, unless
    it shows the suspended page. *)
Definition reschedule_window (windowId : Z) (window : Window) : M unit :=
  if decide (win_id window = windowId) then mret tt
  else
    tabs ← call_tabs (tabs_query (JObj [("active", JBool true);
                                        ("windowId", JNum (win_id window))]));
    match tabs with
    | tab :: _ =>
        when (truthy (tab_id tab))
          match tab_url tab with
          | None => throw "Cannot read properties of undefined (reading 'startsWith')"
          | Some url =>
              when (negb (startsWith url (getURL "suspended.html")))
                (_ ← call (Scheduling_scheduleTab (tab_id tab));
                 logger (DetailedLog "Scheduled active tab in window after focus change"))
          end
    | [] => mret tt
    end.

Definition handleWindowFocusChanged (windowId : Z) : M unit :=
  _ ← logger (Log "Window focus changed");
  if decide (windowId = WINDOW_ID_NONE) then
    logger (Log "Focus left Chrome - this won't affect suspension status")
  else
    w ← get_world;
    let previousFocusedWindow := getLastFocusedWindow w in
    _ ← modify (updateLastFocusedWindow windowId);
    withErrorHandling
      (try_catch
         (activeTabs ← call_tabs (tabs_query (JObj [("active", JBool true);
                                                     ("windowId", JNum windowId)]));
          match activeTabs with
          | [] => logger (Log "No active tab found in window")
          | activeTab :: _ =>
              if negb (truthy (tab_id activeTab)) then
                logger (Log "Invalid active tab in window")
              else
                _ ← logger (Log "Active tab in newly focused window");
                _ ← modify (setActiveTabForWindow windowId (tab_id activeTab));
                _ ← call (Scheduling_unscheduleTab (tab_id activeTab));
                prefs ← read_prefs;
                when (neverSuspendLastWindow prefs &&
                      bool_decide (previousFocusedWindow ≠ WINDOW_ID_NONE))
                  (allWindows ← call_windows;
                   match allWindows with
                   | [] => logger (LogWarning "No windows found during window focus change.")
                   | _ => for_each allWindows (reschedule_window windowId)
                   end)
          end)
         (λ _, logger (LogError "Error processing window focus change"))).

Definition handleWindowCreation (window : Window) : M unit :=
  logger (DetailedLog "Window created").

Definition handleStartup : M unit :=
  _ ← logger (Log "Browser startup detected");
  try_catch (call Scheduling_scheduleAllTabs)
    (λ _, logger (LogError "handleStartup")).

End Coordinator.

(** ** Instances for the examples *)

(** Constants whose value is the name of the constant. *)
Definition named_constants : Constants := {|
  STORAGE_KEYS_BULK_RUNNING := "BULK_RUNNING";
  STORAGE_KEYS_FAVICON_REFRESH_RUNNING := "FAVICON_REFRESH_RUNNING";
  MSG_SAVE_SETTINGS := "MSG_SAVE_SETTINGS";
  MSG_SAVE_WHITELIST := "MSG_SAVE_WHITELIST";
  MSG_PREFS_CHANGED := "MSG_PREFS_CHANGED";
  MSG_SUSPEND_TAB := "MSG_SUSPEND_TAB";
  MSG_UNSUSPEND_TAB := "MSG_UNSUSPEND_TAB";
  MSG_SUSPEND_ALL_TABS_IN_WINDOW := "MSG_SUSPEND_ALL_TABS_IN_WINDOW";
  MSG_UNSUSPEND_ALL_TABS_IN_WINDOW := "MSG_UNSUSPEND_ALL_TABS_IN_WINDOW";
  MSG_SUSPEND_ALL_TABS_ALL_SPECS := "MSG_SUSPEND_ALL_TABS_ALL_SPECS";
  MSG_UNSUSPEND_ALL_TABS_ALL_SPECS := "MSG_UNSUSPEND_ALL_TABS_ALL_SPECS";
  MSG_SUSPEND_SELECTED_TABS := "MSG_SUSPEND_SELECTED_TABS";
  MSG_UNSUSPEND_SELECTED_TABS := "MSG_UNSUSPEND_SELECTED_TABS";
  MSG_CLEAR_FAVICON_CACHE := "MSG_CLEAR_FAVICON_CACHE";
  MSG_REFRESH_ALL_SUSPENDED_FAVICONS := "MSG_REFRESH_ALL_SUSPENDED_FAVICONS";
  MSG_GET_EXTENSION_STATS := "MSG_GET_EXTENSION_STATS";
  MSG_GET_SKIPPED_TABS := "MSG_GET_SKIPPED_TABS";
  MSG_RESET_BULK_OP_RUNNING := "MSG_RESET_BULK_OP_RUNNING";
  MSG_FAVICON_REFRESH_PROGRESS := "MSG_FAVICON_REFRESH_PROGRESS";
  MSG_FAVICON_REFRESH_DONE := "MSG_FAVICON_REFRESH_DONE";
  SUSPENDED_PAGE_PATH := "suspended.html";
  TS_SESSION_FREQUENT_SAVE := "TS_SESSION_FREQUENT_SAVE";
  PREFS_KEY := "PREFS_KEY";
  defaultPrefs := JObj []
|}.

Definition default_prefs : Prefs :=
  {| suspendAfter := JNum 30; unsavedFormHandling := JStr "ask";
     neverSuspendLastWindow := false |}.

(** A host on which no call fails; queries answer [tabs] and [windows]. *)
Definition quiet_host (tabs : list Tab) (windows : list Window) : Host :=
  {| runtime_id := "extid";
     fails := λ _ _, None;
     value := λ _ _, JBool true;
     tabs_of := λ _ _, tabs;
     tab_of := λ _ _, None;
     windows_of := λ _, windows;
     window_of := λ _ _, None;
     prefs_of := λ _, default_prefs;
     snapshot_of := λ _, {| snap_size := JNum 0; snap_entries := [] |} |}.

(** A host on which exactly the calls that [bad] selects fail. *)
Definition failing_host (bad : Call → bool) (tabs : list Tab) : Host :=
  {| runtime_id := "extid";
     fails := λ _ c, if bad c then Some "boom" else None;
     value := λ _ _, JBool true;
     tabs_of := λ _ _, tabs;
     tab_of := λ _ _, None;
     windows_of := λ _, [];
     window_of := λ _ _, None;
     prefs_of := λ _, default_prefs;
     snapshot_of := λ _, {| snap_size := JNum 0; snap_entries := [] |} |}.

Definition is_storage_set (c : Call) : bool :=
  match c with storage_local_set _ _ => true | _ => false end.

Definition is_storage_get (c : Call) : bool :=
  match c with storage_local_get _ => true | _ => false end.

Definition is_tabs_query (c : Call) : bool :=
  match c with tabs_query _ => true | _ => false end.

Definition is_runtime_sendMessage (c : Call) : bool :=
  match c with runtime_sendMessage _ => true | _ => false end.

Definition is_sendResponse (c : Call) : bool :=
  match c with sendResponse _ => true | _ => false end.

(** A page of the extension, and a content script in a web page. *)
Definition extension_page : Sender :=
  {| sender_id := Some "extid";
     sender_url := Some "chrome-extension://extid/options.html";
     sender_tab := None |}.

Definition web_tab (id : Z) : Tab :=
  {| tab_id := JNum id; tab_windowId := JNum 1;
     tab_url := Some "https://example.com/"; tab_title := JStr "Example" |}.

Definition content_script : Sender :=
  {| sender_id := Some "extid";
     sender_url := Some "https://example.com/";
     sender_tab := Some (web_tab 5) |}.

(** ** Reading the code's behaviour *)

(** What a flag getter answers in [w]: [false] when the read fails or the
    key is unset, else the truthiness of what is stored. *)
Definition flag_reading (h : Host) (key : string) (w : World) : bool :=
  match fails h (trace w) (storage_local_get key) with
  | Some _ => false
  | None =>
      match storage_local w !! key with
      | None => false
      | Some v => truthy v
      end
  end.

(** The world after a flag getter: the read is on the trace, and a failed
    read is on the log. *)
Definition flag_read_world (h : Host) (key : string) (complaint : string) (w : World) : World :=
  let w' := set_trace (trace w ++ [storage_local_get key]) w in
  match fails h (trace w) (storage_local_get key) with
  | Some _ => set_log (log w' ++ [LogError complaint]) w'
  | None => w'
  end.

(** The world after a write of [v] under [key] whose failure is logged. *)
Definition flag_write_world (h : Host) (key : string) (v : jsval) (complaint : string)
    (w : World) : World :=
  let w' := set_trace (trace w ++ [storage_local_set key v]) w in
  match fails h (trace w) (storage_local_set key v) with
  | Some _ => set_log (log w' ++ [LogError complaint]) w'
  | None => set_storage_local (<[key := v]> (storage_local w)) w'
  end.

(** The module variables and the timer table after the first statement of
    [setBulkOpRunning]: the timer it remembers is cancelled. *)
Definition cancel_watchdog (w : World) : World :=
  match bulkOpTimeoutId w with
  | Some id =>
      set_bulkOpTimeoutId None
        (set_timers (filter (λ t, timer_id t ≠ id) (timers w)) w)
  | None => w
  end.

(** ... and after its last statements, when the value is truthy. *)
Definition arm_watchdog (w : World) : World :=
  let id := next_timer_id w in
  let t := {| timer_id := id; timer_due := now w + Z.max 0 BULK_OP_TIMEOUT_MS |} in
  let w1 := set_next_timer_id (Pos.succ id) (set_timers (timers w ++ [t]) w) in
  let w2 := set_bulkOpTimeoutId (Some id) w1 in
  set_log (log w2 ++ [Log "Bulk operation started with 10-minute timeout"]) w2.

Definition setBulkOpRunning_world {K : Constants} (h : Host) (value : jsval) (w : World) : World :=
  let v := JBool (truthy value) in
  let w0 := cancel_watchdog w in
  let w1 := set_trace (trace w0 ++ [storage_local_set STORAGE_KEYS_BULK_RUNNING v]) w0 in
  match fails h (trace w) (storage_local_set STORAGE_KEYS_BULK_RUNNING v) with
  | Some _ => set_log (log w1 ++ [LogError "setBulkOpRunning failed"]) w1
  | None =>
      let w2 := set_storage_local (<[STORAGE_KEYS_BULK_RUNNING := v]> (storage_local w1)) w1 in
      if truthy value then arm_watchdog w2 else w2
  end.

(** Postconditions: [wp m Q w] holds when running [m] from [w] ends in a
    completion and a world that satisfy [Q]. *)
Definition wp {A} (m : M A) (Q : Completion A → World → Prop) (w : World) : Prop :=
  Q (m w).1 (m w).2.

(** [respects R m]: every run of [m] ends, normally or by throwing, and
    takes a world to an [R]-related one. *)
Definition respects (R : relation World) {A} (m : M A) : Prop :=
  ∀ w, (m w).1 ≠ Diverge ∧ R w (m w).2.

(** Relations between worlds that the observations (trace and log) do not
    disturb. *)
Class Frame (R : relation World) : Prop := {
  frame_preorder :: PreOrder R;
  frame_trace : ∀ w x, R w (set_trace x w);
  frame_log : ∀ w x, R w (set_log x w)
}.

(** The active-tabs-by-window map is the same. *)
Definition same_tabs (w w' : World) : Prop :=
  activeTabsByWindow w' = activeTabsByWindow w.

(** The events that write the active-tabs-by-window map in the claim about
    activations: a tab activation, the state store's
    [removeWindowTracking], and the dispatcher's window removal. *)
Inductive FocusEvent : Type :=
| TabActivated (activeInfo : ActiveInfo)
| WindowTrackingRemoved (windowId : Z)
| WindowRemoved (windowId : Z).

Definition dispatch (h : Host) (ev : FocusEvent) : M unit :=
  match ev with
  | TabActivated activeInfo => handleTabActivated h activeInfo
  | WindowTrackingRemoved windowId => modify (removeWindowTracking windowId)
  | WindowRemoved windowId => handleWindowRemoval h windowId
  end.

(** The tab that the events, oldest first, leave active in window [w]: the
    tab of the most recent activation in [w], none if [w] was never
    activated or was removed since. *)
Definition track (w : Z) (active : option Z) (ev : FocusEvent) : option Z :=
  match ev with
  | TabActivated activeInfo =>
      if decide (activated_windowId activeInfo = w)
      then Some (activated_tabId activeInfo) else active
  | WindowTrackingRemoved windowId | WindowRemoved windowId =>
      if decide (windowId = w) then None else active
  end.

Definition activeTabFor (events : list FocusEvent) (w : Z) : option Z :=
  foldl (track w) None events.

(** The calls into the state store, and the passing of time, that make up
    the life of a worker. *)
Inductive StoreCall : Type :=
| CallSetBulkOpRunning (value : jsval)
| CallGetBulkOpRunning
| CallSetFaviconRefreshRunning (value : jsval)
| CallGetFaviconRefreshRunning
| CallCleanupStateReferences
| CallUpdateLastFocusedWindow (windowId : Z)
| CallSetActiveTabForWindow (windowId : Z) (tabId : jsval)
| CallRemoveWindowTracking (windowId : Z)
| TimePasses (ms : Z).

Definition perform {K : Constants} (h : Host) (c : StoreCall) : M unit :=
  match c with
  | CallSetBulkOpRunning value => setBulkOpRunning h value
  | CallGetBulkOpRunning => _ ← getBulkOpRunning h; mret tt
  | CallSetFaviconRefreshRunning value => setFaviconRefreshRunning h value
  | CallGetFaviconRefreshRunning => _ ← getFaviconRefreshRunning h; mret tt
  | CallCleanupStateReferences => cleanupStateReferences h
  | CallUpdateLastFocusedWindow windowId => modify (updateLastFocusedWindow windowId)
  | CallSetActiveTabForWindow windowId tabId => modify (setActiveTabForWindow windowId tabId)
  | CallRemoveWindowTracking windowId => modify (removeWindowTracking windowId)
  | TimePasses ms => elapse h ms
  end.

(** The world of a worker that started on [storage] at time [t] and went
    through [calls]. *)
Definition world_after {K : Constants} (h : Host) (calls : list StoreCall)
    (storage : gmap string jsval) (t : Z) : World :=
  (for_each calls (perform h) (fresh_world storage t)).2.


(** The timer table, the handle counter and the clock are the same. *)
Definition same_timers (w w' : World) : Prop :=
  timers w' = timers w ∧ next_timer_id w' = next_timer_id w ∧ now w' = now w.

(** ... and the handle that the module remembers too. *)
Definition same_watchdog (w w' : World) : Prop :=
  same_timers w w' ∧ bulkOpTimeoutId w' = bulkOpTimeoutId w.


(** The message kinds that [handleMessage] knows, in the order in which it
    tests them. *)
Definition switch_kinds {K : Constants} : list string :=
  [ "IS_BULK_OP_RUNNING"; MSG_SAVE_SETTINGS; MSG_SAVE_WHITELIST; MSG_PREFS_CHANGED;
    MSG_SUSPEND_TAB; MSG_UNSUSPEND_TAB; MSG_SUSPEND_ALL_TABS_IN_WINDOW;
    MSG_UNSUSPEND_ALL_TABS_IN_WINDOW; MSG_SUSPEND_ALL_TABS_ALL_SPECS;
    MSG_UNSUSPEND_ALL_TABS_ALL_SPECS; MSG_SUSPEND_SELECTED_TABS;
    MSG_UNSUSPEND_SELECTED_TABS ].

Definition admin_kinds {K : Constants} : list string :=
  [ MSG_CLEAR_FAVICON_CACHE; MSG_REFRESH_ALL_SUSPENDED_FAVICONS;
    MSG_GET_EXTENSION_STATS; MSG_GET_SKIPPED_TABS; MSG_RESET_BULK_OP_RUNNING ].

Definition recognized_kinds {K : Constants} : list string :=
  switch_kinds ++ admin_kinds.

(** [type] is one of [kinds] *)
Definition one_of (kinds : list string) (type : jsval) : bool :=
  existsb (is_str type) kinds.

(** The kinds whose [case] opens with the test of the sender's origin and
    nothing else. *)
Definition guarded_kinds {K : Constants} : list string :=
  [ MSG_SAVE_SETTINGS; MSG_SAVE_WHITELIST; MSG_PREFS_CHANGED;
    MSG_UNSUSPEND_TAB; MSG_SUSPEND_ALL_TABS_IN_WINDOW;
    MSG_UNSUSPEND_ALL_TABS_IN_WINDOW; MSG_SUSPEND_ALL_TABS_ALL_SPECS;
    MSG_UNSUSPEND_ALL_TABS_ALL_SPECS; MSG_SUSPEND_SELECTED_TABS;
    MSG_UNSUSPEND_SELECTED_TABS ].

(** The world after a reply that is sent on the spot, with the lines
    [lines] logged: nothing else changes. *)
Definition replied (r : jsval) (lines : list LogEntry) (w : World) : World :=
  set_log (log w ++ lines) (set_trace (trace w ++ [sendResponse r]) w).

(** The query of [handleTabRemoved] for the active tab of a window. *)
Definition active_tab_query (windowId : Z) : Call :=
  tabs_query (JObj [("active", JBool true); ("windowId", JNum windowId)]).

(** The active-tabs-by-window map that [handleTabRemoved] leaves, read off
    the code: it is written only when the window stays open, the removed
    tab was its tracked active tab, and the host answers the query with at
    least one tab. *)
Definition tabs_after_removal (h : Host) (tabId : Z) (removeInfo : RemoveInfo)
    (w : World) : gmap Z jsval :=
  let tr := trace w ++ [Scheduling_removeTabSuspendTime tabId] in
  let query := active_tab_query (windowId removeInfo) in
  if isWindowClosing removeInfo then activeTabsByWindow w
  else if negb (is_num (getActiveTabForWindow (windowId removeInfo) w) tabId)
  then activeTabsByWindow w
  else
    match fails h tr query, tabs_of h tr query with
    | None, tab :: _ => <[windowId removeInfo := tab_id tab]> (activeTabsByWindow w)
    | _, _ => activeTabsByWindow w
    end.

(** *** The batched reloader, in the words of the specification *)

(** The consecutive chunks of [n] elements of [l]; the last one may be
    shorter. *)
Fixpoint chunks_from {A} (fuel n : nat) (l : list A) : list (list A) :=
  match fuel with
  | O => []
  | S fuel' =>
      match l with
      | [] => []
      | _ => take n l :: chunks_from fuel' n (drop n l)
      end
  end.

Definition chunks {A} (n : nat) (l : list A) : list (list A) :=
  chunks_from (length l) n l.

(** The chunks run in order; a chunk is settled before the next one starts,
    and between two chunks the reloader waits [batchDelayMs] (when that is
    positive) and reports the progress. [total] is the number of valid
    tabs, [done] the number of tabs in the chunks run so far. *)
Fixpoint run_chunks {K : Constants} (h : Host) (perTabDelayMs batchDelayMs total : Z)
    (batches : list (list Tab)) (done : Z) (counts : Z * Z) : M (Z * Z) :=
  match batches with
  | [] => mret counts
  | batch :: rest =>
      w ← get_world;
      counts' ← reload_batch h (now w) (Z.of_nat (length batch)) perTabDelayMs batch 0 counts;
      _ ← when (bool_decide (rest ≠ []) && bool_decide (0 < batchDelayMs))
            (sleep h batchDelayMs);
      _ ← logger (LogRefreshProgress (done + Z.of_nat (length batch)) total
                    counts'.1 counts'.2);
      run_chunks h perTabDelayMs batchDelayMs total rest
        (done + Z.of_nat (length batch)) counts'
  end.

Definition is_tabs_reload (c : Call) : bool :=
  match c with tabs_reload _ => true | _ => false end.

(** The reloads among the calls [added] after the calls [before], each with
    the tab id and whether the host let it succeed. *)
Fixpoint reload_outcomes (h : Host) (before added : list Call) : list (jsval * bool) :=
  match added with
  | [] => []
  | c :: added' =>
      match c with
      | tabs_reload id => [(id, bool_decide (fails h before c = None))]
      | _ => []
      end ++ reload_outcomes h (before ++ [c]) added'
  end.

Definition succeeded (outcomes : list (jsval * bool)) : Z :=
  Z.of_nat (length (List.filter snd outcomes)).

Definition failed (outcomes : list (jsval * bool)) : Z :=
  Z.of_nat (length (List.filter (λ o, negb o.2) outcomes)).

(** From [w] to [w'] the trace has grown, the reloads among the new calls
    and their outcomes are [outcomes], no reply to a message is among the
    new calls, and the clock has not gone back. *)
Definition extends (h : Host) (w w' : World) (outcomes : list (jsval * bool)) : Prop :=
  ∃ added, trace w' = trace w ++ added ∧
    reload_outcomes h (trace w) added = outcomes ∧
    Forall (λ c, is_sendResponse c = false) added ∧
    now w ≤ now w'.

(** The replies and the calls of the favicon refresh. *)
Definition already_running_response : jsval :=
  JObj [("success", JBool false); ("error", JStr "Favicon refresh already running")].

Definition refresh_response (count total : Z) : jsval :=
  JObj [("success", JBool true); ("count", JNum count); ("total", JNum total)].

(** What [handleAsyncMessage] replies when the handler throws [message]. *)
Definition thrown_response (message : string) : jsval :=
  error_response (if String.eqb message "" then "Unknown error" else message).

Definition suspended_tabs_query {K : Constants} (h : Host) : Call :=
  tabs_query (JObj [("url", JStr (getURL h SUSPENDED_PAGE_PATH ++ "*")%string)]).

Definition favicon_broadcast {K : Constants} (isRunning : bool) : Call :=
  runtime_sendMessage
    (JObj [("type", JStr (if isRunning then MSG_FAVICON_REFRESH_PROGRESS
                          else MSG_FAVICON_REFRESH_DONE))]).

Definition favicon_flag {K : Constants} (value : bool) : Call :=
  storage_local_set STORAGE_KEYS_FAVICON_REFRESH_RUNNING (JBool value).

(** The world after a call is recorded. *)
Definition posted (c : Call) (w : World) : World :=
  set_trace (trace w ++ [c]) w.

(** *** What a computation may call, and what it must leave alone *)

(** From [w] to [w'] the trace has grown, by calls that all satisfy [P]. *)
Definition emits (P : Call → Prop) (w w' : World) : Prop :=
  ∃ added, trace w' = trace w ++ added ∧ Forall P added.


(** A storage area that accepts every read and every write. *)
Definition storage_works (h : Host) : Prop :=
  ∀ tr c, is_storage_get c || is_storage_set c = true → fails h tr c = None.

(** The calls that the handler of the bulk-operation query and the
    handlers of the [default:] branch of [handleMessage] can make: the
    storage area, a broadcast to the pages, a query for tabs, a reload, the
    scheduling snapshot and the question whether a tab would be skipped. *)
Definition admin_calls (c : Call) : bool :=
  match c with
  | storage_local_get _ | storage_local_set _ _ | runtime_sendMessage _
  | tabs_query _ | tabs_reload _ | Scheduling_getSchedulingSnapshot
  | Suspension_shouldSkipTabForScheduling _ _ => true
  | _ => false
  end.

Definition admin (c : Call) : Prop := admin_calls c = true.

(** [sender.tab && sender.tab.id] *)
Definition sender_tab_id (sender : Sender) : jsval :=
  from_option tab_id JUndefined (sender_tab sender).

(** The calls that a sender can cause whatever its origin: the admin
    calls, and the suspension of one tab when the sender is a tab. *)
Definition open_calls (sender : Sender) (c : Call) : bool :=
  match c with
  | Suspension_suspendTab _ _ => truthy (sender_tab_id sender)
  | _ => admin_calls c
  end.

(** [answered P m w]: from [w] the handling [m] of a message returns
    without throwing; the calls it makes all satisfy [P] and are followed
    by exactly one reply, the last call of all; and when [m] returns
    [false], the reply is an error and the only call. *)
Definition answered (P : Call → Prop) (m : M bool) (w : World) : Prop :=
  ∃ b w' calls r,
    m w = (Normal b, w') ∧
    trace w' = trace w ++ calls ++ [sendResponse r] ∧
    Forall P calls ∧
    (b = false → calls = [] ∧ ∃ message, r = error_response message).



Definition countable {K : Constants} (h : Host) (scheduledInfo : Snapshot) (tab : Tab) : bool :=
  negb (is_suspended_page h tab) && negb (is_scheduled scheduledInfo tab).

(** No call fails on [h]. *)
Definition never_fails (h : Host) : Prop := ∀ tr c, fails h tr c = None.

(** The focus state (the active-tabs-by-window map and the last focused
    window) is the same. *)
Definition same_focus (w w' : World) : Prop :=
  activeTabsByWindow w' = activeTabsByWindow w ∧
  lastFocusedWindowId w' = lastFocusedWindowId w.

(** The durable storage, the timers, the handle of the watchdog and the
    clock are the same. *)
Definition same_durable (w w' : World) : Prop :=
  same_watchdog w w' ∧ storage_local w' = storage_local w.

(** The events of the browser whose handlers are embedded above, each with
    the arguments the browser passes to the listener. *)
Inductive Event : Type :=
| OnTabCreated (tab : option Tab)
| OnTabUpdated (tabId : jsval) (changeInfo : jsval) (tab : option Tab)
| OnTabRemoved (tabId : Z) (removeInfo : RemoveInfo)
| OnTabActivated (activeInfo : ActiveInfo)
| OnWindowFocusChanged (windowId : Z)
| OnWindowCreated (window : Window)
| OnWindowRemoved (windowId : Z)
| OnStartup.

Definition listener (h : Host) (ev : Event) : M unit :=
  match ev with
  | OnTabCreated tab => handleTabCreated tab
  | OnTabUpdated tabId changeInfo tab => handleTabUpdated tabId changeInfo tab
  | OnTabRemoved tabId removeInfo => handleTabRemoved h tabId removeInfo
  | OnTabActivated activeInfo => handleTabActivated h activeInfo
  | OnWindowFocusChanged windowId => handleWindowFocusChanged h windowId
  | OnWindowCreated window => handleWindowCreation window
  | OnWindowRemoved windowId => handleWindowRemoval h windowId
  | OnStartup => handleStartup h
  end.


(** The last focused window that [handleTabActivated] leaves, read off the
    code: it becomes the window of the activation when the host reports
    that window as focused and the unscheduling of the activated tab does
    not fail, and it stays as it was in every other case. *)
Definition focus_after_activation (h : Host) (activeInfo : ActiveInfo) (w : World) : Z :=
  let windowId := activated_windowId activeInfo in
  let get := windows_get windowId in
  let unschedule := Scheduling_unscheduleTab (JNum (activated_tabId activeInfo)) in
  match fails h (trace w) get, window_of h (trace w) get with
  | None, Some window =>
      if win_focused window then
        match fails h (trace w ++ [get]) unschedule with
        | None => lastFocusedWindowId (updateLastFocusedWindow windowId w)
        | Some _ => lastFocusedWindowId w
        end
      else lastFocusedWindowId w
  | _, _ => lastFocusedWindowId w
  end.

(** The active-tabs-by-window map that [handleWindowFocusChanged] leaves,
    read off the code: the entry of the focused window is written when the
    host answers the query for its active tab with a tab that has an id. *)
Definition tabs_after_focus (h : Host) (windowId : Z) (w : World) : gmap Z jsval :=
  let query := active_tab_query windowId in
  match fails h (trace w) query, tabs_of h (trace w) query with
  | None, activeTab :: _ =>
      if truthy (tab_id activeTab)
      then <[windowId := tab_id activeTab]> (activeTabsByWindow w)
      else activeTabsByWindow w
  | _, _ => activeTabsByWindow w
  end.

(** A call into the state store other than [setBulkOpRunning]. *)
Definition leaves_bulk_flag (c : StoreCall) : bool :=
  match c with CallSetBulkOpRunning _ => false | _ => true end.

(** What can happen while a favicon refresh is marked as running: a
    sender asks for a refresh, or time passes. *)
Inductive RefreshStep : Type :=
| AskRefresh (sender : Sender)
| Wait (ms : Z).

Definition refresh_step {K : Constants} (h : Host) (s : RefreshStep) : M unit :=
  match s with
  | AskRefresh sender =>
      _ ← handleMessage h (JObj [("type", JStr MSG_REFRESH_ALL_SUSPENDED_FAVICONS)]) sender;
      mret tt
  | Wait ms => elapse h ms
  end.

(** ** Properties *)

(** *** Reasoning about computations *)

Ltac munfold :=
  unfold mbind, M_bind, mret, M_ret, try_catch, try_finally, settle, when,
    throw, diverge, get_world, modify in *.

Lemma bind_run {A B} (m : M A) (f : A → M B) (w : World) :
  (m ≫= f) w =
    match m w with
    | (Normal a, w') => f a w'
    | (Throw e, w') => (Throw e, w')
    | (Diverge, w') => (Diverge, w')
    end.
Proof. reflexivity. Qed.

Lemma post_run (c : Call) (w : World) : post c w = (Normal tt, posted c w).
Proof. reflexivity. Qed.

Lemma trace_posted (c : Call) (w : World) : trace (posted c w) = trace w ++ [c].
Proof. reflexivity. Qed.

Lemma logger_run (e : LogEntry) (w : World) :
  logger e w = (Normal tt, set_log (log w ++ [e]) w).
Proof. reflexivity. Qed.

Lemma call_tabs_run (h : Host) (c : Call) (w : World) :
  call_tabs h c w =
    (match fails h (trace w) c with
     | Some e => Throw e
     | None => Normal (tabs_of h (trace w) c)
     end, posted c w).
Proof. unfold call_tabs, issue. munfold. by destruct (fails h _ _). Qed.

Section Wp.
Context {A B : Type}.
Implicit Types (Q : Completion B → World → Prop).

Lemma wp_ret (a : B) Q w : Q (Normal a) w → wp (mret a) Q w.
Proof. done. Qed.

Lemma wp_bind (m : M A) (f : A → M B) Q w :
  wp m (λ r w', match r with
                | Normal a => wp (f a) Q w'
                | Throw e => Q (Throw e) w'
                | Diverge => Q Diverge w'
                end) w →
  wp (m ≫= f) Q w.
Proof. unfold wp. munfold. by destruct (m w) as [[a|e|] w']. Qed.

Lemma wp_try_catch (m : M B) (handler : string → M B) Q w :
  wp m (λ r w', match r with
                | Throw e => wp (handler e) Q w'
                | _ => Q r w'
                end) w →
  wp (try_catch m handler) Q w.
Proof. unfold wp. munfold. by destruct (m w) as [[a|e|] w']. Qed.

Lemma wp_respects (R : relation World) (m : M B) Q w :
  respects R m → (∀ r w', r ≠ Diverge → R w w' → Q r w') → wp m Q w.
Proof. intros Hm HQ. apply HQ; apply Hm. Qed.

End Wp.

Lemma wp_modify (f : World → World) Q w : Q (Normal tt) (f w) → wp (modify f) Q w.
Proof. done. Qed.

Lemma wp_get_world Q w : Q (Normal w) w → wp get_world Q w.
Proof. done. Qed.

Lemma wp_logger e Q w : Q (Normal tt) (set_log (log w ++ [e]) w) → wp (logger e) Q w.
Proof. done. Qed.

Section Respects.
Context (R : relation World) `{!PreOrder R}.

Lemma respects_ret {A} (a : A) : respects R (mret a).
Proof. intros w. split; [done | reflexivity]. Qed.

Lemma respects_throw {A} e : respects R (throw e : M A).
Proof. intros w. split; [done | reflexivity]. Qed.

Lemma respects_get_world : respects R get_world.
Proof. intros w. split; [done | reflexivity]. Qed.

Lemma respects_modify (f : World → World) : (∀ w, R w (f w)) → respects R (modify f).
Proof. intros Hf w. split; [done | apply Hf]. Qed.

Lemma respects_bind {A B} (m : M A) (f : A → M B) :
  respects R m → (∀ a, respects R (f a)) → respects R (m ≫= f).
Proof.
  intros Hm Hf w. destruct (Hm w) as [Hend Hw]. munfold.
  destruct (m w) as [[a|e|] w']; simpl in *; [|done..].
  destruct (Hf a w') as [Hend' Hw']. split; [done | by etrans].
Qed.

Lemma respects_try_catch {A} (m : M A) (handler : string → M A) :
  respects R m → (∀ e, respects R (handler e)) → respects R (try_catch m handler).
Proof.
  intros Hm Hh w. destruct (Hm w) as [Hend Hw]. munfold.
  destruct (m w) as [[a|e|] w']; simpl in *; [done| |done].
  destruct (Hh e w') as [Hend' Hw']. split; [done | by etrans].
Qed.

Lemma respects_try_finally {A} (m : M A) (fin : M unit) :
  respects R m → respects R fin → respects R (try_finally m fin).
Proof.
  intros Hm Hf w. destruct (Hm w) as [Hend Hw]. munfold.
  destruct (m w) as [[a|e|] w']; simpl in *; [| |done];
    destruct (Hf w') as [Hend' Hw']; destruct (fin w') as [[[]|e'|] w''];
    simpl in *; (split; [done | by etrans]).
Qed.

Lemma respects_settle {A} (m : M A) : respects R m → respects R (settle m).
Proof.
  intros Hm w. destruct (Hm w) as [Hend Hw]. munfold.
  by destruct (m w) as [[a|e|] w'].
Qed.

Lemma respects_when (c : bool) (m : M unit) : respects R m → respects R (when c m).
Proof. intros Hm. destruct c; [done | apply respects_ret]. Qed.

Lemma respects_for_each {A} (l : list A) (body : A → M unit) :
  (∀ x, respects R (body x)) → respects R (for_each l body).
Proof.
  intros Hb. induction l as [|x l IH]; simpl.
  - apply respects_ret.
  - apply respects_bind; [apply Hb | done].
Qed.

End Respects.

Section FrameRules.
Context (R : relation World) `{!Frame R} (h : Host).

Lemma respects_logger e : respects R (logger e).
Proof. intros w. split; [done | apply frame_log]. Qed.

Lemma respects_post c : respects R (post c).
Proof. intros w. split; [done | apply frame_trace]. Qed.

Lemma respects_issue c : respects R (issue h c).
Proof.
  intros w. unfold issue.
  destruct (fails h _ _); (split; [done | apply frame_trace]).
Qed.

Lemma respects_read_prefs : respects R (read_prefs h).
Proof. intros w. split; [done | reflexivity]. Qed.

Lemma respects_call c : respects R (call h c).
Proof. apply respects_bind; [apply _ | apply respects_issue | intros; apply respects_ret; apply _]. Qed.

Lemma respects_call_value c : respects R (call_value h c).
Proof. apply respects_bind; [apply _ | apply respects_issue | intros; apply respects_ret; apply _]. Qed.

Lemma respects_call_tabs c : respects R (call_tabs h c).
Proof. apply respects_bind; [apply _ | apply respects_issue | intros; apply respects_ret; apply _]. Qed.

Lemma respects_call_tab c : respects R (call_tab h c).
Proof. apply respects_bind; [apply _ | apply respects_issue | intros; apply respects_ret; apply _]. Qed.

Lemma respects_call_windows : respects R (call_windows h).
Proof. apply respects_bind; [apply _ | apply respects_issue | intros; apply respects_ret; apply _]. Qed.

Lemma respects_call_window c : respects R (call_window h c).
Proof. apply respects_bind; [apply _ | apply respects_issue | intros; apply respects_ret; apply _]. Qed.

Lemma respects_call_snapshot : respects R (call_snapshot h).
Proof. apply respects_bind; [apply _ | apply respects_issue | intros; apply respects_ret; apply _]. Qed.

End FrameRules.

(** Decomposes a goal [respects R m] along the structure of [m]. *)
Ltac respects_step :=
  match goal with
  | |- respects _ (mbind _ _) => apply respects_bind; [apply _ | | intros]
  | |- respects _ (try_catch _ _) => apply respects_try_catch; [apply _ | | intros]
  | |- respects _ (try_finally _ _) => apply respects_try_finally; [apply _ | |]
  | |- respects _ (settle _) => apply respects_settle; [apply _ |]
  | |- respects _ (when _ _) => apply respects_when; [apply _ |]
  | |- respects _ (for_each _ _) => apply respects_for_each; [apply _ | intros]
  | |- respects _ (mret _) => apply respects_ret; apply _
  | |- respects _ (throw _) => apply respects_throw; apply _
  | |- respects _ get_world => apply respects_get_world; apply _
  | |- respects _ (logger _) => apply respects_logger; apply _
  | |- respects _ (post _) => apply respects_post; apply _
  | |- respects _ (issue _ _) => apply respects_issue; apply _
  | |- respects _ (call _ _) => apply respects_call; apply _
  | |- respects _ (call_value _ _) => apply respects_call_value; apply _
  | |- respects _ (call_tabs _ _) => apply respects_call_tabs; apply _
  | |- respects _ (call_tab _ _) => apply respects_call_tab; apply _
  | |- respects _ (call_windows _) => apply respects_call_windows; apply _
  | |- respects _ (call_window _ _) => apply respects_call_window; apply _
  | |- respects _ (call_snapshot _) => apply respects_call_snapshot; apply _
  | |- respects _ (read_prefs _) => apply respects_read_prefs; apply _
  | |- respects _ (match ?x with _ => _ end) => destruct x
  | |- respects _ (if ?x then _ else _) => destruct x
  | |- respects _ (let '(_, _) := ?x in _) => destruct x
  end.

(** *** The window focus state *)

(** What [removeWindowTracking] leaves of every field it could touch. *)
Lemma removeWindowTracking_run (windowId : Z) (w : World) :
  let w' := removeWindowTracking windowId w in
  activeTabsByWindow w' = delete windowId (activeTabsByWindow w) ∧
  getActiveTabForWindow windowId w' = JUndefined ∧
  lastFocusedWindowId w' =
    (if decide (lastFocusedWindowId w = windowId) then WINDOW_ID_NONE
     else lastFocusedWindowId w) ∧
  bulkOpTimeoutId w' = bulkOpTimeoutId w ∧
  storage_local w' = storage_local w ∧
  timers w' = timers w ∧
  trace w' = trace w.
Proof.
  unfold removeWindowTracking, getActiveTabForWindow.
  destruct (bool_decide _); simpl;
    case_decide; simpl; rewrite lookup_delete_eq; done.
Qed.

(** C7. Removing the tracking of window [windowId] drops its entry from the
    active-tabs-by-window map and leaves the other entries alone; the last
    focused window becomes the "none" sentinel exactly when it was
    [windowId], and is unchanged otherwise. *)
Theorem removeWindowTracking_drops_entry (windowId : Z) (w : World) :
  let w' := removeWindowTracking windowId w in
  activeTabsByWindow w' !! windowId = None ∧
  getActiveTabForWindow windowId w' = JUndefined ∧
  (∀ other, other ≠ windowId →
     activeTabsByWindow w' !! other = activeTabsByWindow w !! other) ∧
  lastFocusedWindowId w' =
    (if decide (lastFocusedWindowId w = windowId) then WINDOW_ID_NONE
     else lastFocusedWindowId w).
Proof.
  intros w'. destruct (removeWindowTracking_run windowId w) as (Hmap & Hget & Hlast & _).
  fold w' in Hmap, Hget, Hlast. rewrite Hmap.
  split; [apply lookup_delete_eq|]. split; [done|]. split; [|done].
  intros other Hother. by apply lookup_delete_ne.
Qed.

(** C7 on a store that tracks windows 1 and 2 and has window 2 last
    focused: removing window 2 drops its entry, keeps the entry of window 1
    and resets the last focused window. *)
Lemma removeWindowTracking_drops_entry_witness :
  let w := set_lastFocusedWindowId 2
             (set_activeTabsByWindow {[ 1 := JNum 10; 2 := JNum 20 ]} (fresh_world ∅ 0)) in
  let w' := removeWindowTracking 2 w in
  activeTabsByWindow w' !! 2 = None ∧
  activeTabsByWindow w' !! 1 = Some (JNum 10) ∧
  lastFocusedWindowId w' = WINDOW_ID_NONE.
Proof.
  intros w w'.
  destruct (removeWindowTracking_drops_entry 2 w) as (Hgone & _ & Hother & Hlast).
  fold w' in Hgone, Hother, Hlast.
  split; [exact Hgone|]. split.
  - rewrite (Hother 1); [reflexivity | lia].
  - rewrite Hlast. reflexivity.
Defined.

(** *** The durable flags *)

Section Flags.
Context {K : Constants} (h : Host).

Lemma storage_get_run (key : string) (w : World) :
  storage_get h key w =
    let w' := set_trace (trace w ++ [storage_local_get key]) w in
    match fails h (trace w) (storage_local_get key) with
    | Some e => (Throw e, w')
    | None => (Normal (default JUndefined (storage_local w !! key)), w')
    end.
Proof.
  unfold storage_get, call, issue. munfold.
  destruct (fails h _ _); reflexivity.
Qed.

Lemma storage_set_run (key : string) (v : jsval) (w : World) :
  storage_set h key v w =
    let w' := set_trace (trace w ++ [storage_local_set key v]) w in
    match fails h (trace w) (storage_local_set key v) with
    | Some e => (Throw e, w')
    | None => (Normal tt, set_storage_local (<[key := v]> (storage_local w)) w')
    end.
Proof.
  unfold storage_set, call, issue. munfold.
  destruct (fails h _ _); reflexivity.
Qed.

Lemma getBulkOpRunning_run (w : World) :
  getBulkOpRunning h w =
    (Normal (flag_reading h STORAGE_KEYS_BULK_RUNNING w),
     flag_read_world h STORAGE_KEYS_BULK_RUNNING "getBulkOpRunning failed" w).
Proof.
  unfold getBulkOpRunning, flag_reading, flag_read_world. munfold.
  rewrite storage_get_run. simpl.
  destruct (fails h _ _); [reflexivity|].
  destruct (storage_local w !! _); reflexivity.
Qed.

Lemma getFaviconRefreshRunning_run (w : World) :
  getFaviconRefreshRunning h w =
    (Normal (flag_reading h STORAGE_KEYS_FAVICON_REFRESH_RUNNING w),
     flag_read_world h STORAGE_KEYS_FAVICON_REFRESH_RUNNING
       "getFaviconRefreshRunning failed" w).
Proof.
  unfold getFaviconRefreshRunning, flag_reading, flag_read_world. munfold.
  rewrite storage_get_run. simpl.
  destruct (fails h _ _); [reflexivity|].
  destruct (storage_local w !! _); reflexivity.
Qed.

Lemma setFaviconRefreshRunning_run (value : jsval) (w : World) :
  setFaviconRefreshRunning h value w =
    (Normal tt,
     flag_write_world h STORAGE_KEYS_FAVICON_REFRESH_RUNNING (JBool (truthy value))
       "setFaviconRefreshRunning failed" w).
Proof.
  unfold setFaviconRefreshRunning, flag_write_world. munfold.
  rewrite storage_set_run. simpl.
  destruct (fails h _ _); reflexivity.
Qed.

Lemma cancel_watchdog_trace (w : World) : trace (cancel_watchdog w) = trace w.
Proof. unfold cancel_watchdog. destruct (bulkOpTimeoutId w); reflexivity. Qed.

Lemma setBulkOpRunning_run (value : jsval) (w : World) :
  setBulkOpRunning h value w = (Normal tt, setBulkOpRunning_world h value w).
Proof.
  unfold setBulkOpRunning, setBulkOpRunning_world, cancel_watchdog,
    clearTimeout, setTimeout.
  repeat munfold.
  destruct (bulkOpTimeoutId w); simpl;
    rewrite storage_set_run; simpl;
    destruct (fails h _ _); simpl; try reflexivity;
    destruct (truthy value); reflexivity.
Qed.

Lemma flag_reading_false (key : string) (w : World) :
  is_Some (fails h (trace w) (storage_local_get key)) ∨ storage_local w !! key = None →
  flag_reading h key w = false.
Proof.
  unfold flag_reading. intros [[e ->] | Hunset]; [reflexivity|].
  rewrite Hunset. destruct (fails h _ _); reflexivity.
Qed.

(** C10. The accessors of the durable flags always complete normally. The
    two getters answer [false] when the storage read fails and when the key
    is unset (and the truthiness of the stored value otherwise); the two
    setters complete normally also when the storage write fails. *)
Theorem durable_flag_accessors_total (value : jsval) (w : World) :
  (∃ b w', getBulkOpRunning h w = (Normal b, w') ∧
     b = flag_reading h STORAGE_KEYS_BULK_RUNNING w ∧
     (is_Some (fails h (trace w) (storage_local_get STORAGE_KEYS_BULK_RUNNING)) ∨
      storage_local w !! STORAGE_KEYS_BULK_RUNNING = None → b = false)) ∧
  (∃ b w', getFaviconRefreshRunning h w = (Normal b, w') ∧
     b = flag_reading h STORAGE_KEYS_FAVICON_REFRESH_RUNNING w ∧
     (is_Some (fails h (trace w) (storage_local_get STORAGE_KEYS_FAVICON_REFRESH_RUNNING)) ∨
      storage_local w !! STORAGE_KEYS_FAVICON_REFRESH_RUNNING = None → b = false)) ∧
  (∃ w', setBulkOpRunning h value w = (Normal tt, w')) ∧
  (∃ w', setFaviconRefreshRunning h value w = (Normal tt, w')).
Proof.
  repeat split.
  - eexists _, _. rewrite getBulkOpRunning_run.
    split; [reflexivity|]. split; [reflexivity|]. apply flag_reading_false.
  - eexists _, _. rewrite getFaviconRefreshRunning_run.
    split; [reflexivity|]. split; [reflexivity|]. apply flag_reading_false.
  - eexists. apply setBulkOpRunning_run.
  - eexists. apply setFaviconRefreshRunning_run.
Qed.

End Flags.

Section FlagsExample.
#[local] Existing Instance named_constants.

(** C10 on a storage area that rejects every read and every write while
    both flags are stored as [true]: the getters answer [false], the setters
    return. *)
Lemma durable_flag_accessors_total_witness :
  let h := failing_host (λ c, is_storage_get c || is_storage_set c) [] in
  let w := fresh_world {[ "BULK_RUNNING" := JBool true;
                          "FAVICON_REFRESH_RUNNING" := JBool true ]} 0 in
  (getBulkOpRunning h w).1 = Normal false ∧
  (getFaviconRefreshRunning h w).1 = Normal false ∧
  (setBulkOpRunning h (JBool true) w).1 = Normal tt ∧
  (setFaviconRefreshRunning h (JBool true) w).1 = Normal tt.
Proof.
  intros h w.
  destruct (durable_flag_accessors_total h (JBool true) w)
    as ((b1 & w1 & -> & _ & Hb1) & (b2 & w2 & -> & _ & Hb2) & (w3 & ->) & (w4 & ->)).
  simpl. rewrite Hb1, Hb2; [done | left; eexists; reflexivity ..].
Defined.

End FlagsExample.

(** *** The reconciliation sweep *)

Lemma for_each_logger {A} (l : list A) (e : LogEntry) (w : World) :
  for_each l (λ _, logger e) w =
    (Normal tt, set_log (log w ++ replicate (length l) e) w).
Proof.
  revert w. induction l as [|x l IH]; intros w; simpl.
  - rewrite app_nil_r. destruct w; reflexivity.
  - munfold. unfold logger at 1. munfold.
    rewrite IH. simpl. rewrite <- app_assoc. reflexivity.
Qed.

Lemma cleanup_keys_lookup (windowIds : gset Z) (keys : list Z)
    (m : gmap Z jsval) (n : nat) (k : Z) :
  (cleanup_keys windowIds keys (m, n)).1 !! k =
    if decide (k ∈ keys ∧ k ∉ windowIds) then None else m !! k.
Proof.
  revert m n. induction keys as [|k0 keys IH]; intros m n; cbn [cleanup_keys].
  - destruct (decide _) as [[H _]|]; [|done]. by apply elem_of_nil in H.
  - destruct (decide (k0 ∉ windowIds)) as [Hstale|Hlive]; rewrite IH; cbn [fst snd].
    + destruct (decide (k = k0)) as [->|Hne].
      * rewrite lookup_delete_eq.
        destruct (decide (k0 ∈ k0 :: keys ∧ k0 ∉ windowIds)) as [|Hn];
          [by destruct (decide _) | exfalso; apply Hn; split; [left|done]].
      * rewrite lookup_delete_ne by done.
        destruct (decide _) as [Ha|Ha], (decide _) as [Hb|Hb]; try done;
          exfalso; apply Hb || apply Ha; rewrite ?elem_of_cons in *; tauto.
    + destruct (decide _) as [Ha|Ha], (decide _) as [Hb|Hb]; try done;
        exfalso; apply Hb || apply Ha; rewrite ?elem_of_cons in *;
        destruct (decide (k = k0)); subst; tauto.
Qed.

Lemma cleanup_keys_of_map (windowIds : gset Z) (m : gmap Z jsval) (k : Z) :
  (cleanup_keys windowIds (map_to_list m).*1 (m, 0%nat)).1 !! k =
    if decide (k ∈ windowIds) then m !! k else None.
Proof.
  rewrite cleanup_keys_lookup.
  destruct (m !! k) as [v|] eqn:Hk.
  - assert (k ∈ (map_to_list m).*1) as Hin.
    { apply list_elem_of_fmap. exists (k, v). split; [done|].
      by apply elem_of_map_to_list. }
    destruct (decide _) as [Ha|Ha], (decide _) as [Hb|Hb]; try done;
      exfalso; tauto.
  - destruct (decide _), (decide _); done.
Qed.

(** C5. When the host answers the query for the live windows, the sweep
    keeps exactly the tracked entries whose window id is live, with their
    values, and deletes the others; the last focused window is kept when it
    is live and is the "none" sentinel otherwise. The flags, the timers and
    the watchdog handle are not touched. *)
Theorem cleanupStateReferences_spec (h : Host) (w : World) :
  fails h (trace w) windows_getAll = None →
  let live : gset Z := list_to_set (win_id <$> windows_of h (trace w)) in
  ∃ w', cleanupStateReferences h w = (Normal tt, w') ∧
    (∀ k, activeTabsByWindow w' !! k =
            if decide (k ∈ live) then activeTabsByWindow w !! k else None) ∧
    lastFocusedWindowId w' =
      (if decide (lastFocusedWindowId w ∈ live) then lastFocusedWindowId w
       else WINDOW_ID_NONE) ∧
    storage_local w' = storage_local w ∧
    timers w' = timers w ∧
    bulkOpTimeoutId w' = bulkOpTimeoutId w.
Proof.
  intros Hok live.
  unfold cleanupStateReferences, call_windows, issue.
  munfold. rewrite Hok. simpl. fold live.
  destruct (cleanup_keys live _ _) as [tracked removed] eqn:Hsweep.
  simpl. rewrite for_each_logger. unfold logger. munfold. simpl.
  assert (∀ k, tracked !! k =
            if decide (k ∈ live) then activeTabsByWindow w !! k else None) as Hmap.
  { intros k. rewrite <- cleanup_keys_of_map. by rewrite Hsweep. }
  destruct (decide (lastFocusedWindowId w ≠ WINDOW_ID_NONE ∧
                    lastFocusedWindowId w ∉ live)) as [[Hne Hstale]|Hkeep]; simpl.
  - eexists. split; [reflexivity|]. simpl.
    rewrite decide_False by done. done.
  - assert ((if decide (lastFocusedWindowId w ∈ live) then lastFocusedWindowId w
             else WINDOW_ID_NONE) = lastFocusedWindowId w) as Hlast.
    { case_decide; [done|]. destruct (decide (lastFocusedWindowId w = WINDOW_ID_NONE));
        [done | exfalso; tauto]. }
    destruct (bool_decide (0 < removed)%nat); simpl;
      (eexists; split; [reflexivity|]; simpl; by rewrite Hlast).
Qed.

(** C5 on the live set [{1, 3}] and the tracked map
    [{1: 10, 2: 20, 3: 30}], with window 2 last focused: key 2 goes, keys 1
    and 3 stay with their values, the last focused window is reset. *)
Lemma cleanupStateReferences_spec_witness :
  let h := quiet_host [] [ {| win_id := 1; win_focused := true |};
                           {| win_id := 3; win_focused := false |} ] in
  let w := set_lastFocusedWindowId 2
             (set_activeTabsByWindow {[ 1 := JNum 10; 2 := JNum 20; 3 := JNum 30 ]}
                (fresh_world ∅ 0)) in
  ∃ w', cleanupStateReferences h w = (Normal tt, w') ∧
    activeTabsByWindow w' = {[ 1 := JNum 10; 3 := JNum 30 ]} ∧
    lastFocusedWindowId w' = WINDOW_ID_NONE.
Proof.
  intros h w.
  destruct (cleanupStateReferences_spec h w) as (w' & Hrun & Hmap & Hlast & _);
    [reflexivity|].
  exists w'. split; [exact Hrun|]. split.
  - apply map_eq. intros k. rewrite Hmap. simpl.
    destruct (decide (k = 1)) as [->|H1]; [reflexivity|].
    destruct (decide (k = 3)) as [->|H3]; [reflexivity|].
    rewrite decide_False by set_solver.
    rewrite lookup_insert_ne by done. by rewrite lookup_singleton_ne.
  - rewrite Hlast. simpl. apply decide_False. set_solver.
Defined.

(** *** The active tab of a window *)

#[local] Instance same_tabs_frame : Frame same_tabs.
Proof.
  split; [split | done | done].
  - by intros w.
  - intros w1 w2 w3 H12 H23. unfold same_tabs in *. congruence.
Qed.

Lemma same_tabs_updateLastFocusedWindow windowId w :
  same_tabs w (updateLastFocusedWindow windowId w).
Proof. unfold updateLastFocusedWindow. by case_decide. Qed.

Section Activation.
Context {K : Constants} (h : Host).

Lemma handleTabActivated_tabs (activeInfo : ActiveInfo) (w : World) :
  ∃ w', handleTabActivated h activeInfo w = (Normal tt, w') ∧
    activeTabsByWindow w' =
      <[activated_windowId activeInfo := JNum (activated_tabId activeInfo)]>
        (activeTabsByWindow w).
Proof.
  enough (wp (handleTabActivated h activeInfo)
            (λ r w', r = Normal tt ∧
               activeTabsByWindow w' =
                 <[activated_windowId activeInfo := JNum (activated_tabId activeInfo)]>
                   (activeTabsByWindow w)) w) as Hwp.
  { unfold wp in Hwp. destruct (handleTabActivated h activeInfo w) as [r w'].
    simpl in Hwp. destruct Hwp as [-> ?]. by exists w'. }
  unfold handleTabActivated, withErrorHandling.
  apply wp_bind, wp_logger. apply wp_try_catch, wp_try_catch.
  apply wp_bind, wp_get_world. apply wp_bind, wp_modify.
  eapply (wp_respects same_tabs).
  { repeat respects_step.
    apply respects_modify; try apply _. apply same_tabs_updateLastFocusedWindow. }
  intros r w' Hend Hsame. unfold same_tabs in Hsame. simpl in Hsame.
  destruct r as [[]|e|]; [by split | | by destruct Hend].
  apply wp_logger. by split.
Qed.

Lemma handleWindowRemoval_tabs (windowId : Z) (w : World) :
  ∃ w', handleWindowRemoval h windowId w = (Normal tt, w') ∧
    activeTabsByWindow w' = delete windowId (activeTabsByWindow w).
Proof.
  enough (wp (handleWindowRemoval h windowId)
            (λ r w', r = Normal tt ∧
               activeTabsByWindow w' = delete windowId (activeTabsByWindow w)) w) as Hwp.
  { unfold wp in Hwp. destruct (handleWindowRemoval h windowId w) as [r w'].
    simpl in Hwp. destruct Hwp as [-> ?]. by exists w'. }
  unfold handleWindowRemoval, withErrorHandling.
  apply wp_bind, wp_logger. apply wp_try_catch, wp_try_catch.
  apply wp_bind, wp_modify.
  eapply (wp_respects same_tabs).
  { repeat respects_step;
      (apply respects_modify; try apply _; apply same_tabs_updateLastFocusedWindow). }
  intros r w' Hend Hsame. unfold same_tabs in Hsame.
  pose proof (removeWindowTracking_run windowId
                (set_log (log w ++ [DetailedLog "Window removed"]) w)) as (Hdel & _).
  simpl in Hdel. rewrite Hdel in Hsame.
  destruct r as [[]|e|]; [by split | | by destruct Hend].
  apply wp_logger. by split.
Qed.

Lemma dispatch_tabs (ev : FocusEvent) (w : World) (k : Z) (active : option Z) :
  activeTabsByWindow w !! k = JNum <$> active →
  ∃ w', dispatch h ev w = (Normal tt, w') ∧
    activeTabsByWindow w' !! k = JNum <$> track k active ev.
Proof.
  intros Hk. destruct ev as [activeInfo | windowId | windowId]; simpl.
  - destruct (handleTabActivated_tabs activeInfo w) as (w' & -> & Htabs).
    exists w'. split; [done|]. rewrite Htabs.
    case_decide as Heq.
    + rewrite Heq. by rewrite lookup_insert_eq.
    + by rewrite lookup_insert_ne.
  - eexists. split; [reflexivity|].
    pose proof (removeWindowTracking_run windowId w) as (-> & _).
    case_decide as Heq.
    + rewrite Heq. by rewrite lookup_delete_eq.
    + by rewrite lookup_delete_ne.
  - destruct (handleWindowRemoval_tabs windowId w) as (w' & -> & Htabs).
    exists w'. split; [done|]. rewrite Htabs.
    case_decide as Heq.
    + rewrite Heq. by rewrite lookup_delete_eq.
    + by rewrite lookup_delete_ne.
Qed.

Lemma dispatch_all_tabs (events : list FocusEvent) (w : World) (k : Z) (active : option Z) :
  activeTabsByWindow w !! k = JNum <$> active →
  ∃ w', for_each events (dispatch h) w = (Normal tt, w') ∧
    activeTabsByWindow w' !! k = JNum <$> foldl (track k) active events.
Proof.
  revert w active. induction events as [|ev events IH]; intros w active Hk; simpl.
  - by exists w.
  - destruct (dispatch_tabs ev w k active Hk) as (w1 & Hrun & Hk1).
    destruct (IH w1 _ Hk1) as (w' & Hrun' & Hk').
    exists w'. split; [|done]. munfold. by rewrite Hrun.
Qed.

(** C6. From the state of a worker that has just started, after any
    sequence of tab activations and window removals, handled one after the
    other on any host: the active tab recorded for window [k] is the tab of
    the most recent activation in [k], and there is no entry for [k] when
    it was never activated or its tracking was removed since. Every event
    is handled to a normal completion. *)
Theorem activeTabFor_most_recent_activation
    (events : list FocusEvent) (storage : gmap string jsval) (t : Z) (k : Z) :
  ∃ w', for_each events (dispatch h) (fresh_world storage t) = (Normal tt, w') ∧
    activeTabsByWindow w' !! k = JNum <$> activeTabFor events k ∧
    getActiveTabForWindow k w' = from_option JNum JUndefined (activeTabFor events k).
Proof.
  destruct (dispatch_all_tabs events (fresh_world storage t) k None) as (w' & Hrun & Hk).
  { simpl. apply lookup_empty. }
  exists w'. split; [done|]. split; [done|].
  unfold getActiveTabForWindow, activeTabFor. rewrite Hk.
  by destruct (foldl _ _ _).
Qed.

End Activation.

(** *** The bulk-operation watchdog *)

#[local] Instance same_timers_frame : Frame same_timers.
Proof.
  split; [split | done | done].
  - by intros w.
  - intros w1 w2 w3 (? & ? & ?) (? & ? & ?). unfold same_timers. split_and!; congruence.
Qed.

#[local] Instance same_watchdog_frame : Frame same_watchdog.
Proof.
  split; [split | done | done].
  - by intros w.
  - intros w1 w2 w3 [H12 ?] [H23 ?]. split; [by etrans | congruence].
Qed.


Section Watchdog.
Context {K : Constants} (h : Host).

Lemma respects_storage_set (R : relation World) `{!Frame R} key v :
  (∀ w x, R w (set_storage_local x w)) → respects R (storage_set h key v).
Proof.
  intros HR. unfold storage_set. repeat respects_step.
  apply respects_modify; try apply _. intros w. apply HR.
Qed.

Lemma respects_storage_get (R : relation World) `{!Frame R} key :
  respects R (storage_get h key).
Proof. unfold storage_get. repeat respects_step. Qed.

Lemma bulkOpTimeout_same_timers : respects same_timers (bulkOpTimeout h).
Proof.
  unfold bulkOpTimeout. repeat respects_step.
  - apply respects_storage_set; try apply _; done.
  - apply respects_modify; try apply _; done.
Qed.



Lemma elapse_unfold (ms : Z) (w : World) :
  elapse h ms w =
    let t := now w + Z.max 0 ms in
    for_each (filter (λ x, timer_due x ≤ t) (timers w)) (λ _, bulkOpTimeout h)
      (set_timers (filter (λ x, ¬ timer_due x ≤ t) (timers w)) (set_now t w)).
Proof. reflexivity. Qed.












End Watchdog.

Section WatchdogExamples.
#[local] Existing Instance named_constants.



End WatchdogExamples.

(** *** The message router *)

Section Router.
Context {K : Constants} (h : Host).

Lemma truthy_field_object (request : jsval) (k : string) :
  truthy (field request k) = true → truthy request = true.
Proof. by destruct request. Qed.

(** A request whose type is none of the kinds of the [switch] reaches the
    [default:] branch, whoever sent it. *)
Lemma handleMessage_reaches_default (request : jsval) (sender : Sender) (w : World) :
  truthy (field request "type") = true →
  one_of switch_kinds (field request "type") = false →
  handleMessage h request sender w =
    handleMessage_default h request
      (set_log (log w ++ [DetailedLog "Received message"]) w).
Proof.
  intros Htype Hnone. unfold handleMessage.
  rewrite (truthy_field_object _ _ Htype), Htype. simpl.
  unfold one_of, switch_kinds in Hnone. simpl in Hnone.
  repeat (apply orb_false_elim in Hnone;
          let Heq := fresh "Heq" in destruct Hnone as [Heq Hnone]; rewrite Heq).
  reflexivity.
Qed.

(** C9, as the code has it. A request whose type is none of the recognized
    kinds is answered on the spot, exactly once, and the router returns
    [false] without throwing: with [{error: "Unknown message type"}] when
    the type is truthy, and with [{error: "Invalid request"}] when the type
    is missing or falsy. Nothing but the reply and the log lines changes. *)
Theorem handleMessage_unknown_type (request : jsval) (sender : Sender) (w : World) :
  one_of recognized_kinds (field request "type") = false →
  handleMessage h request sender w =
    (Normal false,
     if truthy (field request "type")
     then replied (error_response "Unknown message type")
            [DetailedLog "Received message"; Log "Unknown message type received"] w
     else replied (error_response "Invalid request")
            [LogError "handleMessage: Invalid request object"] w).
Proof.
  intros Hnone. unfold one_of, recognized_kinds in Hnone.
  rewrite existsb_app in Hnone. apply orb_false_elim in Hnone as [Hswitch Hadmin].
  destruct (truthy (field request "type")) eqn:Htype.
  - rewrite handleMessage_reaches_default by done.
    unfold handleMessage_default.
    unfold admin_kinds in Hadmin. simpl in Hadmin.
    repeat (apply orb_false_elim in Hadmin;
            let Heq := fresh "Heq" in destruct Hadmin as [Heq Hadmin]; rewrite Heq).
    unfold replied, logger, post. munfold. simpl. by rewrite <- app_assoc.
  - unfold handleMessage. rewrite Htype. simpl. by rewrite orb_true_r.
Qed.

End Router.

Section UnknownTypeExamples.
#[local] Existing Instance named_constants.

(** C9 on a request of a kind that does not exist. *)
Lemma handleMessage_unknown_type_witness :
  let h := quiet_host [] [] in
  let request := JObj [("type", JStr "MSG_noSuchThing")] in
  ∃ w', handleMessage h request content_script (fresh_world ∅ 0) = (Normal false, w') ∧
    trace w' = [sendResponse (error_response "Unknown message type")].
Proof.
  intros h request. eexists. split.
  - apply (handleMessage_unknown_type h request content_script). reflexivity.
  - reflexivity.
Defined.

(** The claim C9 as the specification words it fails on a request without
    a type: its type is none of the recognized kinds, and the reply is not
    the "unknown" one. *)
Lemma handleMessage_missing_type_counterexample :
  let h := quiet_host [] [] in
  let request := JObj [("tabId", JNum 7)] in
  one_of recognized_kinds (field request "type") = false ∧
  ∃ w', handleMessage h request extension_page (fresh_world ∅ 0) = (Normal false, w') ∧
    trace w' = [sendResponse (error_response "Invalid request")] ∧
    trace w' ≠ [sendResponse (error_response "Unknown message type")].
Proof. split; [reflexivity|]. eexists. split; [reflexivity|]. done. Qed.

End UnknownTypeExamples.

Section Privileged.
Context {K : Constants} (h : Host).

Lemma permission_denied_run (w : World) :
  permission_denied w =
    (Normal false,
     set_log (log w ++ [LogError "Unauthorized attempt to call"])
       (set_trace (trace w ++ [sendResponse (error_response "Permission denied")]) w)).
Proof. reflexivity. Qed.

(** The part of C2 that the code keeps: a message of a guarded kind from a
    sender that is not a page of the extension is refused on the spot; the
    reply and two log lines are all that happens. *)
Lemma handleMessage_guarded_denied (request : jsval) (sender : Sender) (w : World)
    (kind : string) :
  field request "type" = JStr kind →
  kind ≠ "" → kind ≠ "IS_BULK_OP_RUNNING" → kind ≠ MSG_SUSPEND_TAB →
  kind ∈ guarded_kinds →
  validateMessageSender h sender true = false →
  handleMessage h request sender w =
    (Normal false,
     replied (error_response "Permission denied")
       [DetailedLog "Received message"; LogError "Unauthorized attempt to call"] w).
Proof.
  intros Htype Hnonempty Hbulk Hsuspend Hkind Hsender.
  assert (truthy (field request "type") = true) as Htruthy.
  { rewrite Htype. simpl. apply negb_true_iff. by apply String.eqb_neq. }
  unfold handleMessage.
  rewrite (truthy_field_object _ _ Htruthy), Htruthy, Htype, Hsender. simpl.
  rewrite (proj2 (String.eqb_neq _ _) Hbulk), (proj2 (String.eqb_neq _ _) Hsuspend).
  assert ((logger (DetailedLog "Received message") ≫= λ _, permission_denied) w =
            (Normal false, replied (error_response "Permission denied")
               [DetailedLog "Received message"; LogError "Unauthorized attempt to call"] w))
    as Hdenied.
  { unfold replied, logger. munfold. rewrite permission_denied_run. simpl.
    by rewrite <- app_assoc. }
  unfold guarded_kinds in Hkind.
  repeat match goal with
         | |- context [String.eqb kind ?k] =>
             destruct (String.eqb_spec kind k) as [?|?]; [exact Hdenied|]
         end.
  exfalso. set_solver.
Qed.

(** The defect behind C2: a request whose type is none of the kinds of the
    [switch], an admin kind in particular, is handled the same whoever
    sent it. *)
Lemma handleMessage_default_ignores_sender (request : jsval) (sender sender' : Sender)
    (w : World) :
  truthy (field request "type") = true →
  one_of switch_kinds (field request "type") = false →
  handleMessage h request sender w = handleMessage h request sender' w.
Proof. intros Htype Hnone. by rewrite !handleMessage_reaches_default. Qed.

End Privileged.

Section PrivilegedExample.
#[local] Existing Instance named_constants.

(** C2 at the failing input: a content script in a web page asks for
    [MSG_RESET_BULK_OP_RUNNING] while a bulk operation is running. The
    sender is not a page of the extension, yet the handler runs: the
    watchdog timer is cancelled, the flag is written [false] and the reply
    is [{success: true}]. *)
Theorem handleMessage_reset_bulk_op_unguarded :
  let h := quiet_host [] [] in
  let w := world_after h [CallSetBulkOpRunning (JBool true)] ∅ 0 in
  let request := JObj [("type", JStr MSG_RESET_BULK_OP_RUNNING)] in
  validateMessageSender h content_script true = false ∧
  storage_local w !! STORAGE_KEYS_BULK_RUNNING = Some (JBool true) ∧
  timers w = [{| timer_id := 1; timer_due := 600000 |}] ∧
  let result := handleMessage h request content_script w in
  result.1 = Normal true ∧
  trace result.2 = trace w ++ [storage_local_set STORAGE_KEYS_BULK_RUNNING (JBool false);
                               sendResponse success_response] ∧
  storage_local result.2 !! STORAGE_KEYS_BULK_RUNNING = Some (JBool false) ∧
  timers result.2 = [].
Proof. repeat split; vm_compute; reflexivity. Qed.

End PrivilegedExample.

(** *** The removal of a tab *)

Section TabRemoved.
Context (h : Host).

(** What [handleTabRemoved] does when the scheduling collaborator accepts
    the purge: the purge is the first call it makes, whatever the event
    says; it returns normally; and the map it leaves is
    [tabs_after_removal]. *)
Lemma handleTabRemoved_run (tabId : Z) (removeInfo : RemoveInfo) (w : World) :
  fails h (trace w) (Scheduling_removeTabSuspendTime tabId) = None →
  ∃ w' calls, handleTabRemoved h tabId removeInfo w = (Normal tt, w') ∧
    trace w' = trace w ++ Scheduling_removeTabSuspendTime tabId :: calls ∧
    activeTabsByWindow w' = tabs_after_removal h tabId removeInfo w.
Proof.
  intros Hpurge.
  unfold handleTabRemoved, withErrorHandling, tabs_after_removal, call, call_tabs,
    issue, logger, active_tab_query.
  munfold. simpl. rewrite Hpurge. clear Hpurge. simpl.
  destruct (isWindowClosing removeInfo); simpl.
  { eexists _, []. split; [reflexivity|]. done. }
  unfold getActiveTabForWindow. simpl.
  destruct (is_num _ tabId); simpl.
  2: { eexists _, []. split; [reflexivity|]. done. }
  destruct (fails h _ _); simpl.
  { eexists _, [_]. split; [reflexivity|]. simpl. by rewrite <- app_assoc. }
  destruct (tabs_of h _ _) as [|tab tabs]; simpl;
    (eexists _, [_]; split; [reflexivity|]; simpl; by rewrite <- app_assoc).
Qed.

End TabRemoved.

(** C3 at the failing input: tab 10, the tracked active tab of window 1,
    is removed while the window stays open, and the host finds no active
    tab in the window. The purge and the query are made, and the entry of
    window 1 still names the removed tab. *)
Theorem handleTabRemoved_stale_entry :
  let h := quiet_host [] [] in
  let w := set_activeTabsByWindow {[ 1 := JNum 10 ]} (fresh_world ∅ 0) in
  let result := handleTabRemoved h 10 {| windowId := 1; isWindowClosing := false |} w in
  result.1 = Normal tt ∧
  trace result.2 = [Scheduling_removeTabSuspendTime 10; active_tab_query 1] ∧
  activeTabsByWindow result.2 !! 1 = Some (JNum 10) ∧
  getActiveTabForWindow 1 result.2 = JNum 10.
Proof. repeat split; vm_compute; reflexivity. Qed.

(** *** The batched reloader *)

Section Chunks.
Context {A : Type}.
Implicit Types (l : list A) (n k fuel : nat).

Lemma chunks_from_fuel n l fuel fuel' :
  (0 < n)%nat → (length l ≤ fuel)%nat → (length l ≤ fuel')%nat →
  chunks_from fuel n l = chunks_from fuel' n l.
Proof.
  intros Hn. revert l fuel'.
  induction fuel as [|fuel IH]; intros l fuel' Hfuel Hfuel'.
  - destruct l; [by destruct fuel' | simpl in Hfuel; lia].
  - destruct l as [|x l]; [by destruct fuel'|].
    destruct fuel' as [|fuel']; [simpl in Hfuel'; lia|].
    cbn [chunks_from]. f_equal.
    apply IH; rewrite length_drop; simpl in *; lia.
Qed.


Lemma chunks_cons n l :
  (0 < n)%nat → l ≠ [] → chunks n l = take n l :: chunks n (drop n l).
Proof.
  intros Hn Hl. unfold chunks. destruct l as [|x l]; [done|].
  cbn [length chunks_from]. f_equal.
  apply chunks_from_fuel; [done | | done].
  rewrite length_drop. simpl. lia.
Qed.

(** Induction along the chunks of a list. *)
Lemma chunks_ind n (P : list A → Prop) :
  (0 < n)%nat →
  P [] →
  (∀ l, l ≠ [] → P (drop n l) → P l) →
  ∀ l, P l.
Proof.
  intros Hn Hnil Hstep l.
  enough (∀ m l, (length l ≤ m)%nat → P l) as Hall by (by eapply Hall).
  clear l. induction m as [|m IH]; intros l Hlen.
  - destruct l; [done | simpl in Hlen; lia].
  - destruct l as [|x l]; [done|].
    apply Hstep; [done|]. apply IH. rewrite length_drop. simpl in *. lia.
Qed.

Lemma concat_chunks n l : (0 < n)%nat → concat (chunks n l) = l.
Proof.
  intros Hn. pattern l. apply (chunks_ind n); [done | done |].
  clear l. intros l Hl IH.
  rewrite chunks_cons by done. simpl. rewrite IH. apply take_drop.
Qed.



Lemma chunks_empty n l : (0 < n)%nat → chunks n l = [] ↔ l = [].
Proof.
  intros Hn. split; [|by intros ->].
  destruct l as [|x l]; [done|]. by rewrite chunks_cons.
Qed.

Lemma length_chunks_drop n l :
  (0 < n)%nat → l ≠ [] → length (chunks n l) = S (length (chunks n (drop n l))).
Proof. intros Hn Hl. by rewrite chunks_cons. Qed.

End Chunks.

Lemma js_slice_chunk {A} (l : list A) (k : nat) (batchSize : Z) :
  0 < batchSize → (k < length l)%nat →
  js_slice l (Z.of_nat k) (Z.of_nat k + batchSize)
    = take (Z.to_nat batchSize) (drop k l).
Proof.
  intros Hb Hk. unfold js_slice.
  destruct (Z.ltb_spec (Z.of_nat k) 0); [lia|].
  destruct (Z.ltb_spec (Z.of_nat k + batchSize) 0); [lia|].
  rewrite (Z.min_l (Z.of_nat k)) by lia. rewrite Nat2Z.id.
  destruct (Z.min_spec (Z.of_nat k + batchSize) (Z.of_nat (length l))) as [[? ->]|[? ->]].
  - f_equal. lia.
  - rewrite !take_ge; [done | rewrite length_drop; lia | rewrite length_drop; lia].
Qed.

Section Reloader.
Context {K : Constants} (h : Host).

Lemma reload_outcomes_app (before added added' : list Call) :
  reload_outcomes h before (added ++ added') =
    reload_outcomes h before added ++ reload_outcomes h (before ++ added) added'.
Proof.
  revert before. induction added as [|c added IH]; intros before; simpl.
  - by rewrite app_nil_r.
  - rewrite IH, <- !app_assoc. done.
Qed.

Lemma reload_outcomes_quiet (before added : list Call) :
  Forall (λ c, is_tabs_reload c = false) added →
  reload_outcomes h before added = [].
Proof.
  intros Hquiet. revert before.
  induction Hquiet as [|c added Hc _ IH]; intros before; simpl; [done|].
  rewrite IH. by destruct c.
Qed.

Lemma extends_refl (w : World) : extends h w w [].
Proof. exists []. split_and!; [by rewrite app_nil_r | done | done | lia]. Qed.

Lemma extends_trans (w w1 w2 : World) (o1 o2 : list (jsval * bool)) :
  extends h w w1 o1 → extends h w1 w2 o2 → extends h w w2 (o1 ++ o2).
Proof.
  intros (a1 & Htr1 & Ho1 & Hr1 & Hnow1) (a2 & Htr2 & Ho2 & Hr2 & Hnow2).
  exists (a1 ++ a2). split_and!.
  - by rewrite Htr2, Htr1, app_assoc.
  - by rewrite reload_outcomes_app, Ho1, <- Htr1, Ho2.
  - by apply Forall_app.
  - lia.
Qed.

Lemma extends_log (w : World) (lines : list LogEntry) : extends h w (set_log lines w) [].
Proof. exists []. simpl. split_and!; [by rewrite app_nil_r | done | done | lia]. Qed.

(** The watchdog callback makes no reload and does not move the clock. *)
Lemma bulkOpTimeout_extends (w : World) :
  ∃ w', bulkOpTimeout h w = (Normal tt, w') ∧ extends h w w' [] ∧ now w' = now w.
Proof.
  unfold bulkOpTimeout, call, issue, logger. munfold. rewrite storage_set_run. simpl.
  destruct (fails h _ _); simpl.
  { eexists. split; [reflexivity|]. split; [|done].
    eexists. split; [simpl; reflexivity|].
    split; [done|]. split; [by repeat constructor | simpl; lia]. }
  destruct (fails h _ _); simpl;
    (eexists; split; [reflexivity|]; split; [|done];
     eexists; split; [simpl; rewrite <- app_assoc; reflexivity|];
     split; [done|]; split; [by repeat constructor | simpl; lia]).
Qed.

Lemma for_each_bulkOpTimeout_extends {B} (due : list B) (w : World) :
  ∃ w', for_each due (λ _, bulkOpTimeout h) w = (Normal tt, w') ∧
    extends h w w' [] ∧ now w' = now w.
Proof.
  revert w. induction due as [|t due IH]; intros w; simpl.
  - exists w. split; [done|]. split; [apply extends_refl | done].
  - destruct (bulkOpTimeout_extends w) as (w1 & Hrun & Hext & Hnow).
    destruct (IH w1) as (w' & Hrun' & Hext' & Hnow').
    exists w'. munfold. rewrite Hrun. split; [done|].
    split; [exact (extends_trans _ _ _ [] [] Hext Hext') | congruence].
Qed.

(** Waiting makes no reload and advances the clock by the time waited. *)
Lemma sleep_extends (ms : Z) (w : World) :
  ∃ w', sleep h ms w = (Normal tt, w') ∧ extends h w w' [] ∧
    now w' = now w + Z.max 0 ms.
Proof.
  unfold sleep. rewrite elapse_unfold. simpl.
  match goal with |- context [for_each ?due _ ?w0] =>
    destruct (for_each_bulkOpTimeout_extends due w0) as (w' & -> & Hext & Hnow)
  end.
  exists w'. split; [done|]. simpl in Hnow. split; [|done].
  destruct Hext as (added & Htr & Ho & Hr & _). exists added.
  simpl in *. split_and!; [done | done | done | lia].
Qed.

(** A member of a batch issues one reload and counts its outcome. *)
Lemma reload_member_run (batchStart len perTabDelayMs : Z) (tab : Tab) (index : Z)
    (counts : Z * Z) (w : World) :
  ∃ w' (ok : bool),
    reload_member h batchStart len perTabDelayMs tab index counts w =
      (Normal (if ok then (counts.1 + 1, counts.2) else (counts.1, counts.2 + 1)), w') ∧
    extends h w w' [(tab_id tab, ok)].
Proof.
  unfold reload_member.
  assert (∃ w1, when (bool_decide (0 < index) && bool_decide (0 < perTabDelayMs))
                  (w0 ← get_world;
                   sleep h (batchStart + perTabDelayMs * index / len - now w0)) w
                = (Normal tt, w1) ∧ extends h w w1 []) as (w1 & Hwait & Hext).
  { destruct (_ && _); simpl.
    - munfold. destruct (sleep_extends (batchStart + perTabDelayMs * index / len - now w) w)
        as (w1 & -> & Hext & _). by exists w1.
    - exists w. split; [done | apply extends_refl]. }
  unfold call, issue. munfold. rewrite Hwait. simpl.
  destruct (fails h (trace w1) (tabs_reload (tab_id tab))) as [e|] eqn:Hreload; simpl.
  - eexists _, false. split; [reflexivity|].
    apply (extends_trans _ _ _ [] [(tab_id tab, false)] Hext).
    exists [tabs_reload (tab_id tab)]. simpl. rewrite Hreload.
    split_and!; [done | done | by repeat constructor | lia].
  - eexists _, true. split; [reflexivity|].
    apply (extends_trans _ _ _ [] [(tab_id tab, true)] Hext).
    exists [tabs_reload (tab_id tab)]. simpl. rewrite Hreload.
    split_and!; [done | done | by repeat constructor | lia].
Qed.

(** A batch reloads each of its members once, in order, whatever the
    outcomes; its counts grow by the successes and by the failures. *)
Lemma reload_batch_run (batchStart len perTabDelayMs : Z) (batch : list Tab) (index : Z)
    (counts : Z * Z) (w : World) :
  ∃ w' outcomes,
    reload_batch h batchStart len perTabDelayMs batch index counts w =
      (Normal (counts.1 + succeeded outcomes, counts.2 + failed outcomes), w') ∧
    extends h w w' outcomes ∧
    outcomes.*1 = tab_id <$> batch.
Proof.
  revert index counts w. induction batch as [|tab batch IH]; intros index counts w; simpl.
  - exists w, []. unfold succeeded, failed. simpl. rewrite !Z.add_0_r.
    split; [by destruct counts|]. split; [apply extends_refl | done].
  - destruct (reload_member_run batchStart len perTabDelayMs tab index counts w)
      as (w1 & ok & Hrun & Hext).
    destruct (IH (index + 1)
                (if ok then (counts.1 + 1, counts.2) else (counts.1, counts.2 + 1)) w1)
      as (w' & outcomes & Hrun' & Hext' & Hids).
    exists w', ((tab_id tab, ok) :: outcomes).
    munfold. rewrite Hrun, Hrun'. split.
    + do 2 f_equal. unfold succeeded, failed.
      destruct ok; simpl; rewrite Nat2Z.inj_succ; apply pair_equal_spec; lia.
    + split; [apply (extends_trans _ _ _ [_] _ Hext Hext') | by rewrite fmap_cons, Hids].
Qed.

Lemma succeeded_app (o1 o2 : list (jsval * bool)) :
  succeeded (o1 ++ o2) = succeeded o1 + succeeded o2.
Proof. unfold succeeded. rewrite List.filter_app, length_app. lia. Qed.

Lemma failed_app (o1 o2 : list (jsval * bool)) :
  failed (o1 ++ o2) = failed o1 + failed o2.
Proof. unfold failed. rewrite List.filter_app, length_app. lia. Qed.

Lemma succeeded_failed (o : list (jsval * bool)) :
  succeeded o + failed o = Z.of_nat (length o).
Proof.
  unfold succeeded, failed. induction o as [|[id []] o IH]; simpl in *; lia.
Qed.

(** The wait between two chunks. *)
Lemma inter_batch_wait (more : bool) (batchDelayMs : Z) (w : World) :
  ∃ w', when (more && bool_decide (0 < batchDelayMs)) (sleep h batchDelayMs) w
          = (Normal tt, w') ∧
    extends h w w' [] ∧
    (if more then now w + batchDelayMs ≤ now w' else True).
Proof.
  destruct more; simpl.
  - case_bool_decide as Hd; simpl.
    + destruct (sleep_extends batchDelayMs w) as (w' & -> & Hext & Hnow).
      exists w'. split; [done|]. split; [done | lia].
    + exists w. split; [done|]. split; [apply extends_refl | lia].
  - exists w. split; [done|]. split; [apply extends_refl | done].
Qed.

(** The chunks in order: every tab of every chunk is reloaded once, in
    order; the counts grow by the successes and the failures; and the clock
    advances by at least [batchDelayMs] between two chunks. *)
Lemma run_chunks_run (perTabDelayMs batchDelayMs total : Z)
    (batches : list (list Tab)) (done : Z) (counts : Z * Z) (w : World) :
  ∃ w' outcomes,
    run_chunks h perTabDelayMs batchDelayMs total batches done counts w =
      (Normal (counts.1 + succeeded outcomes, counts.2 + failed outcomes), w') ∧
    extends h w w' outcomes ∧
    outcomes.*1 = tab_id <$> concat batches ∧
    now w + Z.of_nat (length batches - 1) * batchDelayMs ≤ now w'.
Proof.
  revert done counts w.
  induction batches as [|batch rest IH]; intros done counts w; simpl.
  - exists w, []. unfold succeeded, failed. simpl. rewrite !Z.add_0_r.
    split; [by destruct counts|]. split; [apply extends_refl|]. split; [done | lia].
  - destruct (reload_batch_run (now w) (Z.of_nat (length batch)) perTabDelayMs batch 0 counts w)
      as (w1 & o1 & Hrun1 & Hext1 & Hids1).
    destruct (inter_batch_wait (bool_decide (rest ≠ [])) batchDelayMs w1)
      as (w2 & Hwait & Hext2 & Hnow2).
    destruct (IH (done + Z.of_nat (length batch))
                (counts.1 + succeeded o1, counts.2 + failed o1)
                (set_log (log w2 ++ [LogRefreshProgress (done + Z.of_nat (length batch)) total
                                       (counts.1 + succeeded o1) (counts.2 + failed o1)]) w2))
      as (w' & o2 & Hrun3 & Hext3 & Hids2 & Hnow3).
    exists w', (o1 ++ o2). munfold. rewrite Hrun1. cbn beta iota.
    rewrite Hwait. unfold logger. munfold. cbn beta iota. cbn [fst snd].
    rewrite Hrun3. simpl.
    rewrite succeeded_app, failed_app, !Z.add_assoc. split; [done|].
    split.
    { apply (extends_trans _ _ _ o1 o2 Hext1).
      apply (extends_trans _ _ _ [] o2 Hext2).
      apply (extends_trans _ _ _ [] o2 (extends_log _ _) Hext3). }
    split; [by rewrite fmap_app, Hids1, Hids2, fmap_app|].
    destruct Hext1 as (_ & _ & _ & _ & Hnow1). simpl in Hnow3.
    rewrite Nat.sub_0_r.
    destruct rest as [|batch' rest]; simpl in *.
    + destruct Hext2 as (_ & _ & _ & _ & ?). lia.
    + rewrite Nat.sub_0_r in Hnow3. rewrite Nat2Z.inj_succ. lia.
Qed.

(** With a positive batch size and enough fuel, the loop of the source is
    the run of the consecutive chunks. *)
Lemma reload_loop_chunks (fuel : nat) (validTabs : list Tab)
    (batchSize perTabDelayMs batchDelayMs : Z) (k : nat) (counts : Z * Z) (w : World) :
  0 < batchSize →
  (length validTabs - k < fuel)%nat →
  reload_loop h fuel validTabs batchSize perTabDelayMs batchDelayMs (Z.of_nat k) counts w =
    run_chunks h perTabDelayMs batchDelayMs (Z.of_nat (length validTabs))
      (chunks (Z.to_nat batchSize) (drop k validTabs)) (Z.of_nat k) counts w.
Proof.
  intros Hb. revert k counts w.
  induction fuel as [|fuel IH]; intros k counts w Hfuel; [lia|].
  cbn [reload_loop]. case_bool_decide as Hk.
  2: { rewrite drop_ge by lia. done. }
  assert (drop k validTabs ≠ []) as Hrest.
  { intros Hnil. apply (f_equal length) in Hnil. rewrite length_drop in Hnil.
    simpl in Hnil. lia. }
  rewrite chunks_cons by (done || lia).
  rewrite js_slice_chunk by lia. rewrite drop_drop.
  cbn [run_chunks]. munfold.
  destruct (reload_batch h _ _ _ _ _ _ w) as [[counts'| |] w1]; [|done..].
  assert (bool_decide (Z.of_nat k + batchSize < Z.of_nat (length validTabs)) =
          bool_decide (chunks (Z.to_nat batchSize) (drop (k + Z.to_nat batchSize) validTabs) ≠ []))
    as ->.
  { apply bool_decide_ext. rewrite chunks_empty by lia. split.
    - intros Hlt Hnil. apply (f_equal length) in Hnil. rewrite length_drop in Hnil.
      simpl in Hnil. lia.
    - intros Hne. destruct (decide (Z.of_nat k + batchSize < Z.of_nat (length validTabs)));
        [done|]. exfalso. apply Hne. apply drop_ge. lia. }
  match goal with |- context [(if ?c then ?a else ?b) w1] =>
    destruct ((if c then a else b) w1) as [[[]| |] w2]
  end; [|done..].
  unfold logger. munfold.
  replace (Z.of_nat k + batchSize) with (Z.of_nat (k + Z.to_nat batchSize)) by lia.
  rewrite IH by lia.
  destruct (decide (k + Z.to_nat batchSize ≤ length validTabs)%nat) as [Hfull|Hshort].
  - rewrite length_take, length_drop.
    replace (Z.of_nat k + Z.of_nat (Z.to_nat batchSize `min` (length validTabs - k)))
      with (Z.of_nat (k + Z.to_nat batchSize)) by lia.
    done.
  - rewrite (drop_ge validTabs (k + Z.to_nat batchSize)) by lia. done.
Qed.

(** More fuel than the valid tabs does not change the result ... *)
Lemma reload_loop_fuel (fuel : nat) (validTabs : list Tab)
    (batchSize perTabDelayMs batchDelayMs : Z) (counts : Z * Z) (w : World) :
  0 < batchSize →
  (length validTabs < fuel)%nat →
  reload_loop h fuel validTabs batchSize perTabDelayMs batchDelayMs 0 counts w =
    reload_loop h (S (length validTabs)) validTabs batchSize perTabDelayMs batchDelayMs
      0 counts w.
Proof.
  intros Hb Hfuel.
  rewrite (reload_loop_chunks fuel _ _ _ _ 0), (reload_loop_chunks (S _) _ _ _ _ 0);
    [done | done | lia | done | lia].
Qed.


(** What a call of the reloader does, for a positive batch size. *)
Lemma reloadSuspendedTabsBatched_run
    (tabs : list Tab) (batchSize perTabDelayMs batchDelayMs : Z) (w : World) :
  0 < batchSize →
  let validTabs := List.filter validTab tabs in
  let batches := chunks (Z.to_nat batchSize) validTabs in
  (∀ w0, reload_loop h (S (length validTabs)) validTabs
           batchSize perTabDelayMs batchDelayMs 0 (0, 0) w0 =
         run_chunks h perTabDelayMs batchDelayMs (Z.of_nat (length validTabs))
           batches 0 (0, 0) w0) ∧
  ∃ w' outcomes,
    reloadSuspendedTabsBatched h tabs batchSize perTabDelayMs batchDelayMs w =
      (Normal (succeeded outcomes), w') ∧
    extends h w w' outcomes ∧
    outcomes.*1 = tab_id <$> validTabs ∧
    succeeded outcomes + failed outcomes = Z.of_nat (length validTabs) ∧
    last (log w') =
      Some (LogRefreshCompleted (succeeded outcomes) (failed outcomes) (now w' - now w)) ∧
    now w + Z.of_nat (length batches - 1) * batchDelayMs ≤ now w'.
Proof.
  intros Hb validTabs batches.
  assert (0 < Z.to_nat batchSize)%nat as Hn by lia.
  assert (∀ w0, reload_loop h (S (length validTabs)) validTabs
            batchSize perTabDelayMs batchDelayMs 0 (0, 0) w0 =
          run_chunks h perTabDelayMs batchDelayMs (Z.of_nat (length validTabs))
            batches 0 (0, 0) w0) as Hloop.
  { intros w0. apply (reload_loop_chunks _ _ _ _ _ 0); [done | lia]. }
  split; [exact Hloop|].
  pose (w0 := set_log (log w ++ [Log "Favicon refresh: Processing valid tabs out of total tabs"]) w).
  destruct (run_chunks_run perTabDelayMs batchDelayMs (Z.of_nat (length validTabs))
              batches 0 (0, 0) w0) as (w1 & outcomes & Hrun & Hext & Hids & Hnow).
  simpl in Hrun.
  pose (lines := log w1 ++ [LogRefreshCompleted (succeeded outcomes) (failed outcomes)
                              (now w1 - now w)]).
  exists (set_log lines w1), outcomes.
  split.
  { unfold reloadSuspendedTabsBatched, logger. munfold. fold validTabs.
    cbn beta iota. rewrite Hloop. fold w0. rewrite Hrun. reflexivity. }
  split.
  { pose proof (extends_trans _ _ _ _ _ (extends_log w _ : extends h w w0 []) Hext) as H1.
    pose proof (extends_trans _ _ _ _ _ H1 (extends_log w1 lines)) as H2.
    simpl in H2. by rewrite app_nil_r in H2. }
  assert (concat batches = validTabs) as Hcat by (by apply concat_chunks).
  rewrite Hcat in Hids.
  split; [done|].
  split.
  { rewrite succeeded_failed. rewrite <- (length_fmap fst), Hids.
    by rewrite length_fmap. }
  split; [simpl; unfold lines; by rewrite last_snoc | exact Hnow].
Qed.


End Reloader.

Section ReloaderExamples.
#[local] Existing Instance named_constants.



End ReloaderExamples.

(** *** The favicon refresh *)

Section FaviconRefresh.
Context {K : Constants} (h : Host).

Lemma flag_read_world_trace key complaint w :
  trace (flag_read_world h key complaint w) = trace w ++ [storage_local_get key].
Proof. unfold flag_read_world. by destruct (fails h _ _). Qed.

Lemma flag_read_world_storage key complaint w :
  storage_local (flag_read_world h key complaint w) = storage_local w.
Proof. unfold flag_read_world. by destruct (fails h _ _). Qed.

Lemma flag_write_world_trace key v complaint w :
  trace (flag_write_world h key v complaint w) = trace w ++ [storage_local_set key v].
Proof. unfold flag_write_world. by destruct (fails h _ _). Qed.

Lemma flag_write_world_now key v complaint w :
  now (flag_write_world h key v complaint w) = now w.
Proof. unfold flag_write_world. by destruct (fails h _ _). Qed.

Lemma flag_write_world_stored key v complaint w :
  fails h (trace w) (storage_local_set key v) = None →
  storage_local (flag_write_world h key v complaint w) !! key = Some v.
Proof. intros Hok. unfold flag_write_world. rewrite Hok. apply lookup_insert_eq. Qed.

(** The [finally] block of the handler. *)
Lemma refresh_finally_run (w : World) :
  ∃ w', (_ ← setFaviconRefreshRunning h (JBool false);
         broadcastFaviconRefreshProgress false) w = (Normal tt, w') ∧
    trace w' = trace w ++ [favicon_flag false; favicon_broadcast false] ∧
    (fails h (trace w) (favicon_flag false) = None →
     storage_local w' !! STORAGE_KEYS_FAVICON_REFRESH_RUNNING = Some (JBool false)).
Proof.
  munfold. rewrite setFaviconRefreshRunning_run.
  eexists. split; [reflexivity|]. simpl.
  rewrite flag_write_world_trace, <- app_assoc. split; [done|].
  intros Hok. by apply flag_write_world_stored.
Qed.

(** The body of the handler, from the write of the flag on. *)
Lemma refresh_body_run (w : World) :
  let tr := trace w ++ [favicon_flag true; favicon_broadcast true] in
  ∃ r w' middle,
    (_ ← setFaviconRefreshRunning h (JBool true);
     try_finally
       (_ ← broadcastFaviconRefreshProgress true;
        tabs ← call_tabs h (suspended_tabs_query h);
        count ← reloadSuspendedTabsBatched h tabs 3 1000 1200;
        mret (refresh_response count (Z.of_nat (length tabs))))
       (_ ← setFaviconRefreshRunning h (JBool false);
        broadcastFaviconRefreshProgress false)) w = (r, w') ∧
    trace w' = tr ++ middle ++ [favicon_flag false; favicon_broadcast false] ∧
    Forall (λ c, is_sendResponse c = false) middle ∧
    match fails h tr (suspended_tabs_query h) with
    | Some message => r = Throw message ∧ middle = [suspended_tabs_query h]
    | None =>
        ∃ count, r = Normal (refresh_response count
                               (Z.of_nat (length (tabs_of h tr (suspended_tabs_query h)))))
    end ∧
    (fails h (tr ++ middle) (favicon_flag false) = None →
     storage_local w' !! STORAGE_KEYS_FAVICON_REFRESH_RUNNING = Some (JBool false)).
Proof.
  intros tr.
  set (w1 := flag_write_world h STORAGE_KEYS_FAVICON_REFRESH_RUNNING (JBool true)
               "setFaviconRefreshRunning failed" w).
  set (w2 := posted (favicon_broadcast true) w1).
  set (w3 := posted (suspended_tabs_query h) w2).
  assert (trace w2 = tr) as Htr2.
  { unfold w2, w1, tr. rewrite trace_posted, flag_write_world_trace, <- app_assoc. done. }
  assert (trace w3 = tr ++ [suspended_tabs_query h]) as Htr3.
  { unfold w3. by rewrite trace_posted, Htr2. }
  assert ((_ ← setFaviconRefreshRunning h (JBool true);
            try_finally
              (_ ← broadcastFaviconRefreshProgress true;
               tabs ← call_tabs h (suspended_tabs_query h);
               count ← reloadSuspendedTabsBatched h tabs 3 1000 1200;
               mret (refresh_response count (Z.of_nat (length tabs))))
              (_ ← setFaviconRefreshRunning h (JBool false);
               broadcastFaviconRefreshProgress false)) w =
          match
            match fails h tr (suspended_tabs_query h) with
            | Some e => (Throw e, w3)
            | None =>
                match reloadSuspendedTabsBatched h (tabs_of h tr (suspended_tabs_query h))
                        3 1000 1200 w3 with
                | (Normal count, w4) =>
                    (Normal (refresh_response count
                               (Z.of_nat (length (tabs_of h tr (suspended_tabs_query h))))), w4)
                | (Throw e, w4) => (Throw e, w4)
                | (Diverge, w4) => (Diverge, w4)
                end
            end
          with
          | (Diverge, w4) => (Diverge, w4)
          | (r, w4) =>
              match (_ ← setFaviconRefreshRunning h (JBool false);
                     broadcastFaviconRefreshProgress false) w4 with
              | (Normal _, w5) => (r, w5)
              | (Throw e, w5) => (Throw e, w5)
              | (Diverge, w5) => (Diverge, w5)
              end
          end) as Hsteps.
  { rewrite bind_run, setFaviconRefreshRunning_run.
    change (truthy (JBool true)) with true. fold w1.
    unfold try_finally. unfold broadcastFaviconRefreshProgress at 1.
    rewrite bind_run, post_run. fold (favicon_broadcast true). fold w2.
    rewrite bind_run, call_tabs_run. fold w3. rewrite Htr2.
    destruct (fails h tr (suspended_tabs_query h)); [done|].
    by rewrite bind_run. }
  revert Hsteps.
  destruct (fails h tr (suspended_tabs_query h)) as [message|] eqn:Hquery; intros Hsteps.
  - destruct (refresh_finally_run w3) as (w' & Hfin & Htr' & Hst').
    rewrite Hfin in Hsteps.
    exists (Throw message), w', [suspended_tabs_query h].
    split; [exact Hsteps|]. rewrite Htr', Htr3.
    split; [by rewrite <- !app_assoc|].
    split; [by repeat constructor|]. split; [done|].
    intros Hok. apply Hst'. by rewrite Htr3.
  - set (tabs := tabs_of h tr (suspended_tabs_query h)) in *.
    destruct (reloadSuspendedTabsBatched_run h tabs 3 1000 1200 w3)
      as (_ & w4 & outcomes & Hrun & Hext & _); [lia|].
    destruct Hext as (added & Htr4 & _ & Hquiet & _).
    destruct (refresh_finally_run w4) as (w' & Hfin & Htr' & Hst').
    rewrite Hrun, Hfin in Hsteps.
    exists (Normal (refresh_response (succeeded outcomes) (Z.of_nat (length tabs)))), w',
      (suspended_tabs_query h :: added).
    split; [exact Hsteps|]. rewrite Htr', Htr4, Htr3.
    split; [by rewrite <- !app_assoc|].
    split; [by constructor|]. split; [by eexists|].
    intros Hok. apply Hst'. rewrite Htr4, Htr3.
    by rewrite <- !app_assoc in *.
Qed.

Lemma handleAsyncMessage_run (asyncFunction : M jsval) (w : World) :
  handleAsyncMessage asyncFunction w =
    match asyncFunction w with
    | (Normal result, w') => (Normal tt, posted (sendResponse result) w')
    | (Throw message, w') =>
        (Normal tt, posted (sendResponse (thrown_response message))
                      (set_log (log w' ++ [LogError message]) w'))
    | (Diverge, w') => (Diverge, w')
    end.
Proof.
  unfold handleAsyncMessage, settle. rewrite bind_run.
  by destruct (asyncFunction w) as [[result|message|] w'].
Qed.

(** C8, as the code has it. A request to refresh all suspended favicons is
    answered exactly once, after the handler has run, and the router
    returns [true]. When the durable flag reads [true], the read and the
    reply [{success: false, error}] are the only calls: no query, no
    reload, no write. Otherwise the flag is written [true] and the progress
    broadcast is posted; then, whether the query for the suspended pages
    fails or the batched reload runs, the flag is written [false] and the
    completion broadcast is posted before the reply, which is
    [{success: true, count, total}] when the query succeeded and
    [{error}] (without a [success] field) when it threw. The flag is stored
    as [false] at the end when the storage accepts that last write. *)
Theorem handleMessage_refresh_favicons (request : jsval) (sender : Sender) (w : World) :
  field request "type" = JStr MSG_REFRESH_ALL_SUSPENDED_FAVICONS →
  MSG_REFRESH_ALL_SUSPENDED_FAVICONS ≠ "" →
  one_of switch_kinds (JStr MSG_REFRESH_ALL_SUSPENDED_FAVICONS) = false →
  MSG_REFRESH_ALL_SUSPENDED_FAVICONS ≠ MSG_CLEAR_FAVICON_CACHE →
  let read := storage_local_get STORAGE_KEYS_FAVICON_REFRESH_RUNNING in
  ∃ w' response,
    handleMessage h request sender w = (Normal true, w') ∧
    if flag_reading h STORAGE_KEYS_FAVICON_REFRESH_RUNNING w then
      trace w' = trace w ++ [read; sendResponse response] ∧
      response = already_running_response ∧
      storage_local w' = storage_local w
    else
      let tr := trace w ++ [read; favicon_flag true; favicon_broadcast true] in
      ∃ middle,
        trace w' = tr ++ middle ++ [favicon_flag false; favicon_broadcast false;
                                    sendResponse response] ∧
        Forall (λ c, is_sendResponse c = false) middle ∧
        match fails h tr (suspended_tabs_query h) with
        | Some message =>
            response = thrown_response message ∧ middle = [suspended_tabs_query h]
        | None =>
            ∃ count,
              response = refresh_response count
                           (Z.of_nat (length (tabs_of h tr (suspended_tabs_query h))))
        end ∧
        (fails h (tr ++ middle) (favicon_flag false) = None →
         storage_local w' !! STORAGE_KEYS_FAVICON_REFRESH_RUNNING = Some (JBool false)).
Proof.
  intros Htype Hnonempty Hswitch Hclear read.
  assert (truthy (field request "type") = true) as Htruthy.
  { rewrite Htype. simpl. apply negb_true_iff. by apply String.eqb_neq. }
  rewrite handleMessage_reaches_default; [| exact Htruthy | by rewrite Htype].
  set (w0 := set_log (log w ++ [DetailedLog "Received message"]) w).
  unfold handleMessage_default. rewrite Htype. cbn [is_str].
  rewrite (proj2 (String.eqb_neq _ _) Hclear), String.eqb_refl.
  rewrite bind_run, handleAsyncMessage_run.
  unfold refreshAllSuspendedFavicons. rewrite bind_run, getFaviconRefreshRunning_run.
  change (flag_reading h STORAGE_KEYS_FAVICON_REFRESH_RUNNING w0)
    with (flag_reading h STORAGE_KEYS_FAVICON_REFRESH_RUNNING w).
  set (w1 := flag_read_world h STORAGE_KEYS_FAVICON_REFRESH_RUNNING
               "getFaviconRefreshRunning failed" w0).
  assert (trace w1 = trace w ++ [read]) as Htr1.
  { unfold w1. by rewrite flag_read_world_trace. }
  destruct (flag_reading h STORAGE_KEYS_FAVICON_REFRESH_RUNNING w).
  - eexists _, _. split; [reflexivity|]. simpl.
    rewrite Htr1, <- app_assoc. split; [done|]. split; [done|].
    unfold w1. by rewrite flag_read_world_storage.
  - destruct (refresh_body_run w1) as (r & w2 & middle & Hrun & Htr2 & Hquiet & Hr & Hst).
    unfold suspended_tabs_query, refresh_response in Hrun.
    cbn beta iota zeta. rewrite Hrun.
    rewrite Htr1 in Htr2, Hr, Hst.
    rewrite <- ?app_assoc in Htr2; simpl in Htr2.
    rewrite <- ?app_assoc in Hr; simpl in Hr.
    rewrite <- ?app_assoc in Hst; simpl in Hst.
    destruct (fails h _ (suspended_tabs_query h)) as [message|].
    + destruct Hr as [-> ->].
      eexists _, (thrown_response message). split; [reflexivity|].
      exists [suspended_tabs_query h].
      rewrite trace_posted. simpl. rewrite Htr2.
      split; [rewrite <- ?app_assoc; simpl; by rewrite <- ?app_assoc|].
      split; [done|]. split; [done|]. by rewrite <- ?app_assoc.
    + destruct Hr as [count ->].
      eexists _, (refresh_response count _). split; [reflexivity|]. exists middle.
      rewrite trace_posted. rewrite Htr2.
      split; [rewrite <- ?app_assoc; simpl; by rewrite <- ?app_assoc|].
      split; [done|]. split; [by eexists|]. by rewrite <- ?app_assoc.
Qed.

End FaviconRefresh.

Section FaviconRefreshExamples.
#[local] Existing Instance named_constants.

(** C8 on two suspended pages, asked for by the options page: both are
    reloaded, the reply is [{success: true, count: 2, total: 2}], and the
    flag is stored as [false] at the end. *)
Lemma handleMessage_refresh_favicons_witness :
  let suspended id :=
    {| tab_id := JNum id; tab_windowId := JNum 1;
       tab_url := Some "chrome-extension://extid/suspended.html#uri=https://example.com/";
       tab_title := JStr "Example" |} in
  let h := quiet_host [suspended 11; suspended 12] [] in
  let request := JObj [("type", JStr MSG_REFRESH_ALL_SUSPENDED_FAVICONS)] in
  ∃ w', handleMessage h request extension_page (fresh_world ∅ 0) = (Normal true, w') ∧
    List.filter is_tabs_reload (trace w') = [tabs_reload (JNum 11); tabs_reload (JNum 12)] ∧
    last (trace w') = Some (sendResponse (refresh_response 2 2)) ∧
    storage_local w' !! STORAGE_KEYS_FAVICON_REFRESH_RUNNING = Some (JBool false).
Proof.
  intros suspended h request.
  destruct (handleMessage_refresh_favicons h request extension_page (fresh_world ∅ 0))
    as (w' & response & Hrun & Hrest); [reflexivity | done | reflexivity | done |].
  exists w'. split; [exact Hrun|].
  change (flag_reading h STORAGE_KEYS_FAVICON_REFRESH_RUNNING (fresh_world ∅ 0))
    with false in Hrest.
  destruct Hrest as (middle & _ & _ & _ & Hstored).
  assert (w' = (handleMessage h request extension_page (fresh_world ∅ 0)).2) as Hw'
    by (by rewrite Hrun).
  split; [rewrite Hw'; vm_compute; reflexivity|].
  split; [rewrite Hw'; vm_compute; reflexivity|].
  apply Hstored. reflexivity.
Defined.

(** The claim C8 as the specification words it fails when the query for
    the suspended pages throws: the flag is written back and the completion
    broadcast is posted, but the reply is [{error: "boom"}], which has no
    [success] field and so is neither [{success, count, total}] nor
    [{success: false, error}]. *)
Lemma handleMessage_refresh_favicons_counterexample :
  let h := failing_host is_tabs_query [] in
  let request := JObj [("type", JStr MSG_REFRESH_ALL_SUSPENDED_FAVICONS)] in
  let response := JObj [("error", JStr "boom")] in
  trace (handleMessage h request extension_page (fresh_world ∅ 0)).2 =
    [ storage_local_get STORAGE_KEYS_FAVICON_REFRESH_RUNNING;
      favicon_flag true; favicon_broadcast true; suspended_tabs_query h;
      favicon_flag false; favicon_broadcast false; sendResponse response ] ∧
  field response "success" = JUndefined ∧
  (∀ count total, response ≠ refresh_response count total) ∧
  response ≠ already_running_response.
Proof. intros h request response. split; [vm_compute; reflexivity | done]. Qed.

End FaviconRefreshExamples.

(** ** Further properties of the code *)

(** *** The watchdog between two calls *)

Section WatchdogInvariant.
Context {K : Constants} (h : Host).







End WatchdogInvariant.

Section WatchdogEdges.
Context {K : Constants} (h : Host).

Lemma cancel_watchdog_forgets (w : World) :
  bulkOpTimeoutId (cancel_watchdog w) = None ∧
  storage_local (cancel_watchdog w) = storage_local w.
Proof. unfold cancel_watchdog. by destruct (bulkOpTimeoutId w) eqn:Hid. Qed.

(** While no timer is pending, passing time does nothing but move the
    clock. *)
Lemma elapse_idle (ms : Z) (w : World) :
  timers w = [] →
  elapse h ms w = (Normal tt, set_timers [] (set_now (now w + Z.max 0 ms) w)).
Proof. intros Hnone. rewrite elapse_unfold. simpl. by rewrite Hnone. Qed.


(** X3. When the watchdog comes due and the storage rejects the write of
    its callback, the passing of time still completes normally, but the
    flag is not reset: the storage is as before, no reset message is sent
    (the rejected write is the only call), the timer is gone and the module
    still remembers its handle. *)
Theorem watchdog_write_rejected (w1 : World) (id : positive) (due ms : Z) :
  let write := storage_local_set STORAGE_KEYS_BULK_RUNNING (JBool false) in
  timers w1 = [{| timer_id := id; timer_due := due |}] →
  due ≤ now w1 + ms →
  is_Some (fails h (trace w1) write) →
  ∃ w2,
    elapse h ms w1 = (Normal tt, w2) ∧
    storage_local w2 = storage_local w1 ∧
    trace w2 = trace w1 ++ [write] ∧
    timers w2 = [] ∧
    bulkOpTimeoutId w2 = bulkOpTimeoutId w1.
Proof.
  intros write Htimers Hdue [e He].
  rewrite elapse_unfold. simpl. rewrite Htimers.
  rewrite !filter_cons, !filter_nil. simpl.
  rewrite decide_True by lia. rewrite decide_False by lia. simpl.
  unfold bulkOpTimeout, logger. munfold. rewrite storage_set_run. simpl.
  fold write. rewrite He. simpl. eexists. split; [reflexivity|]. done.
Qed.

(** X4. On a storage area that accepts every read and every write, a flag
    that was set reads back as the truthiness of the value it was set to,
    and setting one of the two flags leaves the reading of the other as it
    was (the two storage keys being different). *)
Theorem durable_flags_round_trip (value : jsval) (w : World) :
  storage_works h →
  STORAGE_KEYS_BULK_RUNNING ≠ STORAGE_KEYS_FAVICON_REFRESH_RUNNING →
  let w1 := (setFaviconRefreshRunning h value w).2 in
  let w2 := (setBulkOpRunning h value w).2 in
  (getFaviconRefreshRunning h w1).1 = Normal (truthy value) ∧
  (getBulkOpRunning h w1).1 = (getBulkOpRunning h w).1 ∧
  (getBulkOpRunning h w2).1 = Normal (truthy value) ∧
  (getFaviconRefreshRunning h w2).1 = (getFaviconRefreshRunning h w).1.
Proof.
  intros Hworks Hkeys w1 w2. unfold w1, w2.
  rewrite setFaviconRefreshRunning_run, setBulkOpRunning_run.
  rewrite !getFaviconRefreshRunning_run, !getBulkOpRunning_run. simpl.
  destruct (cancel_watchdog_forgets w) as [_ Hst].
  unfold flag_reading, flag_write_world, setBulkOpRunning_world.
  rewrite !Hworks by done. simpl.
  split_and!.
  - rewrite lookup_insert_eq. by destruct (truthy value).
  - by rewrite lookup_insert_ne.
  - destruct (truthy value) eqn:Hv; simpl; rewrite lookup_insert_eq; done.
  - destruct (truthy value) eqn:Hv; simpl; rewrite lookup_insert_ne by done; by rewrite Hst.
Qed.

End WatchdogEdges.

Section WatchdogEdgesExamples.
#[local] Existing Instance named_constants.


(** X3 on a storage area that rejects the write of [false]: ten minutes
    after the start of a bulk operation the flag still reads [true] and no
    timer is left to reset it. *)
Lemma watchdog_write_rejected_witness :
  let h := failing_host
             (λ c, match c with storage_local_set _ (JBool false) => true | _ => false end) [] in
  let w1 := world_after h [CallSetBulkOpRunning (JBool true)] ∅ 0 in
  ∃ w2,
    elapse h 600000 w1 = (Normal tt, w2) ∧
    storage_local w2 !! "BULK_RUNNING" = Some (JBool true) ∧
    List.filter is_runtime_sendMessage (trace w2) = [] ∧
    timers w2 = [] ∧
    bulkOpTimeoutId w2 = Some 1%positive.
Proof.
  intros h w1.
  destruct (watchdog_write_rejected h w1 1%positive 600000 600000)
    as (w2 & Hrun & Hst & Htrace & Htimers & Hid);
    [reflexivity | vm_compute; discriminate | eexists; reflexivity |].
  exists w2. split; [exact Hrun|].
  split; [rewrite Hst; reflexivity|].
  split; [rewrite Htrace; reflexivity|].
  split; [exact Htimers | rewrite Hid; reflexivity].
Defined.

(** X4 on an empty storage area: after the favicon flag is set, it reads
    [true] and the bulk flag still reads [false]; after the bulk flag is
    set, it reads [true] and the favicon flag still reads [false]. *)
Lemma durable_flags_round_trip_witness :
  let h := quiet_host [] [] in
  let w := fresh_world ∅ 0 in
  (getFaviconRefreshRunning h (setFaviconRefreshRunning h (JBool true) w).2).1 = Normal true ∧
  (getBulkOpRunning h (setFaviconRefreshRunning h (JBool true) w).2).1 = Normal false ∧
  (getBulkOpRunning h (setBulkOpRunning h (JBool true) w).2).1 = Normal true ∧
  (getFaviconRefreshRunning h (setBulkOpRunning h (JBool true) w).2).1 = Normal false.
Proof.
  intros h w.
  destruct (durable_flags_round_trip h (JBool true) w) as (H1 & H2 & H3 & H4);
    [done | done |].
  split; [exact H1|]. split; [rewrite H2; reflexivity|].
  split; [exact H3 | rewrite H4; reflexivity].
Defined.

End WatchdogEdgesExamples.

(** *** More on the reconciliation sweep *)

Section Sweep.
Context (h : Host).

(** The sweep when the host answers the query for the live windows. *)
Lemma cleanupStateReferences_run (w : World) :
  fails h (trace w) windows_getAll = None →
  let live : gset Z := list_to_set (win_id <$> windows_of h (trace w)) in
  ∃ w', cleanupStateReferences h w = (Normal tt, w') ∧
    (∀ k, activeTabsByWindow w' !! k =
            if decide (k ∈ live) then activeTabsByWindow w !! k else None) ∧
    lastFocusedWindowId w' =
      (if decide (lastFocusedWindowId w ∈ live) then lastFocusedWindowId w
       else WINDOW_ID_NONE) ∧
    trace w' = trace w ++ [windows_getAll].
Proof.
  intros Hok live.
  unfold cleanupStateReferences, call_windows, issue.
  munfold. rewrite Hok. simpl. fold live.
  destruct (cleanup_keys live _ _) as [tracked removed] eqn:Hsweep.
  simpl. rewrite for_each_logger. unfold logger. munfold. simpl.
  assert (∀ k, tracked !! k =
            if decide (k ∈ live) then activeTabsByWindow w !! k else None) as Hmap.
  { intros k. rewrite <- cleanup_keys_of_map. by rewrite Hsweep. }
  destruct (decide (lastFocusedWindowId w ≠ WINDOW_ID_NONE ∧
                    lastFocusedWindowId w ∉ live)) as [[Hne Hstale]|Hkeep]; simpl.
  - eexists. split; [reflexivity|]. simpl.
    rewrite decide_False by done. done.
  - assert ((if decide (lastFocusedWindowId w ∈ live) then lastFocusedWindowId w
             else WINDOW_ID_NONE) = lastFocusedWindowId w) as Hlast.
    { case_decide; [done|]. destruct (decide (lastFocusedWindowId w = WINDOW_ID_NONE));
        [done | exfalso; tauto]. }
    destruct (bool_decide (0 < removed)%nat); simpl;
      (eexists; split; [reflexivity|]; simpl; by rewrite Hlast).
Qed.

(** ... and when the query fails. *)
Lemma cleanupStateReferences_failed (w : World) (e : string) :
  fails h (trace w) windows_getAll = Some e →
  cleanupStateReferences h w =
    (Normal tt,
     set_log (log w ++ [LogError "Error during state cleanup:"])
       (set_trace (trace w ++ [windows_getAll]) w)).
Proof.
  intros Hfail. unfold cleanupStateReferences, call_windows, issue, logger.
  munfold. by rewrite Hfail.
Qed.

(** X5. On every host the sweep returns normally and only ever removes:
    an entry of the active-tabs-by-window map after the sweep was there
    before it, with the same tab; the last focused window is as before or
    the "none" sentinel; and when the query for the live windows fails,
    the map and the last focused window are exactly as before. The one
    call of the sweep is that query. *)
Theorem cleanupStateReferences_only_removes (w : World) :
  ∃ w', cleanupStateReferences h w = (Normal tt, w') ∧
    activeTabsByWindow w' ⊆ activeTabsByWindow w ∧
    (lastFocusedWindowId w' = lastFocusedWindowId w ∨
     lastFocusedWindowId w' = WINDOW_ID_NONE) ∧
    trace w' = trace w ++ [windows_getAll] ∧
    (is_Some (fails h (trace w) windows_getAll) →
     activeTabsByWindow w' = activeTabsByWindow w ∧
     lastFocusedWindowId w' = lastFocusedWindowId w).
Proof.
  destruct (fails h (trace w) windows_getAll) as [e|] eqn:Hquery.
  - rewrite (cleanupStateReferences_failed w e Hquery).
    eexists. split; [reflexivity|]. simpl. split_and!; auto.
  - destruct (cleanupStateReferences_run w Hquery) as (w' & Hrun & Hmap & Hlast & Htrace).
    exists w'. split; [exact Hrun|]. split_and!.
    + apply map_subseteq_spec. intros k v. rewrite Hmap. clear. by destruct (decide _).
    + rewrite Hlast. clear. destruct (decide _); auto.
    + exact Htrace.
    + by intros [? ?].
Qed.

(** X6. A second sweep that gets the same live windows as the first
    changes nothing: the map and the last focused window are as the first
    sweep left them. *)
Theorem cleanupStateReferences_idempotent (w : World) :
  let w1 := (cleanupStateReferences h w).2 in
  let w2 := (cleanupStateReferences h w1).2 in
  fails h (trace w) windows_getAll = None →
  fails h (trace w1) windows_getAll = None →
  list_to_set (win_id <$> windows_of h (trace w1)) =@{gset Z}
    list_to_set (win_id <$> windows_of h (trace w)) →
  activeTabsByWindow w2 = activeTabsByWindow w1 ∧
  lastFocusedWindowId w2 = lastFocusedWindowId w1.
Proof.
  intros w1 w2 Hfirst Hsecond Hsame. unfold w2.
  destruct (cleanupStateReferences_run w Hfirst) as (w1' & Hrun1 & Hmap1 & Hlast1 & _).
  assert (w1 = w1') as Hw1 by (unfold w1; by rewrite Hrun1).
  destruct (cleanupStateReferences_run w1 Hsecond) as (w2' & Hrun2 & Hmap2 & Hlast2 & _).
  rewrite Hrun2. simpl. rewrite Hsame in Hmap2, Hlast2. rewrite Hw1 in *.
  split.
  - apply map_eq. intros k. rewrite Hmap2, Hmap1. clear. by destruct (decide _).
  - rewrite Hlast2, Hlast1. clear.
    destruct (decide (lastFocusedWindowId w ∈ _)) as [Hin|Hout].
    + by rewrite decide_True.
    + by destruct (decide _).
Qed.

End Sweep.

(** X6 on the live set [{1}] and the tracked map [{1: 10, 2: 20}], with
    window 2 last focused: the first sweep drops window 2 and resets the
    last focused window, the second one finds nothing to do. *)
Lemma cleanupStateReferences_idempotent_witness :
  let h := quiet_host [] [ {| win_id := 1; win_focused := true |} ] in
  let w := set_lastFocusedWindowId 2
             (set_activeTabsByWindow {[ 1 := JNum 10; 2 := JNum 20 ]} (fresh_world ∅ 0)) in
  let w1 := (cleanupStateReferences h w).2 in
  let w2 := (cleanupStateReferences h w1).2 in
  activeTabsByWindow w1 !! 2 = None ∧
  activeTabsByWindow w2 = activeTabsByWindow w1 ∧
  lastFocusedWindowId w2 = lastFocusedWindowId w1.
Proof.
  intros h w w1 w2. split; [vm_compute; reflexivity|].
  apply (cleanupStateReferences_idempotent h w); reflexivity.
Defined.

(** *** The calls of a computation *)

#[local] Instance emits_preorder (P : Call → Prop) : PreOrder (emits P).
Proof.
  split.
  - intros w. exists []. by rewrite app_nil_r.
  - intros w1 w2 w3 (a1 & H1 & HP1) (a2 & H2 & HP2). exists (a1 ++ a2).
    split; [by rewrite H2, H1, app_assoc | by apply Forall_app].
Qed.

Lemma emits_same (P : Call → Prop) (w w' : World) : trace w' = trace w → emits P w w'.
Proof. intros Htrace. exists []. by rewrite app_nil_r. Qed.

Lemma emits_one (P : Call → Prop) (c : Call) (w w' : World) :
  P c → trace w' = trace w ++ [c] → emits P w w'.
Proof. intros HP Htrace. exists [c]. split; [done | by constructor]. Qed.

Lemma emits_mono (P Q : Call → Prop) (w w' : World) :
  (∀ c, P c → Q c) → emits P w w' → emits Q w w'.
Proof.
  intros HPQ (added & Htrace & HP). exists added. split; [done|].
  eapply Forall_impl; [exact HP | exact HPQ].
Qed.

Lemma respects_mono (P Q : Call → Prop) {A} (m : M A) :
  (∀ c, P c → Q c) → respects (emits P) m → respects (emits Q) m.
Proof.
  intros HPQ Hm w. destruct (Hm w) as [Hend Hw]. split; [done|].
  by eapply emits_mono.
Qed.

Lemma respects_ext (R : relation World) {A} (m m' : M A) :
  (∀ w, m w = m' w) → respects R m' → respects R m.
Proof. intros Heq Hm w. rewrite Heq. apply Hm. Qed.

Section Emits.
Context (P : Call → Prop) (h : Host).

Lemma emits_logger e : respects (emits P) (logger e).
Proof. intros w. split; [done | by apply emits_same]. Qed.

Lemma emits_modify (f : World → World) :
  (∀ w, trace (f w) = trace w) → respects (emits P) (modify f).
Proof. intros Hf w. split; [done | apply emits_same, Hf]. Qed.

Lemma emits_read_prefs : respects (emits P) (read_prefs h).
Proof. intros w. split; [done | reflexivity]. Qed.

Lemma emits_post c : P c → respects (emits P) (post c).
Proof. intros HP w. split; [done | by apply (emits_one P c)]. Qed.

Lemma emits_issue c : P c → respects (emits P) (issue h c).
Proof.
  intros HP w. unfold issue.
  destruct (fails h _ _); (split; [done | by apply (emits_one P c)]).
Qed.

Lemma emits_call c : P c → respects (emits P) (call h c).
Proof.
  intros HP. apply respects_bind; [apply _ | by apply emits_issue |].
  intros. apply respects_ret; apply _.
Qed.

Lemma emits_call_value c : P c → respects (emits P) (call_value h c).
Proof.
  intros HP. apply respects_bind; [apply _ | by apply emits_issue |].
  intros. apply respects_ret; apply _.
Qed.

Lemma emits_call_tabs c : P c → respects (emits P) (call_tabs h c).
Proof.
  intros HP. apply respects_bind; [apply _ | by apply emits_issue |].
  intros. apply respects_ret; apply _.
Qed.

Lemma emits_call_tab c : P c → respects (emits P) (call_tab h c).
Proof.
  intros HP. apply respects_bind; [apply _ | by apply emits_issue |].
  intros. apply respects_ret; apply _.
Qed.

Lemma emits_call_windows : P windows_getAll → respects (emits P) (call_windows h).
Proof.
  intros HP. apply respects_bind; [apply _ | by apply emits_issue |].
  intros. apply respects_ret; apply _.
Qed.

Lemma emits_call_window c : P c → respects (emits P) (call_window h c).
Proof.
  intros HP. apply respects_bind; [apply _ | by apply emits_issue |].
  intros. apply respects_ret; apply _.
Qed.

Lemma emits_call_snapshot :
  P Scheduling_getSchedulingSnapshot → respects (emits P) (call_snapshot h).
Proof.
  intros HP. apply respects_bind; [apply _ | by apply emits_issue |].
  intros. apply respects_ret; apply _.
Qed.

Lemma emits_storage_get key :
  P (storage_local_get key) → respects (emits P) (storage_get h key).
Proof.
  intros HP. unfold storage_get.
  apply respects_bind; [apply _ | by apply emits_call | intros].
  apply respects_bind; [apply _ | apply respects_get_world; apply _ | intros].
  apply respects_ret; apply _.
Qed.

Lemma emits_storage_set key v :
  P (storage_local_set key v) → respects (emits P) (storage_set h key v).
Proof.
  intros HP. unfold storage_set.
  apply respects_bind; [apply _ | by apply emits_call | intros].
  by apply emits_modify.
Qed.

Lemma emits_setTimeout ms : respects (emits P) (setTimeout ms).
Proof. intros w. split; [done | by apply emits_same]. Qed.

End Emits.

(** Decomposes a goal [respects (emits P) m] along the structure of [m];
    what is left are the calls, to be shown to satisfy [P]. *)
Ltac emits_step :=
  match goal with
  | |- respects _ (mbind _ _) => apply respects_bind; [apply _ | | intros]
  | |- respects _ (try_catch _ _) => apply respects_try_catch; [apply _ | | intros]
  | |- respects _ (try_finally _ _) => apply respects_try_finally; [apply _ | |]
  | |- respects _ (settle _) => apply respects_settle; [apply _ |]
  | |- respects _ (when _ _) => apply respects_when; [apply _ |]
  | |- respects _ (for_each _ _) => apply respects_for_each; [apply _ | intros]
  | |- respects _ (mret _) => apply respects_ret; apply _
  | |- respects _ (throw _) => apply respects_throw; apply _
  | |- respects _ get_world => apply respects_get_world; apply _
  | |- respects _ (logger _) => apply emits_logger
  | |- respects _ (read_prefs _) => apply emits_read_prefs
  | |- respects _ (setTimeout _) => apply emits_setTimeout
  | |- respects _ (modify _) => apply emits_modify; intros; reflexivity
  | |- respects _ (clearTimeout _) => apply emits_modify; intros; reflexivity
  | |- respects _ (post _) => apply emits_post
  | |- respects _ (issue _ _) => apply emits_issue
  | |- respects _ (call _ _) => apply emits_call
  | |- respects _ (call_value _ _) => apply emits_call_value
  | |- respects _ (call_tabs _ _) => apply emits_call_tabs
  | |- respects _ (call_tab _ _) => apply emits_call_tab
  | |- respects _ (call_windows _) => apply emits_call_windows
  | |- respects _ (call_window _ _) => apply emits_call_window
  | |- respects _ (call_snapshot _) => apply emits_call_snapshot
  | |- respects _ (storage_get _ _) => apply emits_storage_get
  | |- respects _ (storage_set _ _ _) => apply emits_storage_set
  | |- respects _ (match ?x with _ => _ end) => destruct x
  | |- respects _ (if ?x then _ else _) => destruct x
  | |- respects _ (let '(_, _) := ?x in _) => destruct x
  end.

(** *** The calls of the handlers *)

Section HandlerCalls.
Context {K : Constants} (h : Host).

Lemma emits_bulkOpTimeout : respects (emits admin) (bulkOpTimeout h).
Proof. unfold bulkOpTimeout. repeat emits_step; reflexivity. Qed.

Lemma emits_elapse (ms : Z) : respects (emits admin) (elapse h ms).
Proof.
  unfold elapse. emits_step; [emits_step|].
  intros w. unfold run_due_timers. cbn zeta.
  match goal with |- context [for_each ?due ?body ?w0] =>
    destruct (respects_for_each (emits admin) due body
                (λ _, emits_bulkOpTimeout) w0) as [Hend Hcalls]
  end.
  split; [done|]. etrans; [|exact Hcalls]. by apply emits_same.
Qed.

Lemma emits_reload_member (batchStart len perTabDelayMs : Z) (tab : Tab) (index : Z)
    (counts : Z * Z) :
  respects (emits admin) (reload_member h batchStart len perTabDelayMs tab index counts).
Proof.
  unfold reload_member, sleep.
  repeat emits_step; try reflexivity. apply emits_elapse.
Qed.

Lemma emits_reload_batch (batchStart len perTabDelayMs : Z) (batch : list Tab) (index : Z)
    (counts : Z * Z) :
  respects (emits admin) (reload_batch h batchStart len perTabDelayMs batch index counts).
Proof.
  revert index counts. induction batch as [|tab batch IH]; intros index counts; simpl.
  - emits_step.
  - emits_step; [apply emits_reload_member | apply IH].
Qed.

Lemma emits_run_chunks (perTabDelayMs batchDelayMs total : Z) (batches : list (list Tab))
    (done : Z) (counts : Z * Z) :
  respects (emits admin)
    (run_chunks h perTabDelayMs batchDelayMs total batches done counts).
Proof.
  revert done counts. induction batches as [|batch rest IH]; intros done counts; simpl.
  - emits_step.
  - unfold sleep. repeat emits_step;
      first [apply emits_reload_batch | apply emits_elapse | apply IH].
Qed.

Lemma emits_reloadSuspendedTabsBatched
    (tabs : list Tab) (batchSize perTabDelayMs batchDelayMs : Z) :
  0 < batchSize →
  respects (emits admin)
    (reloadSuspendedTabsBatched h tabs batchSize perTabDelayMs batchDelayMs).
Proof.
  intros Hb. unfold reloadSuspendedTabsBatched.
  emits_step; [emits_step|]. cbn zeta.
  emits_step; [emits_step|].
  emits_step; [|repeat emits_step].
  eapply respects_ext; [|apply emits_run_chunks].
  intros w0. apply (reload_loop_chunks h _ _ _ _ _ 0); [done | lia].
Qed.

Lemma emits_getBulkOpRunning : respects (emits admin) (getBulkOpRunning h).
Proof. unfold getBulkOpRunning. repeat emits_step; reflexivity. Qed.

Lemma emits_setBulkOpRunning (value : jsval) :
  respects (emits admin) (setBulkOpRunning h value).
Proof. unfold setBulkOpRunning. repeat emits_step; reflexivity. Qed.

Lemma emits_getFaviconRefreshRunning : respects (emits admin) (getFaviconRefreshRunning h).
Proof. unfold getFaviconRefreshRunning. repeat emits_step; reflexivity. Qed.

Lemma emits_setFaviconRefreshRunning (value : jsval) :
  respects (emits admin) (setFaviconRefreshRunning h value).
Proof. unfold setFaviconRefreshRunning. repeat emits_step; reflexivity. Qed.

Lemma emits_refreshAllSuspendedFavicons :
  respects (emits admin) (refreshAllSuspendedFavicons h).
Proof.
  unfold refreshAllSuspendedFavicons, broadcastFaviconRefreshProgress.
  emits_step; [apply emits_getFaviconRefreshRunning|].
  emits_step; [emits_step|].
  emits_step; [apply emits_setFaviconRefreshRunning|].
  emits_step.
  - emits_step; [emits_step; reflexivity|].
    emits_step; [emits_step; reflexivity|].
    emits_step; [by apply emits_reloadSuspendedTabsBatched | emits_step].
  - emits_step; [apply emits_setFaviconRefreshRunning | emits_step; reflexivity].
Qed.

Lemma emits_stats_loop (scheduledInfo : Snapshot) (tabs : list Tab) (skippedCount : Z) :
  respects (emits admin) (stats_loop h scheduledInfo tabs skippedCount).
Proof.
  revert skippedCount. induction tabs as [|tab tabs IH]; intros skippedCount; simpl.
  - emits_step.
  - repeat emits_step; first [apply IH | reflexivity].
Qed.

Lemma emits_skipped_loop (scheduledInfo : Snapshot) (tabs : list Tab)
    (skippedTabs : list jsval) :
  respects (emits admin) (skipped_loop h scheduledInfo tabs skippedTabs).
Proof.
  revert skippedTabs. induction tabs as [|tab tabs IH]; intros skippedTabs; simpl.
  - emits_step.
  - repeat emits_step; first [apply IH | reflexivity].
Qed.

End HandlerCalls.

Section Answered.
Context {K : Constants} (h : Host) (P : Call → Prop).

Lemma answered_async (m : M jsval) (w : World) :
  respects (emits P) m → answered P (_ ← handleAsyncMessage m; mret true) w.
Proof.
  intros Hm. destruct (Hm w) as [Hend (calls & Htrace & HP)].
  unfold answered. rewrite bind_run, handleAsyncMessage_run.
  destruct (m w) as [[result|message|] w']; [| |done]; simpl in Htrace.
  - exists true, (posted (sendResponse result) w'), calls, result.
    split; [done|]. rewrite trace_posted, Htrace, <- app_assoc. done.
  - eexists true, _, calls, (thrown_response message).
    split; [reflexivity|]. rewrite trace_posted. simpl. rewrite Htrace, <- app_assoc. done.
Qed.

Lemma answered_log (e : LogEntry) (m : M bool) (w : World) :
  answered P m (set_log (log w ++ [e]) w) → answered P (_ ← logger e; m) w.
Proof. intros Hm. unfold answered. by rewrite bind_run, logger_run. Qed.

(** A reply on the spot. *)
Lemma answered_refusal (message : string) (m : M bool) (w w' : World) :
  m w = (Normal false, w') →
  trace w' = trace w ++ [sendResponse (error_response message)] →
  answered P m w.
Proof.
  intros Hm Htrace. exists false, w', [], (error_response message).
  split; [exact Hm|]. split; [done|]. split; [done|]. intros _. split; [done | by eexists].
Qed.

Section Page.
Hypothesis Hpage : ∀ c, is_sendResponse c = false → P c.

Lemma emits_notifyAllTabsPrefsChanged : respects (emits P) (notifyAllTabsPrefsChanged h).
Proof. unfold notifyAllTabsPrefsChanged. repeat emits_step; by apply Hpage. Qed.

Lemma emits_rescheduleSessionAutoSave : respects (emits P) (rescheduleSessionAutoSave h).
Proof. unfold rescheduleSessionAutoSave. repeat emits_step; by apply Hpage. Qed.

Lemma emits_resolve_windowId (request : jsval) (sender : Sender) :
  respects (emits P) (resolve_windowId h request sender).
Proof. unfold resolve_windowId. repeat emits_step; by apply Hpage. Qed.

End Page.

Lemma emits_selected_loop (op : jsval → Call) (ids : list jsval) (counts : Z * Z * Z) :
  (∀ id, P (op id)) → respects (emits P) (selected_loop h op ids counts).
Proof.
  intros Hop. revert counts. induction ids as [|id ids IH]; intros [[success skipped] errors]; simpl.
  - emits_step.
  - repeat emits_step; first [apply Hop | apply IH].
Qed.

Lemma emits_selected_handler (op : jsval → Call) (tabIds : list jsval) :
  (∀ id, P (op id)) → respects (emits P) (selected_handler h op tabIds).
Proof.
  intros Hop. unfold selected_handler. cbn zeta.
  emits_step; [by apply emits_selected_loop|].
  repeat emits_step.
Qed.

End Answered.

Section Routing.
Context {K : Constants} (h : Host) (P : Call → Prop).

Ltac split_router :=
  repeat match goal with
         | |- answered _ (if ?c then _ else _) _ => destruct c
         end.

Lemma handleMessage_default_answered (request : jsval) (w : World) :
  (∀ c, admin c → P c) → answered P (handleMessage_default h request) w.
Proof.
  intros Hadmin. unfold handleMessage_default. cbn zeta. split_router.
  - apply answered_async. eapply respects_mono; [exact Hadmin|].
    repeat emits_step; reflexivity.
  - apply answered_async. eapply respects_mono; [exact Hadmin|].
    apply emits_refreshAllSuspendedFavicons.
  - apply answered_async. eapply respects_mono; [exact Hadmin|].
    repeat emits_step; first [reflexivity | apply emits_stats_loop].
  - apply answered_async. eapply respects_mono; [exact Hadmin|].
    repeat emits_step; first [reflexivity | apply emits_skipped_loop].
  - apply answered_async. eapply respects_mono; [exact Hadmin|].
    repeat emits_step; apply emits_setBulkOpRunning.
  - eapply answered_refusal; reflexivity.
Qed.

Ltac solve_handler Hcalls :=
  apply answered_async; cbn zeta;
  repeat first
    [ apply emits_notifyAllTabsPrefsChanged; exact Hcalls
    | apply emits_rescheduleSessionAutoSave; exact Hcalls
    | apply emits_resolve_windowId; exact Hcalls
    | apply emits_selected_handler; intros; apply Hcalls; reflexivity
    | emits_step
    | progress cbn zeta
    | apply Hcalls; reflexivity ].

Lemma handleMessage_answered (request : jsval) (sender : Sender) (w : World) :
  (∀ c, admin c → P c) →
  (validateMessageSender h sender true = true → ∀ c, is_sendResponse c = false → P c) →
  (truthy (sender_tab_id sender) = true →
   ∀ id isManual, P (Suspension_suspendTab id isManual)) →
  answered P (handleMessage h request sender) w.
Proof.
  intros Hadmin Hpage Htab. unfold handleMessage.
  destruct (negb (truthy request) || negb (truthy (field request "type"))).
  { eapply answered_refusal; reflexivity. }
  cbn zeta.
  destruct (is_str _ "IS_BULK_OP_RUNNING").
  { apply answered_async. eapply respects_mono; [exact Hadmin|].
    emits_step; [apply emits_getBulkOpRunning | emits_step]. }
  apply answered_log. generalize (set_log (log w ++ [DetailedLog "Received message"]) w).
  clear w. intros w.
  destruct (validateMessageSender h sender true) eqn:Hsender; cbn [negb andb].
  - specialize (Hpage eq_refl).
    split_router;
      try destruct (field request "tabIds") as [| | | | |[|id tabIds]|];
      first [ eapply answered_refusal; reflexivity
            | apply handleMessage_default_answered; exact Hadmin
            | solve_handler Hpage ].
  - unfold sender_tab_id in Htab.
    destruct (truthy (from_option tab_id JUndefined (sender_tab sender))) eqn:Hid;
      cbn [negb].
    + specialize (Htab eq_refl).
      split_router;
        first [ eapply answered_refusal; reflexivity
              | apply handleMessage_default_answered; exact Hadmin
              | apply answered_async; repeat emits_step; apply Htab ].
    + split_router;
        first [ eapply answered_refusal; reflexivity
              | apply handleMessage_default_answered; exact Hadmin ].
Qed.

End Routing.

(** *** Every message is answered once *)

Section Answers.
Context {K : Constants} (h : Host).

(** X7. Whatever the request, the sender, the host and the state,
    [handleMessage] returns without throwing and replies exactly once: the
    reply is the last call of the handling and none of the calls before it
    is a reply. When the router returns [false] the reply is an error
    object and it is the only call that was made. *)
Theorem handleMessage_replies_once (request : jsval) (sender : Sender) (w : World) :
  ∃ b w' calls r,
    handleMessage h request sender w = (Normal b, w') ∧
    trace w' = trace w ++ calls ++ [sendResponse r] ∧
    Forall (λ c, is_sendResponse c = false) calls ∧
    (b = false → calls = [] ∧ ∃ message, r = error_response message).
Proof.
  apply (handleMessage_answered h (λ c, is_sendResponse c = false)).
  - intros c. by destruct c.
  - done.
  - done.
Qed.

(** X8. A sender that is not a page of the extension cannot make the
    router call anything but the storage area, a broadcast, a query for
    tabs, a reload, the scheduling snapshot and the skip question (the
    calls of the unguarded handlers), and, when the sender is a tab, the
    suspension of one tab. In particular no settings or whitelist are
    saved, nothing is rescheduled, no tab is unsuspended and no window is
    suspended as a whole for such a sender. *)
Theorem handleMessage_unauthorised_calls (request : jsval) (sender : Sender) (w : World) :
  validateMessageSender h sender true = false →
  ∃ b w' calls r,
    handleMessage h request sender w = (Normal b, w') ∧
    trace w' = trace w ++ calls ++ [sendResponse r] ∧
    Forall (λ c, open_calls sender c = true) calls.
Proof.
  intros Hsender.
  destruct (handleMessage_answered h (λ c, open_calls sender c = true) request sender w)
    as (b & w' & calls & r & Hrun & Htrace & Hcalls & _).
  - intros c. by destruct c.
  - by rewrite Hsender.
  - intros Hid id isManual. exact Hid.
  - by exists b, w', calls, r.
Qed.

End Answers.

Section AnswersExamples.
#[local] Existing Instance named_constants.

(** X8 on a content script that asks to save settings: whatever is called
    is among the calls open to every sender. *)
Lemma handleMessage_unauthorised_calls_witness :
  let h := quiet_host [] [] in
  let save := JObj [("type", JStr MSG_SAVE_SETTINGS); ("settings", JObj [])] in
  validateMessageSender h content_script true = false ∧
  ∃ b w' calls r,
    handleMessage h save content_script (fresh_world ∅ 0) = (Normal b, w') ∧
    trace w' = calls ++ [sendResponse r] ∧
    Forall (λ c, open_calls content_script c = true) calls.
Proof.
  intros h save. split; [reflexivity|].
  apply (handleMessage_unauthorised_calls h save content_script (fresh_world ∅ 0)).
  reflexivity.
Defined.

End AnswersExamples.

(** *** Single handlers of the router *)

Section Handlers.
Context {K : Constants} (h : Host).

Lemma call_value_run (c : Call) (w : World) :
  call_value h c w =
    (match fails h (trace w) c with
     | Some e => Throw e
     | None => Normal (value h (trace w) c)
     end, posted c w).
Proof. unfold call_value, issue. munfold. by destruct (fails h _ _). Qed.

(** X9. The query for the bulk-operation flag is answered for every
    sender, with no check of its origin: the reply is [{running}] with the
    reading of the durable flag, which is [false] when the storage read
    fails or the flag is unset; the storage read is the only other call. *)
Theorem handleMessage_bulk_query (request : jsval) (sender : Sender) (w : World) :
  field request "type" = JStr "IS_BULK_OP_RUNNING" →
  handleMessage h request sender w =
    (Normal true,
     posted (sendResponse (JObj [("running",
                                  JBool (flag_reading h STORAGE_KEYS_BULK_RUNNING w))]))
       (flag_read_world h STORAGE_KEYS_BULK_RUNNING "getBulkOpRunning failed" w)).
Proof.
  intros Htype. unfold handleMessage.
  assert (truthy (field request "type") = true) as Htruthy by (by rewrite Htype).
  rewrite (truthy_field_object _ _ Htruthy), Htruthy, Htype. simpl.
  rewrite bind_run, handleAsyncMessage_run, bind_run, getBulkOpRunning_run. done.
Qed.

(** X10. A request to suspend a tab is refused only when the sender is
    neither a page of the extension nor a tab. Otherwise the tab that is
    suspended is the one the request names, whoever sent it, and the
    sender's own tab when the request names none; the reply is
    [{success}] with what the suspension answered, or [{error}] when it
    threw; and when neither the request nor the sender gives a tab, the
    reply is an error and nothing is suspended. *)
Theorem handleMessage_suspend_tab (request : jsval) (sender : Sender) (w : World) :
  field request "type" = JStr MSG_SUSPEND_TAB →
  MSG_SUSPEND_TAB ∉ [""; "IS_BULK_OP_RUNNING"; MSG_SAVE_SETTINGS; MSG_SAVE_WHITELIST;
                     MSG_PREFS_CHANGED] →
  let tabId := js_or (field request "tabId") (sender_tab_id sender) in
  let suspend := Suspension_suspendTab tabId (truthy (field request "isManual")) in
  let w0 := set_log (log w ++ [DetailedLog "Received message"]) w in
  handleMessage h request sender w =
    if negb (validateMessageSender h sender true) && negb (truthy (sender_tab_id sender))
    then
      (Normal false,
       replied (error_response "Permission denied")
         [DetailedLog "Received message"; LogError "Unauthorized attempt to call"] w)
    else if truthy tabId then
      (Normal true,
       match fails h (trace w) suspend with
       | None =>
           posted (sendResponse (JObj [("success", value h (trace w) suspend)]))
             (posted suspend w0)
       | Some message =>
           posted (sendResponse (thrown_response message))
             (set_log (log w0 ++ [LogError message]) (posted suspend w0))
       end)
    else
      (Normal false,
       replied (error_response
                  "Missing tabId for suspension: request.tabId and sender.tab.id were both unavailable.")
         [DetailedLog "Received message";
          LogError "Missing tabId for suspension. request.tabId and sender.tab.id were both missing."]
         w).
Proof.
  intros Htype Hkind tabId suspend w0.
  rewrite !not_elem_of_cons in Hkind.
  destruct Hkind as (Hnonempty & Hbulk & Hsettings & Hwhitelist & Hprefs & _).
  assert (truthy (field request "type") = true) as Htruthy.
  { rewrite Htype. simpl. apply negb_true_iff. by apply String.eqb_neq. }
  unfold handleMessage.
  generalize (validateMessageSender h sender true). intros isExtensionPage.
  rewrite (truthy_field_object _ _ Htruthy), Htruthy, Htype. simpl.
  rewrite (proj2 (String.eqb_neq _ _) Hbulk), (proj2 (String.eqb_neq _ _) Hsettings),
    (proj2 (String.eqb_neq _ _) Hwhitelist), (proj2 (String.eqb_neq _ _) Hprefs),
    String.eqb_refl.
  rewrite bind_run, logger_run. fold w0.
  fold (sender_tab_id sender). fold tabId.
  destruct (negb isExtensionPage && negb (truthy (sender_tab_id sender))).
  { rewrite permission_denied_run. unfold replied. simpl. by rewrite <- app_assoc. }
  destruct (truthy tabId).
  - rewrite bind_run, handleAsyncMessage_run, bind_run, call_value_run. fold suspend.
    change (trace w0) with (trace w).
    by destruct (fails h (trace w) suspend).
  - unfold replied, logger, post. munfold. simpl. by rewrite <- app_assoc.
Qed.

(** One round of the loop of the selected-tabs handlers. *)
Lemma selected_round_run (op : jsval → Call) (id : jsval) (success skipped errors : Z)
    (w : World) :
  ∃ w' counts,
    try_catch
      (ok ← call_value h (op id);
       mret (if truthy ok then (success + 1, skipped, errors)
             else (success, skipped + 1, errors)))
      (λ _, _ ← logger (LogError "Selected failed for id");
            mret (success, skipped, errors + 1)) w = (Normal counts, w') ∧
    trace w' = trace w ++ [op id] ∧
    (counts = (success + 1, skipped, errors) ∨
     counts = (success, skipped + 1, errors) ∨
     counts = (success, skipped, errors + 1)).
Proof.
  unfold try_catch. rewrite bind_run, call_value_run.
  destruct (fails h (trace w) (op id)); simpl.
  - eexists _, _. split; [reflexivity|]. split; [done | auto].
  - eexists _, _. split; [reflexivity|]. split; [done|]. destruct (truthy _); auto.
Qed.

Lemma selected_loop_run (op : jsval → Call) (ids : list jsval) (counts : Z * Z * Z)
    (w : World) :
  ∃ w' success skipped errors,
    selected_loop h op ids counts w = (Normal (success, skipped, errors), w') ∧
    counts.1.1 ≤ success ∧ counts.1.2 ≤ skipped ∧ counts.2 ≤ errors ∧
    success + skipped + errors =
      counts.1.1 + counts.1.2 + counts.2 + Z.of_nat (length ids) ∧
    trace w' = trace w ++ (op <$> ids).
Proof.
  revert counts w. induction ids as [|id ids IH]; intros [[success skipped] errors] w.
  - exists w, success, skipped, errors. simpl. rewrite app_nil_r.
    split; [done|]. split_and!; (done || lia).
  - destruct (selected_round_run op id success skipped errors w)
      as (w1 & counts1 & Hrun1 & Htrace1 & Hcounts1).
    destruct (IH counts1 w1) as (w' & s & k & e & Hrun & Hs & Hk & He & Hsum & Htrace).
    exists w', s, k, e. split.
    { cbn [selected_loop]. rewrite bind_run, Hrun1. exact Hrun. }
    rewrite Htrace, Htrace1, <- app_assoc. simpl length. rewrite Nat2Z.inj_succ.
    destruct Hcounts1 as [-> | [-> | ->]]; simpl in *; split_and!; (done || lia).
Qed.

(** X11. The handlers of the two selected-tabs requests ask for one
    suspension (or unsuspension) per entry of [tabIds] that is a number, in
    order, and skip the other entries without a word; no failure stops the
    loop or escapes it. The reply is [{success: true, counts}] where
    [total] is the number of numeric entries and [success], [skipped] and
    [errors] are non-negative and add up to [total]. *)
Theorem selected_handler_counts (op : jsval → Call) (tabIds : list jsval) (w : World) :
  let ids := List.filter is_number tabIds in
  ∃ w' success skipped errors,
    selected_handler h op tabIds w =
      (Normal (JObj [("success", JBool true);
                     ("counts", JObj [("success", JNum success); ("skipped", JNum skipped);
                                      ("errors", JNum errors);
                                      ("total", JNum (Z.of_nat (length ids)))])]), w') ∧
    0 ≤ success ∧ 0 ≤ skipped ∧ 0 ≤ errors ∧
    success + skipped + errors = Z.of_nat (length ids) ∧
    trace w' = trace w ++ (op <$> ids).
Proof.
  intros ids.
  destruct (selected_loop_run op ids (0, 0, 0) w)
    as (w' & s & k & e & Hrun & Hs & Hk & He & Hsum & Htrace).
  exists w', s, k, e. split.
  { unfold selected_handler. fold ids. rewrite bind_run, Hrun. reflexivity. }
  simpl in *. split_and!; (done || lia).
Qed.

Lemma one_of_not_elem (kinds : list string) (kind : string) :
  kind ∉ kinds → one_of kinds (JStr kind) = false.
Proof.
  induction kinds as [|k kinds IH]; [done|].
  rewrite not_elem_of_cons. intros [Hne Hrest]. simpl.
  rewrite (proj2 (String.eqb_neq _ _) Hne). by apply IH.
Qed.

Lemma call_snapshot_run (w : World) :
  call_snapshot h w =
    (match fails h (trace w) Scheduling_getSchedulingSnapshot with
     | Some e => Throw e
     | None => Normal (snapshot_of h (trace w))
     end, posted Scheduling_getSchedulingSnapshot w).
Proof. unfold call_snapshot, issue. munfold. by destruct (fails h _ _). Qed.

(** The loop of the statistics handler counts some of the countable tabs. *)
Lemma stats_loop_run (scheduledInfo : Snapshot) (tabs : list Tab) (skippedCount : Z)
    (w : World) :
  ∃ r w', stats_loop h scheduledInfo tabs skippedCount w = (r, w') ∧
    match r with
    | Normal n =>
        skippedCount ≤ n ≤
          skippedCount + Z.of_nat (length (List.filter (countable h scheduledInfo) tabs))
    | Throw _ => ¬ never_fails h
    | Diverge => False
    end.
Proof.
  revert skippedCount w. induction tabs as [|tab tabs IH]; intros skippedCount w.
  - exists (Normal skippedCount), w. split; [done|]. simpl. lia.
  - cbn [stats_loop List.filter]. unfold countable at 1.
    destruct (is_suspended_page h tab); [apply IH|].
    destruct (is_scheduled scheduledInfo tab); [apply IH|].
    cbn [negb andb]. rewrite bind_run, call_value_run.
    destruct (fails h (trace w) _) as [e|] eqn:Hfail.
    + eexists _, _. split; [reflexivity|]. intros Hnever. by rewrite Hnever in Hfail.
    + match goal with |- context [stats_loop h _ tabs ?n ?w1] =>
        destruct (IH n w1) as (r & w' & -> & Hr)
      end.
      exists r, w'. split; [done|]. destruct r as [n| |]; [|done..].
      cbn [length]. rewrite Nat2Z.inj_succ. destruct (truthy _); lia.
Qed.

Lemma countable_bound (scheduledInfo : Snapshot) (tabs : list Tab) :
  (length (List.filter (is_suspended_page h) tabs) +
   length (List.filter (countable h scheduledInfo) tabs) ≤ length tabs)%nat.
Proof.
  induction tabs as [|tab tabs IH]; [done|]. simpl. unfold countable at 1.
  destruct (is_suspended_page h tab); simpl; [lia|].
  destruct (negb _); simpl; lia.
Qed.

(** What the [default:] branch does with a request for the statistics. *)
Lemma handleMessage_reaches_stats (request : jsval) (sender : Sender) (w : World) :
  field request "type" = JStr MSG_GET_EXTENSION_STATS →
  MSG_GET_EXTENSION_STATS ∉
    "" :: switch_kinds ++ [MSG_CLEAR_FAVICON_CACHE; MSG_REFRESH_ALL_SUSPENDED_FAVICONS] →
  ∃ m, handleMessage h request sender w =
         (_ ← handleAsyncMessage m; mret true)
           (set_log (log w ++ [DetailedLog "Received message"]) w) ∧
       m = (allTabs ← call_tabs h (tabs_query (JObj []));
            let total := Z.of_nat (length allTabs) in
            let suspended := Z.of_nat (length (List.filter (is_suspended_page h) allTabs)) in
            scheduledInfo ← call_snapshot h;
            let scheduled := js_or (snap_size scheduledInfo) (JNum 0) in
            skipped ← stats_loop h scheduledInfo allTabs 0;
            mret (JObj [("success", JBool true); ("total", JNum total);
                        ("suspended", JNum suspended); ("scheduled", scheduled);
                        ("skipped", JNum skipped)])).
Proof.
  intros Htype Hkind. rewrite not_elem_of_cons, not_elem_of_app in Hkind.
  destruct Hkind as (Hnonempty & Hswitch & Hadmin).
  rewrite !not_elem_of_cons in Hadmin. destruct Hadmin as (Hclear & Hrefresh & _).
  assert (truthy (field request "type") = true) as Htruthy.
  { rewrite Htype. simpl. apply negb_true_iff. by apply String.eqb_neq. }
  rewrite handleMessage_reaches_default;
    [| exact Htruthy | rewrite Htype; by apply one_of_not_elem].
  unfold handleMessage_default. rewrite Htype. cbn [is_str].
  rewrite (proj2 (String.eqb_neq _ _) Hclear), (proj2 (String.eqb_neq _ _) Hrefresh),
    String.eqb_refl.
  by eexists.
Qed.

(** X12. A request for the statistics is answered once, by every sender:
    with [{error}] when a call of the handler fails (which a host on which
    no call fails rules out), and otherwise with the counts, where [total]
    is the number of tabs the host reports, [suspended] the number of them
    that show the suspended page, and [skipped] is non-negative and at
    most the number of the other tabs: [suspended + skipped <= total]. *)
Theorem handleMessage_extension_stats (request : jsval) (sender : Sender) (w : World) :
  field request "type" = JStr MSG_GET_EXTENSION_STATS →
  MSG_GET_EXTENSION_STATS ∉
    "" :: switch_kinds ++ [MSG_CLEAR_FAVICON_CACHE; MSG_REFRESH_ALL_SUSPENDED_FAVICONS] →
  let allTabs := tabs_of h (trace w) (tabs_query (JObj [])) in
  let total := Z.of_nat (length allTabs) in
  let suspended := Z.of_nat (length (List.filter (is_suspended_page h) allTabs)) in
  ∃ w' response,
    handleMessage h request sender w = (Normal true, w') ∧
    last (trace w') = Some (sendResponse response) ∧
    ((∃ message, response = thrown_response message ∧ ¬ never_fails h) ∨
     (∃ scheduled skipped,
        response = JObj [("success", JBool true); ("total", JNum total);
                         ("suspended", JNum suspended); ("scheduled", scheduled);
                         ("skipped", JNum skipped)] ∧
        0 ≤ skipped ∧ suspended + skipped ≤ total)).
Proof.
  intros Htype Hkind allTabs total suspended.
  destruct (handleMessage_reaches_stats request sender w Htype Hkind) as (m & -> & ->).
  set (w0 := set_log (log w ++ [DetailedLog "Received message"]) w).
  rewrite bind_run, handleAsyncMessage_run, bind_run, call_tabs_run.
  change (trace w0) with (trace w). fold allTabs.
  destruct (fails h (trace w) (tabs_query (JObj []))) as [e|] eqn:Hquery.
  { eexists _, _. split; [reflexivity|]. rewrite trace_posted, last_snoc.
    split; [done|]. left. eexists. split; [done|].
    intros Hnever. by rewrite Hnever in Hquery. }
  cbn zeta. rewrite bind_run, call_snapshot_run.
  match goal with |- context [fails h ?tr Scheduling_getSchedulingSnapshot] =>
    destruct (fails h tr Scheduling_getSchedulingSnapshot) as [e|] eqn:Hsnapshot
  end.
  { eexists _, _. split; [reflexivity|]. rewrite trace_posted, last_snoc.
    split; [done|]. left. eexists. split; [done|].
    intros Hnever. by rewrite Hnever in Hsnapshot. }
  cbn zeta. rewrite bind_run.
  match goal with |- context [stats_loop h ?s allTabs 0 ?w1] =>
    destruct (stats_loop_run s allTabs 0 w1) as (r & w' & -> & Hr);
    pose proof (countable_bound s allTabs) as Hbound
  end.
  destruct r as [n|e|]; [| |done].
  - eexists _, _. split; [reflexivity|]. rewrite trace_posted, last_snoc.
    split; [done|]. right. eexists _, n. split; [reflexivity|].
    unfold suspended, total. lia.
  - eexists _, _. split; [reflexivity|]. rewrite trace_posted, last_snoc.
    split; [done|]. left. by eexists.
Qed.




End Handlers.

(** *** The event dispatcher *)

#[local] Instance same_focus_frame : Frame same_focus.
Proof.
  split; [split | done | done].
  - by intros w.
  - intros w1 w2 w3 [? ?] [? ?]. unfold same_focus. split; congruence.
Qed.

#[local] Instance same_durable_frame : Frame same_durable.
Proof.
  split; [split | |].
  - intros w. split; [reflexivity | done].
  - intros w1 w2 w3 [H12 ?] [H23 ?]. split; [by etrans | congruence].
  - intros w x. split; [apply (frame_trace (R := same_watchdog)) | done].
  - intros w x. split; [apply (frame_log (R := same_watchdog)) | done].
Qed.

Lemma same_durable_updateLastFocusedWindow windowId w :
  same_durable w (updateLastFocusedWindow windowId w).
Proof. unfold updateLastFocusedWindow. by case_decide. Qed.

Lemma same_durable_removeWindowTracking windowId w :
  same_durable w (removeWindowTracking windowId w).
Proof.
  unfold removeWindowTracking. destruct (bool_decide _); simpl; by case_decide.
Qed.

Section Dispatcher.
Context (h : Host).



(** X15. For a window id that is not the "none" sentinel, the handler of
    a window removal is [removeWindowTracking] and nothing more: it makes
    no call, drops the entry of the window, and resets the last focused
    window to the sentinel exactly when it was the removed window. The
    search for another window to take over the focus is never reached,
    because [removeWindowTracking] has reset the last focused window
    before the handler compares it with the removed window. *)
Theorem handleWindowRemoval_real_window (windowId : Z) (w : World) :
  windowId ≠ WINDOW_ID_NONE →
  ∃ w', handleWindowRemoval h windowId w = (Normal tt, w') ∧
    trace w' = trace w ∧
    activeTabsByWindow w' = delete windowId (activeTabsByWindow w) ∧
    lastFocusedWindowId w' =
      (if decide (lastFocusedWindowId w = windowId) then WINDOW_ID_NONE
       else lastFocusedWindowId w).
Proof.
  intros Hreal.
  set (w0 := set_log (log w ++ [DetailedLog "Window removed"]) w).
  destruct (removeWindowTracking_run windowId w0) as (Hmap & _ & Hlast & _ & _ & _ & Htrace).
  exists (removeWindowTracking windowId w0).
  split; [|by rewrite Hmap, Hlast, Htrace].
  unfold handleWindowRemoval, withErrorHandling, try_catch.
  rewrite bind_run, logger_run. fold w0.
  rewrite bind_run. unfold modify at 1. rewrite bind_run. unfold get_world at 1.
  unfold getLastFocusedWindow. rewrite Hlast. simpl lastFocusedWindowId.
  rewrite bool_decide_false; [done|]. clear Hmap Hlast Htrace.
  destruct (decide (lastFocusedWindowId w = windowId)); [by apply not_eq_sym | done].
Qed.

Lemma is_num_spec (v : jsval) (n : Z) : is_num v n = true ↔ v = JNum n.
Proof.
  destruct v; simpl; try (split; [discriminate | congruence]).
  rewrite Z.eqb_eq. split; congruence.
Qed.

(** X16. The handler of a tab removal asks for the purge of the tab's
    suspension time first. When that fails, the failure escapes the
    handler and the focus state is untouched. Otherwise the handler returns
    normally, never changes the last focused window nor the entry of any
    other window, and when the window is closing or the removed tab is not
    the tab tracked as active in its window, it makes no further call and
    leaves the whole map as it was. *)
Theorem handleTabRemoved_scope (tabId : Z) (removeInfo : RemoveInfo) (w : World) :
  let purge := Scheduling_removeTabSuspendTime tabId in
  ∃ r w', handleTabRemoved h tabId removeInfo w = (r, w') ∧
    lastFocusedWindowId w' = lastFocusedWindowId w ∧
    (∀ k, k ≠ windowId removeInfo →
       activeTabsByWindow w' !! k = activeTabsByWindow w !! k) ∧
    match fails h (trace w) purge with
    | Some message =>
        r = Throw message ∧ trace w' = trace w ++ [purge] ∧
        activeTabsByWindow w' = activeTabsByWindow w
    | None =>
        r = Normal tt ∧
        (isWindowClosing removeInfo = true ∨
         getActiveTabForWindow (windowId removeInfo) w ≠ JNum tabId →
         trace w' = trace w ++ [purge] ∧
         activeTabsByWindow w' = activeTabsByWindow w)
    end.
Proof.
  intros purge.
  unfold handleTabRemoved, withErrorHandling, call, call_tabs, issue, logger.
  munfold. simpl. fold purge.
  destruct (fails h (trace w) purge) as [message|]; simpl.
  { eexists _, _. split; [reflexivity|]. done. }
  destruct (isWindowClosing removeInfo); simpl.
  { eexists _, _. split; [reflexivity|]. simpl. done. }
  unfold getActiveTabForWindow. simpl.
  destruct (is_num _ tabId) eqn:Htracked; simpl.
  2: { eexists _, _. split; [reflexivity|]. simpl. done. }
  apply is_num_spec in Htracked.
  destruct (fails h _ _); simpl.
  { eexists _, _. split; [reflexivity|]. simpl. split_and!; try done.
    intros [|Hne]; [done | by destruct Hne]. }
  destruct (tabs_of h _ _) as [|tab tabs]; simpl;
    (eexists _, _; split; [reflexivity|]; simpl; split_and!; try done);
    try (intros [|Hne]; [done | by destruct Hne]).
  intros k Hk. by rewrite lookup_insert_ne.
Qed.

Lemma wp_call {B} (c : Call) (f : list Call → B) (Q : Completion B → World → Prop) w :
  match fails h (trace w) c with
  | Some e => Q (Throw e) (posted c w)
  | None => Q (Normal (f (trace w))) (posted c w)
  end →
  wp (tr ← issue h c; mret (f tr)) Q w.
Proof. unfold wp, issue. munfold. by destruct (fails h _ _). Qed.

Lemma wp_when (c : bool) (m : M unit) (Q : Completion unit → World → Prop) w :
  (if c then wp m Q w else Q (Normal tt) w) → wp (when c m) Q w.
Proof. by destruct c. Qed.

Lemma wp_read_prefs {B} (f : Prefs → M B) (Q : Completion B → World → Prop) w :
  wp (f (prefs_of h (trace w))) Q w → wp (read_prefs h ≫= f) Q w.
Proof. done. Qed.

(** An event handler whose body is wrapped in [try]/[catch]: what holds
    of the world however the body ends, and is not disturbed by a log
    line, holds when the handler has returned. *)
Lemma wp_event_handler (Φ : World → Prop) (body : M unit) (e : LogEntry) (w : World) :
  (∀ w x, Φ w → Φ (set_log x w)) →
  wp body (λ r w', r ≠ Diverge ∧ Φ w') w →
  wp (withErrorHandling (try_catch body (λ _, logger e)))
    (λ r w', r = Normal tt ∧ Φ w') w.
Proof.
  intros Hlog. unfold wp, withErrorHandling, try_catch, logger, modify.
  destruct (body w) as [[[]|message|] w']; simpl; intros [Hend HΦ]; auto.
  by destruct Hend.
Qed.

Lemma same_focus_tail (previousActiveTabId : jsval) (tabId : Z) :
  respects same_focus
    (when (truthy previousActiveTabId &&
           negb (strict_eq_prim previousActiveTabId (JNum tabId)))
       (try_catch
          (previousTab ← call_tab h (tabs_get previousActiveTabId);
           match previousTab with
           | None =>
               logger (LogWarning "Previous active tab not found during tab activation.")
           | Some previousTab =>
               match tab_url previousTab with
               | None => throw "Cannot read properties of undefined (reading 'startsWith')"
               | Some url =>
                   when (negb (startsWith url (getURL h "suspended.html")))
                     (_ ← call h (Scheduling_scheduleTab previousActiveTabId);
                      logger (DetailedLog "Rescheduled previous active tab"))
               end
           end)
          (λ message,
           when (negb (includes message "No tab with id"))
             (logger (LogError "Error rescheduling previous tab"))))).
Proof. repeat respects_step. Qed.

Lemma handleTabActivated_focus_run (activeInfo : ActiveInfo) (w : World) :
  ∃ w', handleTabActivated h activeInfo w = (Normal tt, w') ∧
    lastFocusedWindowId w' = focus_after_activation h activeInfo w.
Proof.
  enough (wp (handleTabActivated h activeInfo)
            (λ r w', r = Normal tt ∧
               lastFocusedWindowId w' = focus_after_activation h activeInfo w) w) as Hwp.
  { unfold wp in Hwp. destruct (handleTabActivated h activeInfo w) as [r w'].
    simpl in Hwp. destruct Hwp as [-> ?]. by exists w'. }
  unfold handleTabActivated, focus_after_activation.
  apply wp_bind, wp_logger.
  apply (wp_event_handler (λ w', lastFocusedWindowId w' = _)); [done|].
  apply wp_bind, wp_get_world. apply wp_bind, wp_modify.
  apply wp_bind. apply wp_try_catch. apply wp_bind. apply wp_call. simpl trace.
  destruct (fails h (trace w) (windows_get _)) as [e|] eqn:Hget.
  - apply wp_bind, wp_logger. apply wp_bind, wp_get_world. apply wp_ret.
    apply wp_read_prefs. apply wp_bind, wp_get_world. apply wp_bind, wp_when.
    cbn [getLastFocusedWindow lastFocusedWindowId set_log posted set_trace
           setActiveTabForWindow set_activeTabsByWindow].
    destruct (_ || _).
    + apply wp_bind, (wp_call _ (λ _, tt)).
      destruct (fails h _ (Scheduling_unscheduleTab _)); [done|].
      apply wp_when. case_bool_decide as Hsame.
      * apply wp_modify.
        eapply (wp_respects same_focus); [apply same_focus_tail|].
        intros r w' Hend [_ Hlast]. split; [done|]. rewrite Hlast.
        unfold updateLastFocusedWindow. by case_decide.
      * eapply (wp_respects same_focus); [apply same_focus_tail|].
        intros r w' Hend [_ Hlast]. split; [done|]. by rewrite Hlast.
    + eapply (wp_respects same_focus); [apply same_focus_tail|].
      intros r w' Hend [_ Hlast]. split; [done|]. by rewrite Hlast.
  - destruct (window_of h (trace w) (windows_get _)) as [window|].
    2: { apply wp_bind, wp_logger. apply wp_ret. apply wp_ret. done. }
    apply wp_ret.
    apply wp_read_prefs. apply wp_bind, wp_get_world. apply wp_bind, wp_when.
    cbn [getLastFocusedWindow lastFocusedWindowId set_log posted set_trace
           setActiveTabForWindow set_activeTabsByWindow].
    destruct (win_focused window); cbn [orb].
    + apply wp_bind, (wp_call _ (λ _, tt)). simpl trace.
      destruct (fails h _ (Scheduling_unscheduleTab _)); [done|].
      apply wp_when. apply wp_modify.
      eapply (wp_respects same_focus); [apply same_focus_tail|].
      intros r w' Hend [_ Hlast]. split; [done|]. rewrite Hlast.
      unfold updateLastFocusedWindow. by case_decide.
    + destruct (_ && _).
      * apply wp_bind, (wp_call _ (λ _, tt)).
        destruct (fails h _ (Scheduling_unscheduleTab _)); [done|].
        apply wp_when.
        eapply (wp_respects same_focus); [apply same_focus_tail|].
        intros r w' Hend [_ Hlast]. split; [done|]. by rewrite Hlast.
      * eapply (wp_respects same_focus); [apply same_focus_tail|].
        intros r w' Hend [_ Hlast]. split; [done|]. by rewrite Hlast.
Qed.

(** X17. The handler of a tab activation returns normally on every host
    and moves the last focused window only to the window of the activation,
    and only when the host reports that window as focused and the
    unscheduling of the activated tab did not fail; under these conditions
    (the window id not being the "none" sentinel) it does move it. A failed
    query for the window never changes the last focused window. *)
Theorem handleTabActivated_focus (activeInfo : ActiveInfo) (w : World) :
  let windowId := activated_windowId activeInfo in
  let get := windows_get windowId in
  let unschedule := Scheduling_unscheduleTab (JNum (activated_tabId activeInfo)) in
  let reported_focused :=
    fails h (trace w) get = None ∧
    (∃ window, window_of h (trace w) get = Some window ∧ win_focused window = true) ∧
    fails h (trace w ++ [get]) unschedule = None in
  ∃ w', handleTabActivated h activeInfo w = (Normal tt, w') ∧
    (lastFocusedWindowId w' = lastFocusedWindowId w ∨ lastFocusedWindowId w' = windowId) ∧
    (lastFocusedWindowId w' ≠ lastFocusedWindowId w → reported_focused) ∧
    (reported_focused → windowId ≠ WINDOW_ID_NONE → lastFocusedWindowId w' = windowId).
Proof.
  intros windowId get unschedule reported_focused.
  destruct (handleTabActivated_focus_run activeInfo w) as (w' & Hrun & Hlast).
  exists w'. split; [exact Hrun|]. rewrite Hlast. clear Hrun Hlast.
  unfold focus_after_activation, reported_focused, updateLastFocusedWindow.
  fold windowId get unschedule.
  destruct (fails h (trace w) get) as [e|];
    [split_and!; [by left | done | by intros [? _]]|].
  destruct (window_of h (trace w) get) as [window|];
    [|split_and!; [by left | done | by intros (_ & [? [? _]] & _)]].
  destruct (win_focused window) eqn:Hfocused;
    [|split_and!; [by left | done | intros (_ & [? [[= <-] ?]] & _); congruence]].
  destruct (fails h (trace w ++ [get]) unschedule) as [e|];
    [split_and!; [by left | done | by intros (_ & _ & ?)]|].
  destruct (decide (windowId ≠ WINDOW_ID_NONE)); simpl.
  - split_and!; [by right | | done]. intros _. split_and!; [done | by eexists | done].
  - split_and!; [by left | done | done].
Qed.

Lemma same_focus_reschedule (windowId : Z) (previousFocusedWindow : Z) (tabId : jsval) :
  respects same_focus
    (_ ← call h (Scheduling_unscheduleTab tabId);
     prefs ← read_prefs h;
     when (neverSuspendLastWindow prefs &&
           bool_decide (previousFocusedWindow ≠ WINDOW_ID_NONE))
       (allWindows ← call_windows h;
        match allWindows with
        | [] => logger (LogWarning "No windows found during window focus change.")
        | _ => for_each allWindows (reschedule_window h windowId)
        end)).
Proof. unfold reschedule_window. repeat respects_step. Qed.

(** X18. A focus change to the "none" sentinel (the focus left the
    browser) is logged and changes nothing else. Any other focus change
    returns normally and leaves the focused window as the last focused
    window, whatever the host answers afterwards; the entry of the focused
    window in the active-tabs-by-window map is written when the host
    answers the query for its active tab with a tab that has an id, and the
    map is as before otherwise. *)
Theorem handleWindowFocusChanged_focus (windowId : Z) (w : World) :
  if decide (windowId = WINDOW_ID_NONE) then
    handleWindowFocusChanged h windowId w =
      (Normal tt,
       set_log (log w ++ [Log "Window focus changed";
                          Log "Focus left Chrome - this won't affect suspension status"]) w)
  else
    ∃ w', handleWindowFocusChanged h windowId w = (Normal tt, w') ∧
      lastFocusedWindowId w' = windowId ∧
      activeTabsByWindow w' = tabs_after_focus h windowId w.
Proof.
  destruct (decide (windowId = WINDOW_ID_NONE)) as [Hnone|Hreal].
  { unfold handleWindowFocusChanged. rewrite decide_True by done.
    unfold logger. munfold. simpl. by rewrite <- app_assoc. }
  enough (wp (handleWindowFocusChanged h windowId)
            (λ r w', r = Normal tt ∧
               (lastFocusedWindowId w' = windowId ∧
                activeTabsByWindow w' = tabs_after_focus h windowId w)) w) as Hwp.
  { unfold wp in Hwp. destruct (handleWindowFocusChanged h windowId w) as [r w'].
    simpl in Hwp. destruct Hwp as [-> ?]. by exists w'. }
  unfold handleWindowFocusChanged, tabs_after_focus, active_tab_query.
  rewrite decide_False by done.
  apply wp_bind, wp_logger. apply wp_bind, wp_get_world. apply wp_bind, wp_modify.
  apply (wp_event_handler (λ w', lastFocusedWindowId w' = _ ∧ activeTabsByWindow w' = _));
    [done|].
  assert (lastFocusedWindowId (updateLastFocusedWindow windowId
            (set_log (log w ++ [Log "Window focus changed"]) w)) = windowId) as Hfocus.
  { unfold updateLastFocusedWindow. by rewrite decide_True. }
  assert (activeTabsByWindow (updateLastFocusedWindow windowId
            (set_log (log w ++ [Log "Window focus changed"]) w)) = activeTabsByWindow w)
    as Hmap.
  { unfold updateLastFocusedWindow. by rewrite decide_True. }
  assert (trace (updateLastFocusedWindow windowId
            (set_log (log w ++ [Log "Window focus changed"]) w)) = trace w) as Htrace.
  { unfold updateLastFocusedWindow. by rewrite decide_True. }
  revert Hfocus Hmap Htrace.
  generalize (updateLastFocusedWindow windowId
                (set_log (log w ++ [Log "Window focus changed"]) w)).
  intros w1 Hfocus Hmap Htrace.
  apply wp_bind, wp_call. rewrite Htrace.
  destruct (fails h (trace w) _) as [e|]; [by rewrite <- Hmap|].
  destruct (tabs_of h (trace w) _) as [|activeTab tabs].
  { apply wp_logger. simpl. by rewrite <- Hmap. }
  destruct (truthy (tab_id activeTab)); cbn [negb].
  2: { apply wp_logger. simpl. by rewrite <- Hmap. }
  apply wp_bind, wp_logger. apply wp_bind, wp_modify.
  eapply (wp_respects same_focus); [apply same_focus_reschedule|].
  intros r w' Hend [Hmap' Hlast']. split; [done|].
  rewrite Hmap', Hlast'. simpl. by rewrite Hmap.
Qed.

(** X19. When the "never suspend the last window" preference is off, or
    no window was focused before, a focus change to a window whose active
    tab the host reports makes two calls and no more: the query for that
    tab and its unscheduling (whose failure is caught). No window is
    enumerated and no tab is scheduled. *)
Theorem handleWindowFocusChanged_calls (windowId : Z) (w : World) (tab : Tab)
    (tabs : list Tab) :
  let query := active_tab_query windowId in
  let unschedule := Scheduling_unscheduleTab (tab_id tab) in
  windowId ≠ WINDOW_ID_NONE →
  fails h (trace w) query = None →
  tabs_of h (trace w) query = tab :: tabs →
  truthy (tab_id tab) = true →
  neverSuspendLastWindow (prefs_of h (trace w ++ [query; unschedule])) = false ∨
    lastFocusedWindowId w = WINDOW_ID_NONE →
  ∃ w', handleWindowFocusChanged h windowId w = (Normal tt, w') ∧
    trace w' = trace w ++ [query; unschedule].
Proof.
  intros query unschedule Hreal Hquery Htabs Hid Hoff.
  assert (neverSuspendLastWindow (prefs_of h (trace w ++ [query; unschedule])) &&
          bool_decide (lastFocusedWindowId w ≠ WINDOW_ID_NONE) = false) as Hcond.
  { destruct Hoff as [-> | ->]; [done|]. rewrite bool_decide_false by auto.
    apply andb_false_r. }
  unfold handleWindowFocusChanged, withErrorHandling, call, call_tabs, issue, logger,
    read_prefs, getLastFocusedWindow.
  rewrite decide_False by done.
  munfold. unfold updateLastFocusedWindow. rewrite decide_True by done.
  simpl. fold (active_tab_query windowId). fold query.
  rewrite Hquery, Htabs, Hid. simpl. fold unschedule.
  destruct (fails h (trace w ++ [query]) unschedule) as [e|]; simpl.
  { eexists. split; [reflexivity|]. simpl. by rewrite <- app_assoc. }
  rewrite <- app_assoc. simpl. rewrite Hcond. simpl.
  eexists. split; [reflexivity|]. done.
Qed.

End Dispatcher.

(** *** The session auto-save alarm *)

Lemma assoc_app (k : string) (fs gs : list (string * jsval)) :
  assoc k (fs ++ gs) = if has_key k fs then assoc k fs else assoc k gs.
Proof.
  unfold has_key. induction fs as [|[k' v] fs IH]; [done|]. simpl.
  destruct (String.eqb k' k); [done | exact IH].
Qed.

Lemma assoc_filter_other (k : string) (fs gs : list (string * jsval)) :
  has_key k fs = false →
  assoc k (List.filter (λ kv, negb (has_key kv.1 fs)) gs) = assoc k gs.
Proof.
  intros Hk. induction gs as [|[k' v] gs IH]; [done|]. simpl.
  destruct (String.eqb_spec k' k) as [->|Hne].
  - rewrite Hk. simpl. by rewrite String.eqb_refl.
  - destruct (negb _); simpl; [|exact IH].
    by rewrite (proj2 (String.eqb_neq _ _) Hne).
Qed.

(** In [{ ...a, ...b }] a key of [b] wins over the same key of [a]. *)
Lemma field_js_spread (fa fb : list (string * jsval)) (k : string) :
  field (js_spread (JObj fa) (JObj fb)) k =
    if has_key k fb then assoc k fb else assoc k fa.
Proof.
  simpl. rewrite assoc_app. destruct (has_key k fb) eqn:Hk; [done|].
  by apply assoc_filter_other.
Qed.

(** Splits on the outcome of the next call of the goal. *)
Ltac case_fails H :=
  match goal with
  | |- context [fails ?h ?tr ?c] => destruct (fails h tr c) as [?e|] eqn:H
  end.

Section AutoSave.
Context {K : Constants} (h : Host).

(** X20. Rescheduling the session auto-save alarm never throws. On a host
    on which no call fails it clears the alarm, reads the stored
    preferences, creates the alarm anew and lists the alarms, in this
    order. The period of the new alarm is the stored frequency when the
    stored preferences have one, else the frequency of the default
    preferences, and 5 (minutes) when that value is missing or falsy, a
    stored frequency of 0 included. *)
Theorem rescheduleSessionAutoSave_period
    (w : World) (defaults stored : list (string * jsval)) :
  let key := "sessionAutoSaveFrequency" in
  let wanted := if has_key key stored then assoc key stored else assoc key defaults in
  let period := if truthy wanted then wanted else JNum 5 in
  defaultPrefs = JObj defaults →
  storage_local w !! PREFS_KEY = Some (JObj stored) ∨
    (storage_local w !! PREFS_KEY = None ∧ stored = []) →
  ∃ w', rescheduleSessionAutoSave h w = (Normal tt, w') ∧
    (never_fails h →
     trace w' = trace w ++ [alarms_clear TS_SESSION_FREQUENT_SAVE;
                            storage_local_get PREFS_KEY;
                            alarms_create TS_SESSION_FREQUENT_SAVE period;
                            alarms_getAll]).
Proof.
  intros key wanted period Hdefaults Hstored.
  assert (js_or (field (js_spread defaultPrefs
                          (js_or (default JUndefined (storage_local w !! PREFS_KEY)) (JObj [])))
                   key) (JNum 5) = period) as Hperiod.
  { rewrite Hdefaults.
    assert (js_or (default JUndefined (storage_local w !! PREFS_KEY)) (JObj []) = JObj stored)
      as -> by (by destruct Hstored as [-> | [-> ->]]).
    by rewrite field_js_spread. }
  enough (wp (rescheduleSessionAutoSave h)
            (λ r w', r = Normal tt ∧
               (never_fails h →
                trace w' = trace w ++ [alarms_clear TS_SESSION_FREQUENT_SAVE;
                                       storage_local_get PREFS_KEY;
                                       alarms_create TS_SESSION_FREQUENT_SAVE period;
                                       alarms_getAll])) w) as Hwp.
  { unfold wp in Hwp. destruct (rescheduleSessionAutoSave h w) as [r w'].
    simpl in Hwp. destruct Hwp as [-> ?]. by exists w'. }
  unfold rescheduleSessionAutoSave, storage_get.
  assert (∀ tr c e, fails h tr c = Some e → ¬ never_fails h) as Hfailed.
  { intros tr c e Hfail Hnever. by rewrite Hnever in Hfail. }
  apply wp_try_catch.
  apply wp_bind, wp_call.
  case_fails Hclear;
    [apply wp_logger; split; [done | intros Hnever; by destruct (Hfailed _ _ _ Hclear)]|].
  apply wp_bind, wp_logger. apply wp_bind, wp_bind, (wp_call h _ (λ _, tt)).
  case_fails Hget;
    [apply wp_logger; split; [done | intros Hnever; by destruct (Hfailed _ _ _ Hget)]|].
  apply wp_bind, wp_get_world. apply wp_ret. cbn zeta.
  change (storage_local (posted _ (set_log _ (posted _ w)))) with (storage_local w).
  fold key. rewrite Hperiod.
  apply wp_bind, (wp_call h _ (λ _, tt)).
  case_fails Hcreate;
    [apply wp_logger; split; [done | intros Hnever; by destruct (Hfailed _ _ _ Hcreate)]|].
  apply wp_bind, wp_logger. apply wp_bind, wp_call.
  case_fails Hlist;
    [apply wp_logger; split; [done | intros Hnever; by destruct (Hfailed _ _ _ Hlist)]|].
  apply wp_logger. split; [done|]. intros _. simpl. by rewrite <- !app_assoc.
Qed.

End AutoSave.

(** *** The reloader with nothing to reload *)

Section NothingToReload.
Context {K : Constants} (h : Host).

(** X21. When none of the descriptors has a valid id (the empty list
    included), the batched reloader returns 0 at once, for every batch size
    (zero and negative ones too) and all delays: it makes no call, waits
    for nothing and lets no timer run. *)
Theorem reloadSuspendedTabsBatched_nothing_valid
    (tabs : list Tab) (batchSize perTabDelayMs batchDelayMs : Z) (w : World) :
  List.filter validTab tabs = [] →
  ∃ w', reloadSuspendedTabsBatched h tabs batchSize perTabDelayMs batchDelayMs w =
          (Normal 0, w') ∧
    trace w' = trace w ∧ now w' = now w ∧ timers w' = timers w ∧
    last (log w') = Some (LogRefreshCompleted 0 0 0).
Proof.
  intros Hnone. unfold reloadSuspendedTabsBatched. rewrite Hnone.
  unfold logger. munfold. simpl.
  eexists. split; [reflexivity|]. simpl. rewrite Z.sub_diag.
  split_and!; try done. by rewrite last_snoc.
Qed.

End NothingToReload.

Section NothingToReloadExample.
#[local] Existing Instance named_constants.

(** X21 on three descriptors without a valid id and a batch size of 0. *)
Lemma reloadSuspendedTabsBatched_nothing_valid_witness :
  let h := quiet_host [] [] in
  let invalid id := {| tab_id := id; tab_windowId := JNum 1;
                       tab_url := None; tab_title := JUndefined |} in
  let tabs := [invalid JUndefined; invalid (JNum 0); invalid (JStr "7")] in
  ∃ w', reloadSuspendedTabsBatched h tabs 0 1000 1200 (fresh_world ∅ 0) = (Normal 0, w') ∧
    trace w' = [] ∧ now w' = 0.
Proof.
  intros h invalid tabs.
  destruct (reloadSuspendedTabsBatched_nothing_valid h tabs 0 1000 1200 (fresh_world ∅ 0))
    as (w' & Hrun & Htrace & Hnow & _); [reflexivity|].
  by exists w'.
Defined.

End NothingToReloadExample.

(** *** The network status *)

(** [updateOfflineStatus] with a status hands that status back as the
    new offline mode and logs nothing. Without one it answers the negation
    of [navigator.onLine] as its last read gives it, and the line "Network
    status changed" is logged exactly when the two reads of
    [navigator.onLine] that the call makes disagree: while
    [navigator.onLine] is steady during the call nothing is logged,
    whatever the offline mode was before. *)
Theorem updateOfflineStatus_spec (onLine1 onLine2 : bool) (status : jsval) (w : World) :
  (status ≠ JNull → status ≠ JUndefined →
   updateOfflineStatus onLine1 onLine2 status w = (Normal status, w)) ∧
  (status = JNull ∨ status = JUndefined →
   ∃ w', updateOfflineStatus onLine1 onLine2 status w = (Normal (JBool (negb onLine2)), w') ∧
     isOffline (JBool (negb onLine2)) = JBool (negb onLine2) ∧
     trace w' = trace w ∧
     log w' = log w ++ (if Bool.eqb onLine1 onLine2 then []
                        else [Log "Network status changed"])).
Proof.
  split.
  - intros Hnull Hundefined. by destruct status.
  - intros [-> | ->]; unfold updateOfflineStatus, logger; munfold;
      destruct onLine1, onLine2; simpl;
      (eexists; split; [reflexivity|]; simpl; by rewrite ?app_nil_r).
Qed.

(** *** Examples *)

Section MoreExamples.
#[local] Existing Instance named_constants.

Ltac distinct_kinds :=
  unfold switch_kinds; simpl;
  repeat (apply not_elem_of_cons; split; [discriminate|]); apply not_elem_of_nil.

(** X9 on a content script that asks while a bulk operation runs: it is
    told so. *)
Lemma handleMessage_bulk_query_witness :
  let h := quiet_host [] [] in
  let w := world_after h [CallSetBulkOpRunning (JBool true)] ∅ 0 in
  let request := JObj [("type", JStr "IS_BULK_OP_RUNNING")] in
  ∃ w', handleMessage h request content_script w = (Normal true, w') ∧
    last (trace w') = Some (sendResponse (JObj [("running", JBool true)])).
Proof.
  intros h w request. eexists. split.
  - apply (handleMessage_bulk_query h request content_script w). reflexivity.
  - reflexivity.
Defined.

(** X10 on the content script of tab 5 that names tab 9: tab 9 is
    suspended. *)
Lemma handleMessage_suspend_tab_witness :
  let h := quiet_host [] [] in
  let request := JObj [("type", JStr MSG_SUSPEND_TAB); ("tabId", JNum 9)] in
  validateMessageSender h content_script true = false ∧
  ∃ w', handleMessage h request content_script (fresh_world ∅ 0) = (Normal true, w') ∧
    trace w' = [Suspension_suspendTab (JNum 9) false;
                sendResponse (JObj [("success", JBool true)])].
Proof.
  intros h request. split; [reflexivity|]. eexists. split.
  - rewrite (handleMessage_suspend_tab h request content_script (fresh_world ∅ 0));
      [reflexivity | reflexivity | distinct_kinds].
  - reflexivity.
Defined.

(** X12 on a web page and a suspended page, asked for by a content
    script. *)
Lemma handleMessage_extension_stats_witness :
  let suspended :=
    {| tab_id := JNum 11; tab_windowId := JNum 1;
       tab_url := Some "chrome-extension://extid/suspended.html#uri=https://example.com/";
       tab_title := JStr "Example" |} in
  let h := quiet_host [web_tab 1; suspended] [] in
  let request := JObj [("type", JStr MSG_GET_EXTENSION_STATS)] in
  ∃ w' response,
    handleMessage h request content_script (fresh_world ∅ 0) = (Normal true, w') ∧
    last (trace w') = Some (sendResponse response) ∧
    ((∃ message, response = thrown_response message ∧ ¬ never_fails h) ∨
     (∃ scheduled skipped,
        response = JObj [("success", JBool true); ("total", JNum 2);
                         ("suspended", JNum 1); ("scheduled", scheduled);
                         ("skipped", JNum skipped)] ∧
        0 ≤ skipped ∧ 1 + skipped ≤ 2)).
Proof.
  intros suspended h request.
  assert (MSG_GET_EXTENSION_STATS ∉
            "" :: switch_kinds ++ [MSG_CLEAR_FAVICON_CACHE; MSG_REFRESH_ALL_SUSPENDED_FAVICONS])
    as Hkind by distinct_kinds.
  exact (handleMessage_extension_stats h request content_script (fresh_world ∅ 0)
           eq_refl Hkind).
Defined.


(** X15 on the removal of window 2, the last focused one, while windows 1
    and 3 remain and window 3 is focused: the last focused window is the
    sentinel, not window 3, and no window was asked for. *)
Lemma handleWindowRemoval_real_window_witness :
  let h := quiet_host [] [ {| win_id := 1; win_focused := false |};
                           {| win_id := 3; win_focused := true |} ] in
  let w := set_lastFocusedWindowId 2
             (set_activeTabsByWindow {[ 1 := JNum 10; 2 := JNum 20 ]} (fresh_world ∅ 0)) in
  ∃ w', handleWindowRemoval h 2 w = (Normal tt, w') ∧
    trace w' = [] ∧
    lastFocusedWindowId w' = WINDOW_ID_NONE.
Proof.
  intros h w.
  destruct (handleWindowRemoval_real_window h 2 w) as (w' & Hrun & Htrace & _ & Hlast);
    [done|].
  exists w'. split; [exact Hrun|]. split; [exact Htrace | exact Hlast].
Defined.

(** X19 on a first focus on window 1, whose active tab is tab 7. *)
Lemma handleWindowFocusChanged_calls_witness :
  let h := quiet_host [web_tab 7] [] in
  ∃ w', handleWindowFocusChanged h 1 (fresh_world ∅ 0) = (Normal tt, w') ∧
    trace w' = [active_tab_query 1; Scheduling_unscheduleTab (JNum 7)].
Proof.
  intros h.
  apply (handleWindowFocusChanged_calls h 1 (fresh_world ∅ 0) (web_tab 7) []);
    [done | reflexivity | reflexivity | reflexivity | by left].
Defined.

(** X20 on stored preferences with a frequency of 0: the alarm is created
    with a period of 5. *)
Lemma rescheduleSessionAutoSave_period_witness :
  let h := quiet_host [] [] in
  let stored := [("sessionAutoSaveFrequency", JNum 0)] in
  let w := fresh_world {[ PREFS_KEY := JObj stored ]} 0 in
  ∃ w', rescheduleSessionAutoSave h w = (Normal tt, w') ∧
    trace w' = [alarms_clear TS_SESSION_FREQUENT_SAVE; storage_local_get PREFS_KEY;
                alarms_create TS_SESSION_FREQUENT_SAVE (JNum 5); alarms_getAll].
Proof.
  intros h stored w.
  destruct (rescheduleSessionAutoSave_period h w [] stored) as (w' & Hrun & Htrace);
    [reflexivity | by left |].
  exists w'. split; [exact Hrun|]. apply Htrace. by intros tr c.
Defined.

End MoreExamples.

(** *** The watchdog and a restart of the worker *)

Section WorkerRestart.
Context {K : Constants} (h : Host).

Lemma cleanupStateReferences_durable (w : World) :
  ∃ w', cleanupStateReferences h w = (Normal tt, w') ∧ same_durable w w'.
Proof.
  enough (wp (cleanupStateReferences h)
            (λ r w', r = Normal tt ∧ same_durable w w') w) as Hwp.
  { unfold wp in Hwp. destruct (cleanupStateReferences h w) as [r w'].
    simpl in Hwp. destruct Hwp as [-> ?]. by exists w'. }
  unfold cleanupStateReferences. apply wp_try_catch.
  eapply (wp_respects same_durable).
  { repeat respects_step; (apply respects_modify; try apply _; done). }
  intros r w' Hend Hsame.
  destruct r as [[]|e|]; [by split | | by destruct Hend].
  apply wp_logger. split; [done|]. exact Hsame.
Qed.

Lemma idle_perform (c : StoreCall) (w : World) :
  STORAGE_KEYS_BULK_RUNNING ≠ STORAGE_KEYS_FAVICON_REFRESH_RUNNING →
  leaves_bulk_flag c = true →
  timers w = [] →
  ∃ w', perform h c w = (Normal tt, w') ∧
    timers w' = [] ∧
    storage_local w' !! STORAGE_KEYS_BULK_RUNNING =
      storage_local w !! STORAGE_KEYS_BULK_RUNNING.
Proof.
  intros Hkeys Hc Hidle.
  destruct c as [v| |v| | |windowId|windowId tabId|windowId|ms]; [done|..]; simpl.
  - munfold. rewrite getBulkOpRunning_run. eexists. split; [reflexivity|].
    simpl. unfold flag_read_world. by destruct (fails h _ _).
  - rewrite setFaviconRefreshRunning_run. eexists. split; [reflexivity|].
    unfold flag_write_world.
    destruct (fails h _ _); simpl; [done|]. by rewrite lookup_insert_ne.
  - munfold. rewrite getFaviconRefreshRunning_run. eexists. split; [reflexivity|].
    simpl. unfold flag_read_world. by destruct (fails h _ _).
  - destruct (cleanupStateReferences_durable w)
      as (w' & Hrun & [[(Htimers & _) _] Hst]).
    exists w'. split; [exact Hrun|]. by rewrite Htimers, Hst.
  - eexists. split; [reflexivity|]. unfold updateLastFocusedWindow. by case_decide.
  - eexists. split; [reflexivity|]. done.
  - eexists. split; [reflexivity|].
    unfold removeWindowTracking. destruct (bool_decide _); simpl; by case_decide.
  - rewrite elapse_idle by done. eexists. split; [reflexivity|]. done.
Qed.

(** X22. The watchdog lives in the memory of the worker. A worker that
    starts on a storage area in which the bulk flag is stored has no timer
    for it, and as long as [setBulkOpRunning] is not called, the flag stays
    as it was found and no timer is pending, whatever time passes and
    whatever else is called on the state store (the two storage keys being
    different). *)
Theorem watchdog_lost_on_restart
    (calls : list StoreCall) (storage : gmap string jsval) (t : Z) :
  STORAGE_KEYS_BULK_RUNNING ≠ STORAGE_KEYS_FAVICON_REFRESH_RUNNING →
  Forall (λ c, leaves_bulk_flag c = true) calls →
  let w := world_after h calls storage t in
  timers w = [] ∧
  storage_local w !! STORAGE_KEYS_BULK_RUNNING = storage !! STORAGE_KEYS_BULK_RUNNING.
Proof.
  intros Hkeys Hcalls. unfold world_after.
  assert (timers (fresh_world storage t) = [] ∧
          storage_local (fresh_world storage t) !! STORAGE_KEYS_BULK_RUNNING =
            storage !! STORAGE_KEYS_BULK_RUNNING) as Hstart by done.
  revert Hstart. generalize (fresh_world storage t).
  induction Hcalls as [|c calls Hc _ IH]; intros w [Hidle Hflag]; simpl; [done|].
  destruct (idle_perform c w Hkeys Hc Hidle) as (w' & Hrun & Hidle' & Hflag').
  munfold. rewrite Hrun. apply IH. split; [done | congruence].
Qed.

End WorkerRestart.

Section WorkerRestartExample.
#[local] Existing Instance named_constants.

(** X22 on a worker that finds the flag stored as [true]: an hour and a
    reading later the flag is still [true] and nothing is pending. *)
Lemma watchdog_lost_on_restart_witness :
  let h := quiet_host [] [] in
  let w := world_after h [TimePasses 3600000; CallGetBulkOpRunning]
             {[ "BULK_RUNNING" := JBool true ]} 0 in
  timers w = [] ∧ storage_local w !! "BULK_RUNNING" = Some (JBool true).
Proof.
  intros h w.
  destruct (watchdog_lost_on_restart h [TimePasses 3600000; CallGetBulkOpRunning]
              {[ "BULK_RUNNING" := JBool true ]} 0) as [Hidle Hflag];
    [done | by repeat constructor |].
  split; [exact Hidle | exact Hflag].
Defined.

End WorkerRestartExample.

(** *** The lock of the favicon refresh *)

Section RefreshLock.
Context {K : Constants} (h : Host).

(** A request for a refresh while the flag reads [true]. *)
Lemma handleMessage_refresh_refused (sender : Sender) (w : World) :
  MSG_REFRESH_ALL_SUSPENDED_FAVICONS ∉ "" :: switch_kinds ++ [MSG_CLEAR_FAVICON_CACHE] →
  flag_reading h STORAGE_KEYS_FAVICON_REFRESH_RUNNING w = true →
  ∃ w', handleMessage h (JObj [("type", JStr MSG_REFRESH_ALL_SUSPENDED_FAVICONS)]) sender w =
          (Normal true, w') ∧
    trace w' = trace w ++ [storage_local_get STORAGE_KEYS_FAVICON_REFRESH_RUNNING;
                           sendResponse already_running_response] ∧
    storage_local w' = storage_local w ∧
    timers w' = timers w.
Proof.
  intros Hkind Hflag. rewrite not_elem_of_cons, not_elem_of_app in Hkind.
  destruct Hkind as (Hnonempty & Hswitch & Hadmin).
  rewrite !not_elem_of_cons in Hadmin. destruct Hadmin as (Hclear & _).
  rewrite handleMessage_reaches_default;
    [| simpl; apply negb_true_iff; by apply String.eqb_neq
     | by apply one_of_not_elem].
  unfold handleMessage_default. cbn [field assoc String.eqb Ascii.eqb Bool.eqb is_str].
  rewrite (proj2 (String.eqb_neq _ _) Hclear), String.eqb_refl.
  rewrite bind_run, handleAsyncMessage_run.
  unfold refreshAllSuspendedFavicons. rewrite bind_run, getFaviconRefreshRunning_run.
  change (flag_reading h STORAGE_KEYS_FAVICON_REFRESH_RUNNING
            (set_log (log w ++ [DetailedLog "Received message"]) w))
    with (flag_reading h STORAGE_KEYS_FAVICON_REFRESH_RUNNING w).
  rewrite Hflag. eexists. split; [reflexivity|]. simpl.
  rewrite flag_read_world_trace, flag_read_world_storage, <- app_assoc.
  split; [done|]. split; [done|]. unfold flag_read_world. by destruct (fails h _ _).
Qed.

(** X23. The lock of the favicon refresh has no watchdog. A worker that
    starts on a working storage area in which the favicon-refresh flag is
    stored with a truthy value (a refresh that never got to its [finally],
    say) refuses every request for a refresh, from every sender and
    however much time passes in between: the only calls ever made are the
    reads of the flag and the replies "already running"; no tab is queried
    or reloaded, and the storage stays as it was found. *)
Theorem favicon_refresh_lock_never_expires
    (steps : list RefreshStep) (storage : gmap string jsval) (t : Z) (v : jsval) :
  storage_works h →
  MSG_REFRESH_ALL_SUSPENDED_FAVICONS ∉ "" :: switch_kinds ++ [MSG_CLEAR_FAVICON_CACHE] →
  storage !! STORAGE_KEYS_FAVICON_REFRESH_RUNNING = Some v →
  truthy v = true →
  ∃ w', for_each steps (refresh_step h) (fresh_world storage t) = (Normal tt, w') ∧
    storage_local w' = storage ∧
    Forall (λ c, c = storage_local_get STORAGE_KEYS_FAVICON_REFRESH_RUNNING ∨
                 c = sendResponse already_running_response) (trace w').
Proof.
  intros Hworks Hkind Hstored Htruthy.
  assert (storage_local (fresh_world storage t) = storage ∧
          timers (fresh_world storage t) = [] ∧
          Forall (λ c, c = storage_local_get STORAGE_KEYS_FAVICON_REFRESH_RUNNING ∨
                       c = sendResponse already_running_response)
            (trace (fresh_world storage t))) as Hstart by (split_and!; done).
  revert Hstart. generalize (fresh_world storage t).
  induction steps as [|[sender|ms] steps IH]; intros w (Hst & Hidle & Hcalls); simpl.
  - by exists w.
  - destruct (handleMessage_refresh_refused sender w Hkind) as (w' & Hrun & Htrace & Hst' & Hidle').
    { unfold flag_reading. rewrite Hworks by done. by rewrite Hst, Hstored. }
    rewrite !bind_run, Hrun. apply IH. rewrite Hst', Hidle', Htrace.
    split_and!; [done | done |]. apply Forall_app. split; [done|].
    constructor; [by left|]. constructor; [by right | constructor].
  - rewrite bind_run, elapse_idle by done. apply IH. simpl. done.
Qed.

End RefreshLock.

Section RefreshLockExample.
#[local] Existing Instance named_constants.

(** X23 on two requests a day apart. *)
Lemma favicon_refresh_lock_never_expires_witness :
  let h := quiet_host [web_tab 1] [] in
  let storage : gmap string jsval := {[ "FAVICON_REFRESH_RUNNING" := JBool true ]} in
  let steps := [AskRefresh extension_page; Wait 86400000; AskRefresh extension_page] in
  ∃ w', for_each steps (refresh_step h) (fresh_world storage 0) = (Normal tt, w') ∧
    storage_local w' = storage ∧
    List.filter is_sendResponse (trace w') =
      [sendResponse already_running_response; sendResponse already_running_response].
Proof.
  intros h storage steps.
  destruct (favicon_refresh_lock_never_expires h steps storage 0 (JBool true))
    as (w' & Hrun & Hst & _).
  - by intros tr c _.
  - unfold switch_kinds; simpl.
    repeat (apply not_elem_of_cons; split; [discriminate|]). apply not_elem_of_nil.
  - reflexivity.
  - reflexivity.
  - exists w'. split; [exact Hrun|]. split; [exact Hst|].
    assert (w' = (for_each steps (refresh_step h) (fresh_world storage 0)).2) as ->
      by (by rewrite Hrun).
    vm_compute. reflexivity.
Defined.

End RefreshLockExample.

(** *** What a listener can throw *)

Section Throws.
Context (h : Host).

Lemma wp_event_returns (body : M unit) (e : LogEntry) (w : World) :
  (body w).1 ≠ Diverge →
  wp (withErrorHandling (try_catch body (λ _, logger e))) (λ r _, r = Normal tt) w.
Proof.
  unfold wp, withErrorHandling, try_catch, logger, modify.
  destruct (body w) as [[[]|message|] w']; simpl; intros Hend; auto.
  by destruct Hend.
Qed.

Ltac body_ends :=
  match goal with
  | |- (?body ?w).1 ≠ Diverge =>
      let Hbody := fresh "Hbody" in
      assert (respects same_durable body) as Hbody;
      [ repeat respects_step;
        (apply respects_modify; try apply _;
         first [ done
               | apply same_durable_updateLastFocusedWindow
               | apply same_durable_removeWindowTracking ])
      | apply Hbody ]
  end.

(** X24. A listener returns normally on every host and in every state,
    whatever calls fail, with one exception: the purge of the suspension
    time that opens the handler of a tab removal is made outside every
    [try], and its failure is thrown by that handler. (The scheduling of a
    tab is asynchronous, as the handlers that await it show: the two
    handlers that drop its promise cannot be reached by its failure.) *)
Theorem listener_throws_only_purge (ev : Event) (w : World) :
  ∃ r w', listener h ev w = (r, w') ∧
    match ev with
    | OnTabRemoved tabId _ =>
        match fails h (trace w) (Scheduling_removeTabSuspendTime tabId) with
        | Some message => r = Throw message
        | None => r = Normal tt
        end
    | _ => r = Normal tt
    end.
Proof.
  enough (wp (listener h ev)
            (λ r _, match ev with
                    | OnTabRemoved tabId _ =>
                        match fails h (trace w) (Scheduling_removeTabSuspendTime tabId) with
                        | Some message => r = Throw message
                        | None => r = Normal tt
                        end
                    | _ => r = Normal tt
                    end) w) as Hwp.
  { unfold wp in Hwp. destruct (listener h ev w) as [r w']. by exists r, w'. }
  destruct ev as [tab|tabId changeInfo tab|tabId removeInfo|activeInfo|windowId|window
                 |windowId|]; simpl.
  - unfold handleTabCreated. destruct tab as [tab|]; [|done].
    by destruct (negb _).
  - unfold handleTabUpdated. destruct tab as [tab|]; [|done].
    destruct (negb _); [done|]. unfold wp, logger, when, post. munfold. simpl.
    by destruct (_ || _).
  - unfold handleTabRemoved. apply wp_bind, wp_logger.
    apply wp_bind, (wp_call h _ (λ _, tt)). simpl trace.
    destruct (fails h (trace w) _); [done|].
    apply wp_event_returns. body_ends.
  - unfold handleTabActivated. apply wp_bind, wp_logger.
    apply wp_event_returns. body_ends.
  - unfold handleWindowFocusChanged. apply wp_bind, wp_logger.
    destruct (decide _); [done|].
    apply wp_bind, wp_get_world. apply wp_bind, wp_modify.
    apply wp_event_returns. unfold reschedule_window. body_ends.
  - done.
  - unfold handleWindowRemoval. apply wp_bind, wp_logger.
    apply wp_event_returns. body_ends.
  - unfold handleStartup, call, issue, logger, wp. munfold. simpl.
    by destruct (fails h _ _).
Qed.

End Throws.

(** *** The reloader without delays *)

Section NoDelays.
Context {K : Constants} (h : Host).

Lemma reload_batch_no_delay (batchStart len perTabDelayMs : Z) (batch : list Tab)
    (index : Z) (counts : Z * Z) :
  perTabDelayMs ≤ 0 →
  respects same_durable (reload_batch h batchStart len perTabDelayMs batch index counts).
Proof.
  intros Hoff. revert index counts.
  induction batch as [|tab batch IH]; intros index counts; simpl.
  - respects_step.
  - respects_step; [|apply IH]. unfold reload_member.
    rewrite (bool_decide_false (0 < perTabDelayMs)) by lia. rewrite andb_false_r.
    cbn [when]. repeat respects_step.
Qed.

Lemma run_chunks_no_delay (perTabDelayMs batchDelayMs total : Z)
    (batches : list (list Tab)) (done : Z) (counts : Z * Z) :
  perTabDelayMs ≤ 0 → batchDelayMs ≤ 0 →
  respects same_durable
    (run_chunks h perTabDelayMs batchDelayMs total batches done counts).
Proof.
  intros Hoff Hoff'. revert done counts.
  induction batches as [|batch rest IH]; intros done counts; simpl.
  - respects_step.
  - rewrite (bool_decide_false (0 < batchDelayMs)) by lia. rewrite andb_false_r.
    cbn [when]. repeat respects_step; first [by apply reload_batch_no_delay | apply IH].
Qed.

(** X25. With a positive batch size and both delays switched off (zero or
    negative), the batched reloader waits for nothing: when it returns the
    clock stands where it stood, no timer has run (a pending watchdog is
    still pending), and the storage area is untouched. *)
Theorem reloadSuspendedTabsBatched_no_delays
    (tabs : list Tab) (batchSize perTabDelayMs batchDelayMs : Z) (w : World) :
  0 < batchSize → perTabDelayMs ≤ 0 → batchDelayMs ≤ 0 →
  ∃ count w',
    reloadSuspendedTabsBatched h tabs batchSize perTabDelayMs batchDelayMs w =
      (Normal count, w') ∧
    now w' = now w ∧ timers w' = timers w ∧
    bulkOpTimeoutId w' = bulkOpTimeoutId w ∧ storage_local w' = storage_local w.
Proof.
  intros Hb Hoff Hoff'.
  destruct (reloadSuspendedTabsBatched_run h tabs batchSize perTabDelayMs batchDelayMs w Hb)
    as (Hloop & w' & outcomes & Hrun & _).
  exists (succeeded outcomes), w'. split; [exact Hrun|].
  assert (respects same_durable
            (reloadSuspendedTabsBatched h tabs batchSize perTabDelayMs batchDelayMs))
    as Hsame.
  { unfold reloadSuspendedTabsBatched.
    respects_step; [respects_step|]. cbn zeta.
    respects_step; [respects_step|].
    respects_step; [|repeat respects_step].
    eapply respects_ext; [exact Hloop | by apply run_chunks_no_delay]. }
  destruct (Hsame w) as [_ Hw]. rewrite Hrun in Hw.
  by destruct Hw as [[(? & ? & ?) ?] ?].
Qed.

End NoDelays.

Section NoDelaysExample.
#[local] Existing Instance named_constants.

(** X25 on two tabs reloaded while a watchdog is pending. *)
Lemma reloadSuspendedTabsBatched_no_delays_witness :
  let h := quiet_host [] [] in
  let w := world_after h [CallSetBulkOpRunning (JBool true)] ∅ 0 in
  ∃ count w',
    reloadSuspendedTabsBatched h [web_tab 1; web_tab 2] 1 0 0 w = (Normal count, w') ∧
    now w' = 0 ∧ timers w' = [{| timer_id := 1; timer_due := 600000 |}].
Proof.
  intros h w.
  destruct (reloadSuspendedTabsBatched_no_delays h [web_tab 1; web_tab 2] 1 0 0 w)
    as (count & w' & Hrun & Hnow & Htimers & _); [lia | lia | lia |].
  exists count, w'. split; [exact Hrun|]. split; [exact Hnow | exact Htimers].
Defined.

End NoDelaysExample.
